(** * DE-Architect-Assistant: the graph store, the viewport and the canvas
      gestures of the Visual Builder

    A shallow embedding of the TypeScript sources:
    - [types.ts]                       the records of the data model;
    - [App.tsx] (both revisions)       the graph store kept in [formState]
                                       and the submit handler;
    - [services/geminiService.ts]      [formatError];
    - [components/VisualBuilder.tsx]   two revisions of the canvas: the one
                                       with a viewport (zoom, pan, three node
                                       kinds), module [VisualBuilder], and
                                       the earlier one working in screen
                                       pixels, module [VisualBuilderBasic].

    A JavaScript [number] is a rational ([Q]): every statement about
    coordinates is a statement of exact arithmetic, and equality of numbers
    is [Qeq].  A JavaScript string that the code only stores, compares or
    concatenates is a [string], and [===] on such strings is [String.eqb].
    The technical requirements, whose [length] and white space the code
    inspects, are kept as what a JavaScript string is: the list of its
    UTF-16 code units.  React state is passed explicitly: a handler is a
    function from the state current at the event to the state after it. *)

From Stdlib Require Import List String Ascii Bool Arith NArith Lia.
From Stdlib Require Import QArith Qminmax Qabs Lqa.
Import ListNotations.

Close Scope Q_scope.
Open Scope string_scope.

(* ================================================================== *)
(** * types.ts *)

Module NodePosition.
Record t : Type := mk { x : Q; y : Q }.

(** Equality of the two coordinates as numbers. *)
Definition equiv (p q : t) : Prop := (x p == x q)%Q /\ (y p == y q)%Q.
End NodePosition.

Module DataSource.
Record t : Type := mk {
  id : string;
  name : string;
  database : string;
  schema : string;
  tables : string;
  dataType : string;
  volume : string;
  frequency : string;
  position : option NodePosition.t
}.

(** [Partial<DataSource>]: every key may be absent. *)
Record partial : Type := mkPartial {
  p_id : option string;
  p_name : option string;
  p_database : option string;
  p_schema : option string;
  p_tables : option string;
  p_dataType : option string;
  p_volume : option string;
  p_frequency : option string;
  p_position : option NodePosition.t
}.

(** The object literal [{ position: pos }]. *)
Definition justPosition (pos : NodePosition.t) : partial :=
  mkPartial None None None None None None None None (Some pos).

(** The spread [{ ...node, ...data }]: the keys present in [data] win. *)
Definition merge (node : t) (data : partial) : t :=
  mk (match p_id data with Some v => v | None => id node end)
     (match p_name data with Some v => v | None => name node end)
     (match p_database data with Some v => v | None => database node end)
     (match p_schema data with Some v => v | None => schema node end)
     (match p_tables data with Some v => v | None => tables node end)
     (match p_dataType data with Some v => v | None => dataType node end)
     (match p_volume data with Some v => v | None => volume node end)
     (match p_frequency data with Some v => v | None => frequency node end)
     (match p_position data with Some v => Some v | None => position node end).
End DataSource.

Module TransformationNode.
Record t : Type := mk {
  id : string;
  name : string;
  processingType : string;
  description : string;
  position : option NodePosition.t
}.

Record partial : Type := mkPartial {
  p_id : option string;
  p_name : option string;
  p_processingType : option string;
  p_description : option string;
  p_position : option NodePosition.t
}.

Definition justPosition (pos : NodePosition.t) : partial :=
  mkPartial None None None None (Some pos).

Definition merge (node : t) (data : partial) : t :=
  mk (match p_id data with Some v => v | None => id node end)
     (match p_name data with Some v => v | None => name node end)
     (match p_processingType data with Some v => v | None => processingType node end)
     (match p_description data with Some v => v | None => description node end)
     (match p_position data with Some v => Some v | None => position node end).
End TransformationNode.

Module DataTarget.
Record t : Type := mk {
  id : string;
  name : string;
  storageFormat : string;
  partitioning : string;
  position : option NodePosition.t
}.

Record partial : Type := mkPartial {
  p_id : option string;
  p_name : option string;
  p_storageFormat : option string;
  p_partitioning : option string;
  p_position : option NodePosition.t
}.

Definition justPosition (pos : NodePosition.t) : partial :=
  mkPartial None None None None (Some pos).

Definition merge (node : t) (data : partial) : t :=
  mk (match p_id data with Some v => v | None => id node end)
     (match p_name data with Some v => v | None => name node end)
     (match p_storageFormat data with Some v => v | None => storageFormat node end)
     (match p_partitioning data with Some v => v | None => partitioning node end)
     (match p_position data with Some v => Some v | None => position node end).
End DataTarget.

Module Connection.
Record t : Type := mk {
  id : string;
  sourceId : string;
  targetId : string
}.
End Connection.

Module DeRequestState.
Record t : Type := mk {
  techRequirements : list N;  (* UTF-16 code units *)
  productRequirements : string;
  existingTools : list string;
  dataSources : list DataSource.t;
  transformationNodes : list TransformationNode.t;
  dataTargets : list DataTarget.t;
  connections : list Connection.t
}.
End DeRequestState.

(* ================================================================== *)
(** * JavaScript helpers used by the handlers *)

Module JS.

(** [a || b] on a value that may be absent. *)
Definition orElse {A : Type} (a : option A) (b : A) : A :=
  match a with
  | Some v => v
  | None => b
  end.

(** Truthiness of a [string | null]: [null] and the empty string are
    falsy. *)
Definition truthy (s : option string) : bool :=
  match s with
  | Some EmptyString => false
  | Some _ => true
  | None => false
  end.

(** [String.prototype.startsWith]. *)
Fixpoint startsWith (s sub : string) {struct sub} : bool :=
  match sub with
  | EmptyString => true
  | String c sub' =>
      match s with
      | EmptyString => false
      | String d s' => Ascii.eqb c d && startsWith s' sub'
      end
  end.

(** [String.prototype.includes]: [sub] occurs somewhere in [s]. *)
Fixpoint includes (s sub : string) : bool :=
  startsWith s sub ||
  match s with
  | EmptyString => false
  | String _ s' => includes s' sub
  end.

(** A string as the list of its UTF-16 code units, for the text whose
    characters the code looks at; [length] is [List.length]. *)
Definition text : Type := list N.

(** The text of a literal made of ASCII characters. *)
Definition units (s : string) : text :=
  map N_of_ascii (list_ascii_of_string s).

(** The code units [String.prototype.trim] strips: the WhiteSpace and
    LineTerminator code points of ECMAScript, all of one code unit.  TAB, LF,
    VT, FF, CR, SPACE, NO-BREAK SPACE, U+1680, U+2000 to U+200A, U+2028,
    U+2029, U+202F, U+205F, U+3000 and U+FEFF. *)
Definition isWhiteSpace (c : N) : bool :=
  (((9 <=? c) && (c <=? 13)) || (c =? 32) || (c =? 160) || (c =? 5760)
   || ((8192 <=? c) && (c <=? 8202)) || (c =? 8232) || (c =? 8233)
   || (c =? 8239) || (c =? 8287) || (c =? 12288) || (c =? 65279))%N.

Fixpoint trimStart (s : text) : text :=
  match s with
  | [] => []
  | c :: s' => if isWhiteSpace c then trimStart s' else s
  end.

(** Drops the trailing white space of [s]. *)
Fixpoint trimEnd (s : text) : text :=
  match s with
  | [] => []
  | c :: s' =>
      match trimEnd s' with
      | [] => if isWhiteSpace c then [] else [c]
      | rest => c :: rest
      end
  end.

Definition trim (s : text) : text := trimEnd (trimStart s).

(** Truthiness of a text: non-empty. *)
Definition nonEmptyText (s : text) : bool :=
  match s with
  | [] => false
  | _ :: _ => true
  end.

(** Truthiness of a string: non-empty. *)
Definition nonEmpty (s : string) : bool :=
  match s with
  | EmptyString => false
  | String _ _ => true
  end.

(** [Math.max] and [Math.min] on numbers. *)
Definition Math_max (a b : Q) : Q := Qmax a b.
Definition Math_min (a b : Q) : Q := Qmin a b.

(** [a || b] on strings: the empty string is falsy. *)
Definition orDefault (a : option string) (b : string) : string :=
  match a with
  | Some v => if nonEmpty v then v else b
  | None => b
  end.

(** [Array.prototype.filter] with a callback that also reads the index;
    [i] is the index of the head of [l]. *)
Fixpoint filterIndex {A : Type} (p : A -> nat -> bool) (i : nat) (l : list A)
    : list A :=
  match l with
  | [] => []
  | a :: l' => if p a i then a :: filterIndex p (S i) l' else filterIndex p (S i) l'
  end.

(** [Array.prototype.map] with a callback that also reads the index. *)
Fixpoint mapIndex {A B : Type} (f : A -> nat -> B) (i : nat) (l : list A)
    : list B :=
  match l with
  | [] => []
  | a :: l' => f a i :: mapIndex f (S i) l'
  end.

(** [Array.prototype.forEach] with a callback that reads the index and
    updates a state. *)
Fixpoint forEachIndex {A St : Type} (f : A -> nat -> St -> St) (i : nat)
    (l : list A) (s : St) : St :=
  match l with
  | [] => s
  | a :: l' => forEachIndex f (S i) l' (f a i s)
  end.

(** An array index or a length as a number. *)
Definition num (n : nat) : Q := inject_Z (Z.of_nat n).

(** [Math.abs]. *)
Definition Math_abs (a : Q) : Q := Qabs a.

End JS.

(* ================================================================== *)
(** * services/geminiService.ts *)

Module GeminiService.

(** A thrown value as [formatError] looks at it: its [message] property,
    which may be missing, and what [toString()] gives. *)
Record JsError : Type := mkError {
  message : option string;
  toString : string
}.

(** [error.message || error.toString()]: a missing or empty message is
    falsy. *)
Definition errorMessage (error : JsError) : string :=
  match message error with
  | Some m => if JS.nonEmpty m then m else toString error
  | None => toString error
  end.

Definition formatError (error : JsError) : string :=
  let errorMessage := errorMessage error in
  if JS.includes errorMessage "401" || JS.includes errorMessage "UNAUTHENTICATED"
  then "Authentication Failed: Invalid API Key."
  else if JS.includes errorMessage "429" || JS.includes errorMessage "RESOURCE_EXHAUSTED"
  then "Rate Limit Exceeded: Please wait a moment."
  else if JS.includes errorMessage "SAFETY" || JS.includes errorMessage "blocked"
  then "Content Error: Request blocked by safety filters."
  else "Generation Failed: " ++ errorMessage.

(** [getNodeName], the helper of [generateSolution] in the revision with
    transformation nodes: sources first, then targets, then
    transformations. *)
Definition getNodeName (data : DeRequestState.t) (id : string) : string :=
  match find (fun s => DataSource.id s =? id) (DeRequestState.dataSources data) with
  | Some source => "Source: " ++ DataSource.name source
  | None =>
      match find (fun t => DataTarget.id t =? id)
                 (DeRequestState.dataTargets data) with
      | Some target => "Target: " ++ DataTarget.name target
      | None =>
          match find (fun t => TransformationNode.id t =? id)
                     (DeRequestState.transformationNodes data) with
          | Some trans => "Transform: " ++ TransformationNode.name trans
          | None => "Unknown Node"
          end
      end
  end.

(** The objects [JSON.parse] gives for the layout answer, as far as the
    response schema describes them: every property is a string and may be
    missing. *)
Record RawSource : Type := mkRawSource {
  rs_id : option string;
  rs_name : option string;
  rs_database : option string;
  rs_schema : option string;
  rs_tables : option string;
  rs_dataType : option string;
  rs_volume : option string;
  rs_frequency : option string
}.

Record RawTransform : Type := mkRawTransform {
  rt_id : option string;
  rt_name : option string;
  rt_processingType : option string;
  rt_description : option string
}.

Record RawTarget : Type := mkRawTarget {
  rg_id : option string;
  rg_name : option string;
  rg_storageFormat : option string;
  rg_partitioning : option string
}.

Record RawConnection : Type := mkRawConnection {
  rc_sourceId : string;
  rc_targetId : string
}.

Record RawLayout : Type := mkRawLayout {
  raw_dataSources : option (list RawSource);
  raw_transformationNodes : option (list RawTransform);
  raw_dataTargets : option (list RawTarget);
  raw_connections : option (list RawConnection)
}.

(** What [generatePipelineLayout] returns. *)
Module Layout.
Record t : Type := mk {
  dataSources : list DataSource.t;
  transformationNodes : list TransformationNode.t;
  dataTargets : list DataTarget.t;
  connections : list Connection.t
}.
End Layout.

(** The four [map] callbacks after [JSON.parse]; [uuid] is the value
    [crypto.randomUUID()] gives when the callback asks for one. *)
Definition safeSource (uuid : string) (s : RawSource) : DataSource.t :=
  DataSource.mk (JS.orDefault (rs_id s) uuid)
    (JS.orDefault (rs_name s) "Unknown Source")
    (JS.orDefault (rs_database s) "")
    (JS.orDefault (rs_schema s) "")
    (JS.orDefault (rs_tables s) "")
    (JS.orDefault (rs_dataType s) "")
    (JS.orDefault (rs_volume s) "")
    (JS.orDefault (rs_frequency s) "Daily")
    None.

Definition safeTransform (uuid : string) (t : RawTransform)
    : TransformationNode.t :=
  TransformationNode.mk (JS.orDefault (rt_id t) uuid)
    (JS.orDefault (rt_name t) "Processing Step")
    (JS.orDefault (rt_processingType t) "SQL")
    (JS.orDefault (rt_description t) "")
    None.

Definition safeTarget (uuid : string) (t : RawTarget) : DataTarget.t :=
  DataTarget.mk (JS.orDefault (rg_id t) uuid)
    (JS.orDefault (rg_name t) "Unknown Target")
    (JS.orDefault (rg_storageFormat t) "")
    (JS.orDefault (rg_partitioning t) "")
    None.

Definition safeConnection (uuid : string) (c : RawConnection) : Connection.t :=
  Connection.mk uuid (rc_sourceId c) (rc_targetId c).

(** The part of [generatePipelineLayout] after [JSON.parse].  [uuid k i]
    is the value drawn for item [i] of collection [k] (0 sources,
    1 transformations, 2 targets, 3 connections). *)
Definition sanitizeLayout (uuid : nat -> nat -> string) (result : RawLayout)
    : Layout.t :=
  Layout.mk
    (JS.mapIndex (fun s i => safeSource (uuid 0%nat i) s) 0
       (JS.orElse (raw_dataSources result) []))
    (JS.mapIndex (fun t i => safeTransform (uuid 1%nat i) t) 0
       (JS.orElse (raw_transformationNodes result) []))
    (JS.mapIndex (fun t i => safeTarget (uuid 2%nat i) t) 0
       (JS.orElse (raw_dataTargets result) []))
    (JS.mapIndex (fun c i => safeConnection (uuid 3%nat i) c) 0
       (JS.orElse (raw_connections result) [])).

End GeminiService.

(* ================================================================== *)
(** * App.tsx: the graph store and the submit handler *)

Module App.
Import DeRequestState.

Definition initialState : DeRequestState.t :=
  mk [] "" ["BigQuery"; "S3"]
     [DataSource.mk "1" "MySQL" "payments_prod" "public" "transactions, users"
        "Relational" "2M rows" "Daily" (Some (NodePosition.mk 50 50))]
     [TransformationNode.mk "t1" "Clean & Join" "dbt"
        "Clean nulls and join users with transactions"
        (Some (NodePosition.mk 350 50))]
     [DataTarget.mk "10" "Redshift" "Columnar" "Day"
        (Some (NodePosition.mk 650 50))]
     [Connection.mk "c1" "1" "t1"; Connection.mk "c2" "t1" "10"].

(** Each setter below is the function passed to [setFormState]: from the
    previous state [prev] to the next one. *)

Definition updateSourceNode (id : string) (data : DataSource.partial)
    (prev : DeRequestState.t) : DeRequestState.t :=
  mk (techRequirements prev) (productRequirements prev) (existingTools prev)
     (map (fun node => if DataSource.id node =? id
                       then DataSource.merge node data else node)
          (dataSources prev))
     (transformationNodes prev) (dataTargets prev) (connections prev).

Definition updateTransformationNode (id : string)
    (data : TransformationNode.partial)
    (prev : DeRequestState.t) : DeRequestState.t :=
  mk (techRequirements prev) (productRequirements prev) (existingTools prev)
     (dataSources prev)
     (map (fun node => if TransformationNode.id node =? id
                       then TransformationNode.merge node data else node)
          (transformationNodes prev))
     (dataTargets prev) (connections prev).

Definition updateTargetNode (id : string) (data : DataTarget.partial)
    (prev : DeRequestState.t) : DeRequestState.t :=
  mk (techRequirements prev) (productRequirements prev) (existingTools prev)
     (dataSources prev) (transformationNodes prev)
     (map (fun node => if DataTarget.id node =? id
                       then DataTarget.merge node data else node)
          (dataTargets prev))
     (connections prev).

(** [c => c.sourceId !== id && c.targetId !== id] *)
Definition notTouching (id : string) (c : Connection.t) : bool :=
  negb (Connection.sourceId c =? id) && negb (Connection.targetId c =? id).

Definition removeSourceNode (id : string) (prev : DeRequestState.t)
    : DeRequestState.t :=
  mk (techRequirements prev) (productRequirements prev) (existingTools prev)
     (filter (fun node => negb (DataSource.id node =? id)) (dataSources prev))
     (transformationNodes prev) (dataTargets prev)
     (filter (notTouching id) (connections prev)).

Definition removeTransformationNode (id : string) (prev : DeRequestState.t)
    : DeRequestState.t :=
  mk (techRequirements prev) (productRequirements prev) (existingTools prev)
     (dataSources prev)
     (filter (fun node => negb (TransformationNode.id node =? id))
             (transformationNodes prev))
     (dataTargets prev)
     (filter (notTouching id) (connections prev)).

Definition removeTargetNode (id : string) (prev : DeRequestState.t)
    : DeRequestState.t :=
  mk (techRequirements prev) (productRequirements prev) (existingTools prev)
     (dataSources prev) (transformationNodes prev)
     (filter (fun node => negb (DataTarget.id node =? id)) (dataTargets prev))
     (filter (notTouching id) (connections prev)).

(** [c => c.sourceId === sourceId && c.targetId === targetId] *)
Definition samePair (sourceId targetId : string) (c : Connection.t) : bool :=
  (Connection.sourceId c =? sourceId) && (Connection.targetId c =? targetId).

(** [addConnection].  The two guards read [formState], the state of the
    render in which the handler was created; the append is applied to
    [prev], the state current when React runs the update.  [uuid] is the
    value [crypto.randomUUID()] returns for this call.  An early [return]
    schedules no update: [prev] stays. *)
Definition addConnection (formState : DeRequestState.t) (uuid : string)
    (sourceId targetId : string) (prev : DeRequestState.t)
    : DeRequestState.t :=
  if sourceId =? targetId then prev
  else if existsb (samePair sourceId targetId) (connections formState) then prev
  else
    let newConnection := Connection.mk uuid sourceId targetId in
    mk (techRequirements prev) (productRequirements prev) (existingTools prev)
       (dataSources prev) (transformationNodes prev) (dataTargets prev)
       (connections prev ++ [newConnection])%list.

(** A call made by an event handler of the committed render: the snapshot
    the guards read is the current state. *)
Definition onAddConnection (uuid sourceId targetId : string)
    (st : DeRequestState.t) : DeRequestState.t :=
  addConnection st uuid sourceId targetId st.

Definition removeConnection (id : string) (prev : DeRequestState.t)
    : DeRequestState.t :=
  mk (techRequirements prev) (productRequirements prev) (existingTools prev)
     (dataSources prev) (transformationNodes prev) (dataTargets prev)
     (filter (fun c => negb (Connection.id c =? id)) (connections prev)).

(** The node kinds, and the remover each node's trash button is bound to
    ([onRemoveSource], [onRemoveTransformation], [onRemoveTarget]). *)
Inductive NodeKind : Type := Source | Transformation | Target.

Definition removeNode (kind : NodeKind) (id : string)
    (prev : DeRequestState.t) : DeRequestState.t :=
  match kind with
  | Source => removeSourceNode id prev
  | Transformation => removeTransformationNode id prev
  | Target => removeTargetNode id prev
  end.

(** The ids held by the collection of one kind. *)
Definition idsOf (kind : NodeKind) (st : DeRequestState.t) : list string :=
  match kind with
  | Source => map DataSource.id (dataSources st)
  | Transformation => map TransformationNode.id (transformationNodes st)
  | Target => map DataTarget.id (dataTargets st)
  end.

(** The part of the component state [handleSubmit] reads and writes. *)
Record State : Type := mkState {
  formState : DeRequestState.t;
  loading : bool;
  response : option string;
  errors : list string;
  includeDiagram : bool
}.

(** A call of the generation service, as issued. *)
Definition Request : Type := (DeRequestState.t * bool)%type.

(** The three validations of [handleSubmit], each pushing its message. *)
Definition validate (fs : DeRequestState.t) : list string :=
  let newErrors : list string := [] in
  let newErrors :=
    if negb (JS.nonEmptyText (JS.trim (techRequirements fs)))
    then (newErrors ++ ["Technical Requirements are mandatory."])%list
    else newErrors in
  let newErrors :=
    if (List.length (dataSources fs) =? 0)%nat
    then (newErrors ++ ["At least one Data Source is required."])%list
    else newErrors in
  let newErrors :=
    if (List.length (dataTargets fs) =? 0)%nat
    then (newErrors ++ ["At least one Data Target is required."])%list
    else newErrors in
  newErrors.

(** [handleSubmit], run to the end of its [finally].  [generateSolution]
    is the external service: it resolves to a text ([inl]) or throws an
    error with the given [message] ([inr]).  The second component is the
    list of requests sent to the service. *)
Definition handleSubmit
    (generateSolution : DeRequestState.t -> bool -> string + option string)
    (st : State) : State * list Request :=
  let newErrors := validate (formState st) in
  if (0 <? List.length newErrors)%nat then
    (mkState (formState st) (loading st) (response st) newErrors
             (includeDiagram st), [])
  else
    let request := (formState st, includeDiagram st) in
    match generateSolution (formState st) (includeDiagram st) with
    | inl result =>
        (mkState (formState st) false (Some result) [] (includeDiagram st),
         [request])
    | inr message =>
        let msg :=
          match message with
          | Some m => if JS.nonEmpty m then m else "Something went wrong"
          | None => "Something went wrong"
          end in
        (mkState (formState st) false None [msg] (includeDiagram st),
         [request])
    end.

(** ** Adding nodes

    [formState] is the snapshot the default slot is computed from, [uuid]
    the value of [crypto.randomUUID()], [position] the optional argument. *)

Definition addSourceNode (formState : DeRequestState.t) (uuid : string)
    (position : option NodePosition.t) (prev : DeRequestState.t)
    : DeRequestState.t :=
  let newNode :=
    DataSource.mk uuid "" "" "" "" "" "" "Daily"
      (Some (JS.orElse position
               (NodePosition.mk 50
                  (50 + JS.num (List.length (dataSources formState)) * 150)%Q))) in
  mk (techRequirements prev) (productRequirements prev) (existingTools prev)
     (dataSources prev ++ [newNode])%list
     (transformationNodes prev) (dataTargets prev) (connections prev).

Definition addTransformationNode (formState : DeRequestState.t) (uuid : string)
    (position : option NodePosition.t) (prev : DeRequestState.t)
    : DeRequestState.t :=
  let newNode :=
    TransformationNode.mk uuid "" "" ""
      (Some (JS.orElse position
               (NodePosition.mk 350
                  (50 + JS.num (List.length (transformationNodes formState)) * 150)%Q))) in
  mk (techRequirements prev) (productRequirements prev) (existingTools prev)
     (dataSources prev)
     (transformationNodes prev ++ [newNode])%list
     (dataTargets prev) (connections prev).

Definition addTargetNode (formState : DeRequestState.t) (uuid : string)
    (position : option NodePosition.t) (prev : DeRequestState.t)
    : DeRequestState.t :=
  let newNode :=
    DataTarget.mk uuid "" "" ""
      (Some (JS.orElse position
               (NodePosition.mk 650
                  (50 + JS.num (List.length (dataTargets formState)) * 150)%Q))) in
  mk (techRequirements prev) (productRequirements prev) (existingTools prev)
     (dataSources prev) (transformationNodes prev)
     (dataTargets prev ++ [newNode])%list
     (connections prev).

(** The adder of each kind, called by a handler of the committed render. *)
Definition addNode (kind : NodeKind) (uuid : string)
    (position : option NodePosition.t) (st : DeRequestState.t)
    : DeRequestState.t :=
  match kind with
  | Source => addSourceNode st uuid position st
  | Transformation => addTransformationNode st uuid position st
  | Target => addTargetNode st uuid position st
  end.

(** [removeError]: [prev.filter((_, i) => i !== index)]. *)
Definition removeError (index : nat) (prev : list string) : list string :=
  JS.filterIndex (fun _ i => negb (i =? index)%nat) 0 prev.

(** [handleInputChange (field, value)]: the field together with a value of
    its type. *)
Inductive FieldValue : Type :=
| TechRequirements (value : JS.text)
| ProductRequirements (value : string)
| ExistingTools (value : list string)
| DataSources (value : list DataSource.t)
| TransformationNodes (value : list TransformationNode.t)
| DataTargets (value : list DataTarget.t)
| Connections (value : list Connection.t).

Definition handleInputChange (fv : FieldValue) (prev : DeRequestState.t)
    : DeRequestState.t :=
  match fv with
  | TechRequirements v =>
      mk v (productRequirements prev) (existingTools prev) (dataSources prev)
         (transformationNodes prev) (dataTargets prev) (connections prev)
  | ProductRequirements v =>
      mk (techRequirements prev) v (existingTools prev) (dataSources prev)
         (transformationNodes prev) (dataTargets prev) (connections prev)
  | ExistingTools v =>
      mk (techRequirements prev) (productRequirements prev) v (dataSources prev)
         (transformationNodes prev) (dataTargets prev) (connections prev)
  | DataSources v =>
      mk (techRequirements prev) (productRequirements prev) (existingTools prev)
         v (transformationNodes prev) (dataTargets prev) (connections prev)
  | TransformationNodes v =>
      mk (techRequirements prev) (productRequirements prev) (existingTools prev)
         (dataSources prev) v (dataTargets prev) (connections prev)
  | DataTargets v =>
      mk (techRequirements prev) (productRequirements prev) (existingTools prev)
         (dataSources prev) (transformationNodes prev) v (connections prev)
  | Connections v =>
      mk (techRequirements prev) (productRequirements prev) (existingTools prev)
         (dataSources prev) (transformationNodes prev) (dataTargets prev) v
  end.

(** ** [handleAutoPipeline] *)

(** [calculateY] with the [maxCount] it closes over: the vertical offset
    that centres a group of [total] nodes against the largest group. *)
Definition calculateY (maxCount : Q) (index total : Q) : Q :=
  let verticalSpacing := 180%Q in
  let totalHeight := ((total - 1) * verticalSpacing)%Q in
  let maxTotalHeight := ((maxCount - 1) * verticalSpacing)%Q in
  let offset := ((maxTotalHeight - totalHeight) / 2)%Q in
  (50 + offset + index * verticalSpacing)%Q.

Inductive ViewMode : Type := FormView | VisualView.

(** The part of the component state [handleAutoPipeline] reads and
    writes. *)
Record PipelineState : Type := mkPipelineState {
  p_formState : DeRequestState.t;
  p_errors : list string;
  p_isAutoGenerating : bool;
  p_viewMode : ViewMode
}.

(** The state update made with the layout the service returned. *)
Definition applyLayout (layout : GeminiService.Layout.t)
    (prev : DeRequestState.t) : DeRequestState.t :=
  let sourceCount := List.length (GeminiService.Layout.dataSources layout) in
  let transformCount :=
    List.length (GeminiService.Layout.transformationNodes layout) in
  let targetCount := List.length (GeminiService.Layout.dataTargets layout) in
  let maxCount :=
    JS.num (Nat.max (Nat.max sourceCount transformCount) targetCount) in
  let spacedSources :=
    JS.mapIndex
      (fun s i =>
         DataSource.merge s
           (DataSource.justPosition
              (NodePosition.mk 50 (calculateY maxCount (JS.num i) (JS.num sourceCount)))))
      0 (GeminiService.Layout.dataSources layout) in
  let spacedTransforms :=
    JS.mapIndex
      (fun t i =>
         TransformationNode.merge t
           (TransformationNode.justPosition
              (NodePosition.mk 400
                 (calculateY maxCount (JS.num i) (JS.num transformCount)))))
      0 (GeminiService.Layout.transformationNodes layout) in
  let spacedTargets :=
    JS.mapIndex
      (fun t i =>
         DataTarget.merge t
           (DataTarget.justPosition
              (NodePosition.mk 750 (calculateY maxCount (JS.num i) (JS.num targetCount)))))
      0 (GeminiService.Layout.dataTargets layout) in
  mk (techRequirements prev) (productRequirements prev) (existingTools prev)
     spacedSources spacedTransforms spacedTargets
     (GeminiService.Layout.connections layout).

(** [handleAutoPipeline], run to the end of its [finally].
    [generatePipelineLayout] is the service call: it resolves to a layout
    ([inl]) or throws an error with the given message ([inr]).  The second
    component is the list of calls made, each with its two arguments. *)
Definition handleAutoPipeline
    (generatePipelineLayout :
       JS.text -> list string -> GeminiService.Layout.t + string)
    (st : PipelineState)
    : PipelineState * list (JS.text * list string) :=
  let formState := p_formState st in
  if negb (JS.nonEmptyText (JS.trim (techRequirements formState))) then
    (mkPipelineState formState
       (p_errors st ++ ["Please enter Technical Requirements first."])%list
       (p_isAutoGenerating st) (p_viewMode st), [])
  else if (List.length (techRequirements formState) <? 10)%nat then
    (mkPipelineState formState
       (p_errors st ++
        ["Please provide more descriptive technical requirements (at least 10 characters) for better results."])%list
       (p_isAutoGenerating st) (p_viewMode st), [])
  else
    let call := (techRequirements formState, existingTools formState) in
    match generatePipelineLayout (techRequirements formState)
            (existingTools formState) with
    | inl layout =>
        (mkPipelineState (applyLayout layout formState) [] false VisualView,
         [call])
    | inr message =>
        (mkPipelineState formState
           ["Auto-generation failed: " ++ message] false (p_viewMode st),
         [call])
    end.

End App.

(* ================================================================== *)
(** * components/SourceNodeList.tsx and TransformationNodeList.tsx

    The list components of the form view.  Each handler hands a new list to
    [onChange], which [App] binds to [handleInputChange] on the list's
    field; the definitions below give that list. *)

Module SourceNodeList.

Definition removeNode (nodes : list DataSource.t) (id : string)
    : list DataSource.t :=
  filter (fun node => negb (DataSource.id node =? id)) nodes.

End SourceNodeList.

Module TransformationNodeList.

Definition removeNode (nodes : list TransformationNode.t) (id : string)
    : list TransformationNode.t :=
  filter (fun node => negb (TransformationNode.id node =? id)) nodes.

End TransformationNodeList.

(* ================================================================== *)
(** * The browser values the canvas handlers read *)

Module Dom.

(** [getBoundingClientRect()] of the canvas element. *)
Record DOMRect : Type := mkRect { left : Q; top : Q; width : Q; height : Q }.

Record MouseEvent : Type := mkMouse { clientX : Q; clientY : Q; button : nat }.

Record WheelEvent : Type := mkWheel { wheelX : Q; wheelY : Q; deltaY : Q }.

(** The element under the pointer.  A node shows a body, an input handle
    (left middle) and an output handle (right middle); the handlers bound
    to a node receive its [id] and its [position] as rendered. *)
Inductive NodePart : Type := Body | InputHandle | OutputHandle.

Inductive Target : Type :=
| Canvas
| OnNode (part : NodePart) (id : string) (currentPos : option NodePosition.t).

(** A drop from the palette: the pointer position and what
    [dataTransfer.getData('application/react-dnd-type')] gives, the empty
    string when nothing was set. *)
Record DragEvent : Type := mkDrag { dropX : Q; dropY : Q; dndType : string }.

End Dom.

Module Viewport.
Record t : Type := mk { x : Q; y : Q; zoom : Q }.

Definition equiv (v w : t) : Prop :=
  (x v == x w)%Q /\ (y v == y w)%Q /\ (zoom v == zoom w)%Q.
End Viewport.

(* ================================================================== *)
(** * components/VisualBuilder.tsx, the revision with a viewport *)

Module VisualBuilder.
Import Dom.
Local Open Scope Q_scope.

Record State : Type := mkState {
  viewport : Viewport.t;
  isPanning : bool;
  lastMouseRef : NodePosition.t;
  draggingId : option string;
  dragOffset : NodePosition.t;
  hasMovedRef : bool;
  connectingSourceId : option string;
  mousePos : option NodePosition.t
}.

(** The component state together with the graph it edits through its
    [onUpdate...] and [onAddConnection] callbacks. *)
Record World : Type := mkWorld {
  formState : DeRequestState.t;
  ui : State
}.

Definition initialUi : State :=
  mkState (Viewport.mk 0 0 1) false (NodePosition.mk 0 0) None
          (NodePosition.mk 0 0) false None None.

Definition initialWorld : World := mkWorld App.initialState initialUi.

(** The state setters. *)
Definition setViewport (v : Viewport.t) (w : World) : World :=
  let s := ui w in
  mkWorld (formState w)
    (mkState v (isPanning s) (lastMouseRef s) (draggingId s) (dragOffset s)
             (hasMovedRef s) (connectingSourceId s) (mousePos s)).

Definition setIsPanning (b : bool) (w : World) : World :=
  let s := ui w in
  mkWorld (formState w)
    (mkState (viewport s) b (lastMouseRef s) (draggingId s) (dragOffset s)
             (hasMovedRef s) (connectingSourceId s) (mousePos s)).

Definition setLastMouse (p : NodePosition.t) (w : World) : World :=
  let s := ui w in
  mkWorld (formState w)
    (mkState (viewport s) (isPanning s) p (draggingId s) (dragOffset s)
             (hasMovedRef s) (connectingSourceId s) (mousePos s)).

Definition setDraggingId (d : option string) (w : World) : World :=
  let s := ui w in
  mkWorld (formState w)
    (mkState (viewport s) (isPanning s) (lastMouseRef s) d (dragOffset s)
             (hasMovedRef s) (connectingSourceId s) (mousePos s)).

Definition setDragOffset (p : NodePosition.t) (w : World) : World :=
  let s := ui w in
  mkWorld (formState w)
    (mkState (viewport s) (isPanning s) (lastMouseRef s) (draggingId s) p
             (hasMovedRef s) (connectingSourceId s) (mousePos s)).

Definition setHasMoved (b : bool) (w : World) : World :=
  let s := ui w in
  mkWorld (formState w)
    (mkState (viewport s) (isPanning s) (lastMouseRef s) (draggingId s)
             (dragOffset s) b (connectingSourceId s) (mousePos s)).

Definition setConnectingSourceId (c : option string) (w : World) : World :=
  let s := ui w in
  mkWorld (formState w)
    (mkState (viewport s) (isPanning s) (lastMouseRef s) (draggingId s)
             (dragOffset s) (hasMovedRef s) c (mousePos s)).

Definition setMousePos (p : option NodePosition.t) (w : World) : World :=
  let s := ui w in
  mkWorld (formState w)
    (mkState (viewport s) (isPanning s) (lastMouseRef s) (draggingId s)
             (dragOffset s) (hasMovedRef s) (connectingSourceId s) p).

Definition setFormState (f : DeRequestState.t -> DeRequestState.t)
    (w : World) : World :=
  mkWorld (f (formState w)) (ui w).

(** Helper: screen to world coordinates.  [canvasRef] is
    [canvasRef.current]'s rectangle, [None] while the canvas is not
    mounted. *)
Definition screenToWorld (canvasRef : option DOMRect) (viewport : Viewport.t)
    (screenX screenY : Q) : NodePosition.t :=
  match canvasRef with
  | None => NodePosition.mk 0 0
  | Some rect =>
      NodePosition.mk
        ((screenX - left rect - Viewport.x viewport) / Viewport.zoom viewport)
        ((screenY - top rect - Viewport.y viewport) / Viewport.zoom viewport)
  end.

Definition handleWheel (canvasRef : option DOMRect) (e : WheelEvent)
    (w : World) : World :=
  match canvasRef with
  | None => w
  | Some rect =>
      let viewport := viewport (ui w) in
      let zoomSensitivity := -0.001 in
      let delta := deltaY e * zoomSensitivity in
      let newZoom :=
        JS.Math_max 0.1 (JS.Math_min 5 (Viewport.zoom viewport * (1 + delta))) in
      let mouseX := wheelX e - left rect in
      let mouseY := wheelY e - top rect in
      let worldX := (mouseX - Viewport.x viewport) / Viewport.zoom viewport in
      let worldY := (mouseY - Viewport.y viewport) / Viewport.zoom viewport in
      let newX := mouseX - worldX * newZoom in
      let newY := mouseY - worldY * newZoom in
      setViewport (Viewport.mk newX newY newZoom) w
  end.

Definition handleMouseDown (e : MouseEvent) (w : World) : World :=
  if (button e =? 1)%nat || (button e =? 0)%nat then
    setLastMouse (NodePosition.mk (clientX e) (clientY e)) (setIsPanning true w)
  else w.

Definition resetView (w : World) : World :=
  setViewport (Viewport.mk 0 0 1) w.

Definition handleZoomIn (canvasRef : option DOMRect) (w : World) : World :=
  match canvasRef with
  | None => w
  | Some rect =>
      let viewport := viewport (ui w) in
      let centerX := width rect / 2 in
      let centerY := height rect / 2 in
      let newZoom := JS.Math_min 5 (Viewport.zoom viewport * 1.2) in
      let worldX := (centerX - Viewport.x viewport) / Viewport.zoom viewport in
      let worldY := (centerY - Viewport.y viewport) / Viewport.zoom viewport in
      let newX := centerX - worldX * newZoom in
      let newY := centerY - worldY * newZoom in
      setViewport (Viewport.mk newX newY newZoom) w
  end.

Definition handleZoomOut (canvasRef : option DOMRect) (w : World) : World :=
  match canvasRef with
  | None => w
  | Some rect =>
      let viewport := viewport (ui w) in
      let centerX := width rect / 2 in
      let centerY := height rect / 2 in
      let newZoom := JS.Math_max 0.1 (Viewport.zoom viewport / 1.2) in
      let worldX := (centerX - Viewport.x viewport) / Viewport.zoom viewport in
      let worldY := (centerY - Viewport.y viewport) / Viewport.zoom viewport in
      let newX := centerX - worldX * newZoom in
      let newY := centerY - worldY * newZoom in
      setViewport (Viewport.mk newX newY newZoom) w
  end.

(** [startNodeDrag].  The boolean tells whether [e.stopPropagation()] was
    reached: the two early returns leave the event to the canvas. *)
Definition startNodeDrag (canvasRef : option DOMRect) (e : MouseEvent)
    (id : string) (currentPos : option NodePosition.t) (w : World)
    : World * bool :=
  if JS.truthy (connectingSourceId (ui w)) then (w, false)
  else if negb (button e =? 0)%nat then (w, false)
  else
    let w1 := setHasMoved false (setDraggingId (Some id) w) in
    let worldMouse :=
      screenToWorld canvasRef (viewport (ui w)) (clientX e) (clientY e) in
    match currentPos with
    | Some pos =>
        (setDragOffset
           (NodePosition.mk (NodePosition.x worldMouse - NodePosition.x pos)
                            (NodePosition.y worldMouse - NodePosition.y pos))
           w1, true)
    | None => (w1, true)
    end.

Definition startWiring (canvasRef : option DOMRect) (e : MouseEvent)
    (id : string) (w : World) : World :=
  setMousePos
    (Some (screenToWorld canvasRef (viewport (ui w)) (clientX e) (clientY e)))
    (setConnectingSourceId (Some id) w).

(** [endWiring]; [uuid] is what [crypto.randomUUID()] returns if
    [onAddConnection] gets to ask for it. *)
Definition endWiring (uuid : string) (targetId : string) (w : World) : World :=
  let w1 :=
    match connectingSourceId (ui w) with
    | Some sourceId =>
        if JS.truthy (Some sourceId) && negb (String.eqb sourceId targetId)
        then setFormState (App.onAddConnection uuid sourceId targetId) w
        else w
    | None => w
    end in
  setMousePos None (setConnectingSourceId None w1).

(** The node-dragging branch of [onMouseMove]: the first collection, in
    the order sources, transformations, targets, holding a node with the
    dragged id gets the position update. *)
Definition dragTo (id : string) (clampedX clampedY : Q) (w : World) : World :=
  let fs := formState w in
  let pos := NodePosition.mk clampedX clampedY in
  match find (fun s => String.eqb (DataSource.id s) id)
             (DeRequestState.dataSources fs) with
  | Some source =>
      setFormState
        (App.updateSourceNode (DataSource.id source) (DataSource.justPosition pos)) w
  | None =>
      match find (fun t => String.eqb (TransformationNode.id t) id)
                 (DeRequestState.transformationNodes fs) with
      | Some transform =>
          setFormState
            (App.updateTransformationNode (TransformationNode.id transform)
               (TransformationNode.justPosition pos)) w
      | None =>
          match find (fun t => String.eqb (DataTarget.id t) id)
                     (DeRequestState.dataTargets fs) with
          | Some target =>
              setFormState
                (App.updateTargetNode (DataTarget.id target)
                   (DataTarget.justPosition pos)) w
          | None => w
          end
      end
  end.

Definition onMouseMove (canvasRef : option DOMRect) (e : MouseEvent)
    (w : World) : World :=
  match canvasRef with
  | None => w
  | Some _ =>
      (* 1. Panning *)
      if isPanning (ui w) then
        let dx := clientX e - NodePosition.x (lastMouseRef (ui w)) in
        let dy := clientY e - NodePosition.y (lastMouseRef (ui w)) in
        let v := viewport (ui w) in
        setLastMouse (NodePosition.mk (clientX e) (clientY e))
          (setViewport
             (Viewport.mk (Viewport.x v + dx) (Viewport.y v + dy) (Viewport.zoom v))
             w)
      else
        let worldMouse :=
          screenToWorld canvasRef (viewport (ui w)) (clientX e) (clientY e) in
        (* 2. Wiring *)
        if JS.truthy (connectingSourceId (ui w)) then
          setMousePos (Some worldMouse) w
        else
          (* 3. Node Dragging *)
          match draggingId (ui w) with
          | Some id =>
              if JS.truthy (Some id) then
                let w1 := setHasMoved true w in
                let dragOffset := dragOffset (ui w) in
                let newX := NodePosition.x worldMouse - NodePosition.x dragOffset in
                let newY := NodePosition.y worldMouse - NodePosition.y dragOffset in
                let clampedX := JS.Math_max (-500) newX in
                let clampedY := JS.Math_max (-500) newY in
                dragTo id clampedX clampedY w1
              else w
          | None => w
          end
  end.

Definition onMouseUp (w : World) : World :=
  setIsPanning false
    (setMousePos None (setConnectingSourceId None (setDraggingId None w))).

(** What [findNode] finds, tagged with the collection it came from. *)
Inductive NodeRef : Type :=
| SourceRef (n : DataSource.t)
| TransformationRef (n : TransformationNode.t)
| TargetRef (n : DataTarget.t).

Definition findNode (fs : DeRequestState.t) (id : string) : option NodeRef :=
  match find (fun s => String.eqb (DataSource.id s) id)
             (DeRequestState.dataSources fs) with
  | Some s => Some (SourceRef s)
  | None =>
      match find (fun t => String.eqb (TransformationNode.id t) id)
                 (DeRequestState.transformationNodes fs) with
      | Some t => Some (TransformationRef t)
      | None =>
          match find (fun t => String.eqb (DataTarget.id t) id)
                     (DeRequestState.dataTargets fs) with
          | Some t => Some (TargetRef t)
          | None => None
          end
      end
  end.

Definition refPosition (r : NodeRef) : option NodePosition.t :=
  match r with
  | SourceRef n => DataSource.position n
  | TransformationRef n => TransformationNode.position n
  | TargetRef n => DataTarget.position n
  end.

(** The pointer events of the canvas and the three toolbar buttons.  A
    release carries the [uuid] the store would draw for a new connection. *)
Inductive Event : Type :=
| MouseDown (on : Target) (e : MouseEvent)
| MouseMove (e : MouseEvent)
| MouseUp (on : Target) (uuid : string)
| MouseLeave
| Wheel (e : WheelEvent)
| ZoomInClick
| ZoomOutClick
| ResetViewClick.

(** Dispatch along the JSX bindings.  The output handle binds
    [onMouseDown] to [startWiring]; the node body binds it to
    [startNodeDrag], which the input handle reaches by bubbling; an event
    whose propagation is not stopped reaches the canvas.  The input handle
    binds [onMouseUp] to [endWiring], which stops propagation; every other
    release reaches the canvas' [onMouseUp], as does [onMouseLeave]. *)
Definition step (canvasRef : option DOMRect) (ev : Event) (w : World) : World :=
  match ev with
  | MouseDown Canvas e => handleMouseDown e w
  | MouseDown (OnNode OutputHandle id _) e => startWiring canvasRef e id w
  | MouseDown (OnNode _ id currentPos) e =>
      let (w1, stopped) := startNodeDrag canvasRef e id currentPos w in
      if stopped then w1 else handleMouseDown e w1
  | MouseMove e => onMouseMove canvasRef e w
  | MouseUp (OnNode InputHandle id _) uuid => endWiring uuid id w
  | MouseUp _ _ => onMouseUp w
  | MouseLeave => onMouseUp w
  | Wheel e => handleWheel canvasRef e w
  | ZoomInClick => handleZoomIn canvasRef w
  | ZoomOutClick => handleZoomOut canvasRef w
  | ResetViewClick => resetView w
  end.

(** Events in delivery order, each with the canvas rectangle at its time. *)
Fixpoint run (evs : list (option DOMRect * Event)) (w : World) : World :=
  match evs with
  | [] => w
  | (canvasRef, ev) :: rest => run rest (step canvasRef ev w)
  end.

(** ** The palette drop, the editor click, the default slots and the curves *)

Definition handleDrop (canvasRef : option DOMRect) (uuid : string)
    (e : DragEvent) (w : World) : World :=
  match canvasRef with
  | None => w
  | Some _ =>
      if negb (JS.nonEmpty (dndType e)) then w
      else
        let worldPos :=
          screenToWorld canvasRef (viewport (ui w)) (dropX e) (dropY e) in
        let position :=
          NodePosition.mk (JS.Math_max 0 (NodePosition.x worldPos - 100))
                          (JS.Math_max 0 (NodePosition.y worldPos - 40)) in
        if String.eqb (dndType e) "source" then
          setFormState (App.addNode App.Source uuid (Some position)) w
        else if String.eqb (dndType e) "transformation" then
          setFormState (App.addNode App.Transformation uuid (Some position)) w
        else
          setFormState (App.addNode App.Target uuid (Some position)) w
  end.

(** [openEdit], bound to the click on a node.  The second component is the
    node handed to [setEditModal], if the editor is opened. *)
Definition openEdit (node : NodeRef) (w : World) : World * option NodeRef :=
  if hasMovedRef (ui w) || JS.truthy (connectingSourceId (ui w))
     || isPanning (ui w)
  then (setHasMoved false w, None)
  else (w, Some node).

(** The effect that gives a default slot to every node rendered without a
    position.  The lists it walks are those of the render, [fs]; each call
    of an [onUpdate...] callback is a state update applied in turn. *)
Definition assignDefaultPositions (fs : DeRequestState.t) : DeRequestState.t :=
  let afterSources :=
    JS.forEachIndex
      (fun s i st =>
         match DataSource.position s with
         | None =>
             App.updateSourceNode (DataSource.id s)
               (DataSource.justPosition
                  (NodePosition.mk 50 (50 + JS.num i * 150))) st
         | Some _ => st
         end)
      0 (DeRequestState.dataSources fs) fs in
  let afterTransformations :=
    JS.forEachIndex
      (fun t i st =>
         match TransformationNode.position t with
         | None =>
             App.updateTransformationNode (TransformationNode.id t)
               (TransformationNode.justPosition
                  (NodePosition.mk 350 (50 + JS.num i * 150))) st
         | Some _ => st
         end)
      0 (DeRequestState.transformationNodes fs) afterSources in
  JS.forEachIndex
    (fun t i st =>
       match DataTarget.position t with
       | None =>
           App.updateTargetNode (DataTarget.id t)
             (DataTarget.justPosition
                (NodePosition.mk 650 (50 + JS.num i * 150))) st
       | Some _ => st
       end)
    0 (DeRequestState.dataTargets fs) afterTransformations.

(** [getNodeCenter]: the output anchor, right middle. *)
Definition getNodeCenter (node : NodeRef) : NodePosition.t :=
  let w := 200 in
  match refPosition node with
  | None => NodePosition.mk 0 0
  | Some position =>
      NodePosition.mk (NodePosition.x position + w) (NodePosition.y position + 50)
  end.

(** [getNodeInputPos]: the input anchor, left middle. *)
Definition getNodeInputPos (node : NodeRef) : NodePosition.t :=
  match refPosition node with
  | None => NodePosition.mk 0 0
  | Some position =>
      NodePosition.mk (NodePosition.x position) (NodePosition.y position + 50)
  end.

(** The cubic path [M start C control1, control2, finish]. *)
Record Curve : Type := mkCurve {
  start : NodePosition.t;
  control1 : NodePosition.t;
  control2 : NodePosition.t;
  finish : NodePosition.t
}.

(** The path drawn for an existing connection; [None] where the callback
    returns [null]. *)
Definition connectionCurve (fs : DeRequestState.t) (conn : Connection.t)
    : option Curve :=
  match findNode fs (Connection.sourceId conn),
        findNode fs (Connection.targetId conn) with
  | Some source, Some target =>
      match refPosition source, refPosition target with
      | Some _, Some _ =>
          let start := getNodeCenter source in
          let finish := getNodeInputPos target in
          let controlDist :=
            JS.Math_abs (NodePosition.x finish - NodePosition.x start) * 0.5 + 50 in
          Some (mkCurve start
                  (NodePosition.mk (NodePosition.x start + controlDist)
                                   (NodePosition.y start))
                  (NodePosition.mk (NodePosition.x finish - controlDist)
                                   (NodePosition.y finish))
                  finish)
      | _, _ => None
      end
  | _, _ => None
  end.

(** The transform of the world container,
    [translate(viewport.x px, viewport.y px) scale(viewport.zoom)] about the
    origin [0 0]: where a world point is drawn, in pixels from the canvas
    corner. *)
Definition worldTransform (viewport : Viewport.t) (p : NodePosition.t)
    : NodePosition.t :=
  NodePosition.mk (Viewport.x viewport + Viewport.zoom viewport * NodePosition.x p)
                  (Viewport.y viewport + Viewport.zoom viewport * NodePosition.y p).

End VisualBuilder.

(* ================================================================== *)
(** * components/VisualBuilder.tsx, the revision in screen pixels

    No viewport and two node kinds; positions are canvas pixels. *)

Module VisualBuilderBasic.
Import Dom.
Local Open Scope Q_scope.

Record State : Type := mkState {
  isExpanded : bool;
  draggingId : option string;
  dragOffset : NodePosition.t;
  hasMovedRef : bool;
  connectingSourceId : option string;
  mousePos : option NodePosition.t
}.

Record World : Type := mkWorld {
  formState : DeRequestState.t;
  ui : State
}.

Definition setDraggingId (d : option string) (w : World) : World :=
  let s := ui w in
  mkWorld (formState w)
    (mkState (isExpanded s) d (dragOffset s) (hasMovedRef s)
             (connectingSourceId s) (mousePos s)).

Definition setDragOffset (p : NodePosition.t) (w : World) : World :=
  let s := ui w in
  mkWorld (formState w)
    (mkState (isExpanded s) (draggingId s) p (hasMovedRef s)
             (connectingSourceId s) (mousePos s)).

Definition setHasMoved (b : bool) (w : World) : World :=
  let s := ui w in
  mkWorld (formState w)
    (mkState (isExpanded s) (draggingId s) (dragOffset s) b
             (connectingSourceId s) (mousePos s)).

Definition setConnectingSourceId (c : option string) (w : World) : World :=
  let s := ui w in
  mkWorld (formState w)
    (mkState (isExpanded s) (draggingId s) (dragOffset s) (hasMovedRef s)
             c (mousePos s)).

Definition setMousePos (p : option NodePosition.t) (w : World) : World :=
  let s := ui w in
  mkWorld (formState w)
    (mkState (isExpanded s) (draggingId s) (dragOffset s) (hasMovedRef s)
             (connectingSourceId s) p).

Definition setFormState (f : DeRequestState.t -> DeRequestState.t)
    (w : World) : World :=
  mkWorld (f (formState w)) (ui w).

Definition startNodeDrag (e : MouseEvent) (id : string)
    (currentPos : option NodePosition.t) (w : World) : World :=
  if JS.truthy (connectingSourceId (ui w)) then w
  else
    let w1 := setHasMoved false (setDraggingId (Some id) w) in
    match currentPos with
    | Some pos =>
        setDragOffset
          (NodePosition.mk (clientX e - NodePosition.x pos)
                           (clientY e - NodePosition.y pos)) w1
    | None => w1
    end.

Definition startWiring (canvasRef : option DOMRect) (e : MouseEvent)
    (id : string) (w : World) : World :=
  let w1 := setConnectingSourceId (Some id) w in
  match canvasRef with
  | Some rect =>
      setMousePos
        (Some (NodePosition.mk (clientX e - left rect) (clientY e - top rect))) w1
  | None => w1
  end.

Definition endWiring (uuid : string) (targetId : string) (w : World) : World :=
  let w1 :=
    match connectingSourceId (ui w) with
    | Some sourceId =>
        if JS.truthy (Some sourceId) && negb (String.eqb sourceId targetId)
        then setFormState (App.onAddConnection uuid sourceId targetId) w
        else w
    | None => w
    end in
  setMousePos None (setConnectingSourceId None w1).

Definition onMouseMove (canvasRef : option DOMRect) (e : MouseEvent)
    (w : World) : World :=
  match canvasRef with
  | None => w
  | Some rect =>
      (* Handle Wiring *)
      if JS.truthy (connectingSourceId (ui w)) then
        setMousePos
          (Some (NodePosition.mk (clientX e - left rect) (clientY e - top rect))) w
      else
        (* Handle Node Dragging *)
        match draggingId (ui w) with
        | Some id =>
            if JS.truthy (Some id) then
              let w1 := setHasMoved true w in
              let newX := clientX e - NodePosition.x (dragOffset (ui w)) in
              let newY := clientY e - NodePosition.y (dragOffset (ui w)) in
              let fs := formState w in
              match find (fun s => String.eqb (DataSource.id s) id)
                         (DeRequestState.dataSources fs) with
              | Some source =>
                  let maxX := if isExpanded (ui w)
                              then width rect - 200 else width rect - 200 in
                  let maxY := if isExpanded (ui w)
                              then height rect - 80 else height rect - 80 in
                  let clampedX := JS.Math_max 0 (JS.Math_min newX maxX) in
                  let clampedY := JS.Math_max 0 (JS.Math_min newY maxY) in
                  setFormState
                    (App.updateSourceNode (DataSource.id source)
                       (DataSource.justPosition (NodePosition.mk clampedX clampedY)))
                    w1
              | None =>
                  match find (fun t => String.eqb (DataTarget.id t) id)
                             (DeRequestState.dataTargets fs) with
                  | Some target =>
                      let maxX := if isExpanded (ui w)
                                  then width rect - 200 else width rect - 200 in
                      let maxY := if isExpanded (ui w)
                                  then height rect - 80 else height rect - 80 in
                      let clampedX := JS.Math_max 0 (JS.Math_min newX maxX) in
                      let clampedY := JS.Math_max 0 (JS.Math_min newY maxY) in
                      setFormState
                        (App.updateTargetNode (DataTarget.id target)
                           (DataTarget.justPosition (NodePosition.mk clampedX clampedY)))
                        w1
                  | None => w1
                  end
              end
            else w
        | None => w
        end
  end.

Definition onMouseUp (w : World) : World :=
  setMousePos None (setConnectingSourceId None (setDraggingId None w)).

Inductive Event : Type :=
| MouseDown (on : Target) (e : MouseEvent)
| MouseMove (e : MouseEvent)
| MouseUp (on : Target) (uuid : string)
| MouseLeave.

(** The canvas of this revision binds no [onMouseDown]: a press on the
    background does nothing. *)
Definition step (canvasRef : option DOMRect) (ev : Event) (w : World) : World :=
  match ev with
  | MouseDown Canvas _ => w
  | MouseDown (OnNode OutputHandle id _) e => startWiring canvasRef e id w
  | MouseDown (OnNode _ id currentPos) e => startNodeDrag e id currentPos w
  | MouseMove e => onMouseMove canvasRef e w
  | MouseUp (OnNode InputHandle id _) uuid => endWiring uuid id w
  | MouseUp _ _ => onMouseUp w
  | MouseLeave => onMouseUp w
  end.

Fixpoint run (evs : list (option DOMRect * Event)) (w : World) : World :=
  match evs with
  | [] => w
  | (canvasRef, ev) :: rest => run rest (step canvasRef ev w)
  end.

(** [openEdit] of this revision. *)
Definition openEdit (w : World) : World * bool :=
  if hasMovedRef (ui w) || JS.truthy (connectingSourceId (ui w))
  then (setHasMoved false w, false)
  else (w, true).

End VisualBuilderBasic.

(* ================================================================== *)
(** * Specification vocabulary *)

Module Spec.
Import DeRequestState.

(** [sub] occurs in [s] as a contiguous run of characters. *)
Definition occursIn (sub s : string) : Prop :=
  exists pre post : string, s = pre ++ sub ++ post.

(** A connection from [sourceId] to [targetId] is in the list. *)
Definition linked (sourceId targetId : string) (cs : list Connection.t) : Prop :=
  exists c, In c cs /\ Connection.sourceId c = sourceId
                    /\ Connection.targetId c = targetId.

(** [id] resolves through [findNode]. *)
Definition resolves (st : DeRequestState.t) (id : string) : bool :=
  match VisualBuilder.findNode st id with
  | Some _ => true
  | None => false
  end.

(** The stored position of the node [findNode] finds for [id]. *)
Definition positionOf (st : DeRequestState.t) (id : string)
    : option NodePosition.t :=
  match VisualBuilder.findNode st id with
  | Some r => VisualBuilder.refPosition r
  | None => None
  end.

(** The same for the revision with two node kinds, which looks among the
    sources and then among the targets. *)
Definition positionOfBasic (st : DeRequestState.t) (id : string)
    : option NodePosition.t :=
  match find (fun s => DataSource.id s =? id) (dataSources st) with
  | Some s => DataSource.position s
  | None =>
      match find (fun t => DataTarget.id t =? id) (dataTargets st) with
      | Some t => DataTarget.position t
      | None => None
      end
  end.

(** Some node of the graph has this id. *)
Definition known (st : DeRequestState.t) (id : string) : Prop :=
  VisualBuilder.findNode st id <> None.

Definition knownBasic (st : DeRequestState.t) (id : string) : Prop :=
  find (fun s => DataSource.id s =? id) (dataSources st) <> None \/
  find (fun t => DataTarget.id t =? id) (dataTargets st) <> None.

(** No orphan edge: both endpoints of every connection resolve. *)
Definition noOrphan (st : DeRequestState.t) : bool :=
  forallb (fun c => resolves st (Connection.sourceId c)
                    && resolves st (Connection.targetId c))
          (connections st).

(** A release that commits a wire: on the input handle of a node other
    than the one the wire started from. *)
Definition commits (sourceId : string) (on : Dom.Target) : bool :=
  match on with
  | Dom.OnNode Dom.InputHandle id _ => negb (sourceId =? id)
  | _ => false
  end.

(** A list of pointer moves as canvas events. *)
Definition movesOf {E : Type} (move : Dom.MouseEvent -> E)
    (moves : list (option Dom.DOMRect * Dom.MouseEvent))
    : list (option Dom.DOMRect * E) :=
  map (fun m => (fst m, move (snd m))) moves.

(** The three conditions [handleSubmit] checks, as violations. *)
Definition requirementsBlank (fs : DeRequestState.t) : bool :=
  negb (JS.nonEmptyText (JS.trim (techRequirements fs))).

Definition noSources (fs : DeRequestState.t) : bool :=
  match dataSources fs with [] => true | _ :: _ => false end.

Definition noTargets (fs : DeRequestState.t) : bool :=
  match dataTargets fs with [] => true | _ :: _ => false end.

Definition b2n (b : bool) : nat := if b then 1 else 0.

(** The zoom factor lies in the closed interval from 0.1 to 5. *)
Definition zoomInRange (v : Viewport.t) : Prop :=
  (0.1 <= Viewport.zoom v /\ Viewport.zoom v <= 5)%Q.

(** No connection from a node to itself. *)
Definition noSelfLoop (cs : list Connection.t) : Prop :=
  forall c, In c cs -> Connection.sourceId c <> Connection.targetId c.

(** The ordered pairs of endpoints, one per connection. *)
Definition pairs (cs : list Connection.t) : list (string * string) :=
  map (fun c => (Connection.sourceId c, Connection.targetId c)) cs.

(** Every node of the graph has a position. *)
Definition allPositioned (st : DeRequestState.t) : Prop :=
  (forall n, In n (dataSources st) -> DataSource.position n <> None) /\
  (forall n, In n (transformationNodes st) ->
     TransformationNode.position n <> None) /\
  (forall n, In n (dataTargets st) -> DataTarget.position n <> None).

(** Whether [find] by key finds something, as a boolean. *)
Definition found {A : Type} (key : A -> string) (id : string) (l : list A)
    : bool :=
  match find (fun n => key n =? id) l with
  | Some _ => true
  | None => false
  end.

(** One visit of the default-slot effect, read on the list it updates: a
    node rendered without a position has every node of its id placed. *)
Definition slotVisit {A : Type} (key : A -> string)
    (pos : A -> option NodePosition.t) (place : nat -> A -> A)
    (s : A) (i : nat) (l : list A) : list A :=
  match pos s with
  | None => map (fun n => if key n =? key s then place i n else n) l
  | Some _ => l
  end.

(** How a node of a list after some visits relates to the node it was:
    same id, and still positioned if it was. *)
Definition kept {A : Type} (key : A -> string)
    (pos : A -> option NodePosition.t) (n n' : A) : Prop :=
  key n' = key n /\ (pos n <> None -> pos n' <> None).

(** The default slot of a node added without a position: the column of
    its kind, below the nodes of that kind already present. *)
Definition defaultSlot (kind : App.NodeKind) (st : DeRequestState.t)
    : NodePosition.t :=
  match kind with
  | App.Source =>
      NodePosition.mk 50 (50 + JS.num (List.length (dataSources st)) * 150)%Q
  | App.Transformation =>
      NodePosition.mk 350
        (50 + JS.num (List.length (transformationNodes st)) * 150)%Q
  | App.Target =>
      NodePosition.mk 650 (50 + JS.num (List.length (dataTargets st)) * 150)%Q
  end.

End Spec.

(* ================================================================== *)
(** * The graph store *)

Section GraphStore.
Import DeRequestState.

Lemma existsb_samePair (sourceId targetId : string) (cs : list Connection.t) :
  existsb (App.samePair sourceId targetId) cs = true <->
  Spec.linked sourceId targetId cs.
Proof.
  unfold Spec.linked, App.samePair. rewrite existsb_exists. split.
  - intros (c & Hin & Hc). apply andb_true_iff in Hc as [Hs Ht].
    apply String.eqb_eq in Hs, Ht. now exists c.
  - intros (c & Hin & Hs & Ht). exists c. split; [assumption|].
    subst. now rewrite !String.eqb_refl.
Qed.

Lemma addConnection_rejects (st : DeRequestState.t)
    (uuid sourceId targetId : string) :
  sourceId = targetId \/ Spec.linked sourceId targetId (connections st) ->
  App.onAddConnection uuid sourceId targetId st = st.
Proof.
  unfold App.onAddConnection, App.addConnection. intros [Heq | Hdup].
  - subst. now rewrite String.eqb_refl.
  - apply existsb_samePair in Hdup. rewrite Hdup.
    now destruct (sourceId =? targetId).
Qed.

Lemma addConnection_appends (st : DeRequestState.t)
    (uuid sourceId targetId : string) :
  sourceId <> targetId ->
  ~ Spec.linked sourceId targetId (connections st) ->
  App.onAddConnection uuid sourceId targetId st =
  mk (techRequirements st) (productRequirements st) (existingTools st)
     (dataSources st) (transformationNodes st) (dataTargets st)
     (connections st ++ [Connection.mk uuid sourceId targetId])%list.
Proof.
  unfold App.onAddConnection, App.addConnection. intros Hne Hnew.
  apply String.eqb_neq in Hne. rewrite Hne.
  destruct (existsb (App.samePair sourceId targetId) (connections st)) eqn:E.
  - apply existsb_samePair in E. contradiction.
  - reflexivity.
Qed.

Lemma linked_dec (sourceId targetId : string) (cs : list Connection.t) :
  {Spec.linked sourceId targetId cs} + {~ Spec.linked sourceId targetId cs}.
Proof.
  destruct (existsb (App.samePair sourceId targetId) cs) eqn:E.
  - left. now apply existsb_samePair.
  - right. intros H. apply existsb_samePair in H. congruence.
Qed.

(** The store holds a node of unknown id: a wire to ["ghost"] is stored
    all the same, although [findNode] finds no such node. *)
Lemma addConnection_unknown_endpoint_appends :
  VisualBuilder.findNode App.initialState "ghost" = None /\
  "1" <> "ghost" /\
  ~ Spec.linked "1" "ghost" (connections App.initialState) /\
  connections (App.onAddConnection "u1" "1" "ghost" App.initialState)
    = (connections App.initialState ++ [Connection.mk "u1" "1" "ghost"])%list /\
  connections (App.onAddConnection "u1" "1" "ghost" App.initialState)
    <> connections App.initialState.
Proof.
  split; [reflexivity|]. split; [discriminate|]. split.
  - intros H. apply existsb_samePair in H. discriminate H.
  - split; [reflexivity | discriminate].
Qed.

(** C1 (as amended).  [addConnection sourceId targetId] leaves the state as
    it is when [sourceId] equals [targetId] or when a connection with the
    same ordered pair exists; otherwise it appends exactly one connection,
    carrying the id drawn for it and those endpoints, whether or not the
    two ids are ids of nodes.  A second call with the same arguments
    changes nothing, so two calls on a graph without the pair leave
    exactly one such connection. *)
Theorem addConnection_spec (st : DeRequestState.t)
    (uuid uuid' sourceId targetId : string) :
  (sourceId = targetId \/ Spec.linked sourceId targetId (connections st) ->
     App.onAddConnection uuid sourceId targetId st = st) /\
  (sourceId <> targetId ->
   ~ Spec.linked sourceId targetId (connections st) ->
     connections (App.onAddConnection uuid sourceId targetId st)
       = (connections st ++ [Connection.mk uuid sourceId targetId])%list /\
     dataSources (App.onAddConnection uuid sourceId targetId st) = dataSources st /\
     transformationNodes (App.onAddConnection uuid sourceId targetId st)
       = transformationNodes st /\
     dataTargets (App.onAddConnection uuid sourceId targetId st) = dataTargets st /\
     List.length
       (filter (App.samePair sourceId targetId)
          (connections
             (App.onAddConnection uuid' sourceId targetId
                (App.onAddConnection uuid sourceId targetId st)))) = 1%nat) /\
  App.onAddConnection uuid' sourceId targetId
    (App.onAddConnection uuid sourceId targetId st)
  = App.onAddConnection uuid sourceId targetId st.
Proof.
  assert (Hidem :
    App.onAddConnection uuid' sourceId targetId
      (App.onAddConnection uuid sourceId targetId st)
    = App.onAddConnection uuid sourceId targetId st).
  { destruct (String.eqb_spec sourceId targetId) as [Heq | Hne].
    - rewrite (addConnection_rejects st uuid) by auto.
      apply addConnection_rejects; auto.
    - destruct (linked_dec sourceId targetId (connections st)) as [Hl | Hn].
      + rewrite (addConnection_rejects st uuid) by auto.
        apply addConnection_rejects; auto.
      + apply addConnection_rejects. right.
        rewrite (addConnection_appends st uuid _ _ Hne Hn). simpl.
        exists (Connection.mk uuid sourceId targetId).
        rewrite in_app_iff. simpl. auto. }
  split; [apply addConnection_rejects|]. split; [|exact Hidem].
  intros Hne Hn. rewrite Hidem.
  rewrite (addConnection_appends st uuid _ _ Hne Hn). simpl.
  repeat split.
  rewrite filter_app. simpl. unfold App.samePair at 2. simpl.
  rewrite !String.eqb_refl. simpl. rewrite length_app. simpl.
  assert (E : filter (App.samePair sourceId targetId) (connections st) = []).
  { destruct (filter (App.samePair sourceId targetId) (connections st))
      as [|c l] eqn:F; [reflexivity|].
    exfalso. apply Hn.
    assert (Hc : In c (filter (App.samePair sourceId targetId) (connections st)))
      by (rewrite F; now left).
    apply filter_In in Hc as [Hin Hc]. unfold App.samePair in Hc.
    apply andb_true_iff in Hc as [Hs Ht]. apply String.eqb_eq in Hs, Ht.
    now exists c. }
  rewrite E. reflexivity.
Qed.

Lemma addConnection_spec_witness :
  connections (App.onAddConnection "u1" "1" "10" App.initialState)
    = (connections App.initialState ++ [Connection.mk "u1" "1" "10"])%list /\
  App.onAddConnection "u2" "1" "t1" App.initialState = App.initialState.
Proof.
  destruct (addConnection_spec App.initialState "u1" "u2" "1" "10")
    as (_ & Happ & _).
  destruct (addConnection_spec App.initialState "u2" "u3" "1" "t1")
    as (Hrej & _ & _).
  split.
  - apply Happ; [discriminate|].
    intros H. apply existsb_samePair in H. discriminate H.
  - apply Hrej. right. exists (Connection.mk "c1" "1" "t1").
    simpl. auto.
Defined.

(** The guards read the snapshot of the render that created the handler.
    Two calls answered from one snapshot, which the canvas never makes (each
    release is an event of its own, handled by a fresh render), would both
    pass the duplicate guard. *)
Remark addConnection_same_snapshot_appends_twice :
  connections
    (App.addConnection App.initialState "u2" "1" "10"
       (App.addConnection App.initialState "u1" "1" "10" App.initialState))
  = (connections App.initialState
       ++ [Connection.mk "u1" "1" "10"; Connection.mk "u2" "1" "10"])%list.
Proof. reflexivity. Qed.

End GraphStore.

(* ================================================================== *)
(** * Removing a node *)

Section RemoveNode.
Import DeRequestState.

Lemma find_filter_keeps {A : Type} (p q : A -> bool) (l : list A) :
  (forall a, p a = true -> q a = true) ->
  find p (filter q l) = find p l.
Proof.
  intros Hpq. induction l as [|a l IH]; [reflexivity|]. simpl.
  destruct (q a) eqn:Eq; simpl.
  - now rewrite IH.
  - destruct (p a) eqn:Ep; [|assumption].
    apply Hpq in Ep. congruence.
Qed.

Lemma find_filter_drops {A : Type} (p q : A -> bool) (l : list A) :
  (forall a, q a = true -> p a = false) ->
  find p (filter q l) = None.
Proof.
  intros Hqp. induction l as [|a l IH]; [reflexivity|]. simpl.
  destruct (q a) eqn:Eq; simpl; [|assumption].
  now rewrite (Hqp a Eq).
Qed.

Lemma find_absent {A : Type} (key : A -> string) (id : string) (l : list A) :
  ~ In id (map key l) -> find (fun a => key a =? id) l = None.
Proof.
  induction l as [|a l IH]; [reflexivity|]. simpl. intros Hn.
  destruct (String.eqb_spec (key a) id) as [E | E].
  - exfalso. apply Hn. now left.
  - apply IH. intros H. apply Hn. now right.
Qed.

Lemma filter_id_absent {A : Type} (key : A -> string) (id : string) (l : list A) :
  ~ In id (map key (filter (fun a => negb (key a =? id)) l)).
Proof.
  rewrite in_map_iff. intros (a & Hk & Hin). apply filter_In in Hin as [_ Hf].
  subst. now rewrite String.eqb_refl in Hf.
Qed.

Lemma eqb_other (a id other : string) :
  other <> id -> (a =? other) = true -> negb (a =? id) = true.
Proof.
  intros Hne H. apply String.eqb_eq in H. subst.
  apply String.eqb_neq in Hne. now rewrite Hne.
Qed.

(** Looking up an id other than the removed one is not affected. *)
Lemma findNode_removeNode_other (kind : App.NodeKind) (id other : string)
    (st : DeRequestState.t) :
  other <> id ->
  VisualBuilder.findNode (App.removeNode kind id st) other
  = VisualBuilder.findNode st other.
Proof.
  intros Hne. unfold VisualBuilder.findNode.
  destruct kind; simpl;
    rewrite find_filter_keeps; auto; intros a; apply eqb_other; exact Hne.
Qed.

Lemma notTouching_spec (id : string) (c : Connection.t) :
  App.notTouching id c = true <->
  Connection.sourceId c <> id /\ Connection.targetId c <> id.
Proof.
  unfold App.notTouching. rewrite andb_true_iff, !negb_true_iff.
  now rewrite !String.eqb_neq.
Qed.

Lemma connections_removeNode (kind : App.NodeKind) (id : string)
    (st : DeRequestState.t) :
  connections (App.removeNode kind id st)
  = filter (App.notTouching id) (connections st).
Proof. now destruct kind. Qed.

(** C2.  After [removeNode id] the collection the remover works on holds no
    node with that id, so [findNode id] finds nothing when no other
    collection holds the id; no remaining connection has [id] as its source
    or as its target; and a graph without orphan edges stays without. *)
Theorem removeNode_cascades (kind : App.NodeKind) (id : string)
    (st : DeRequestState.t) :
  ~ In id (App.idsOf kind (App.removeNode kind id st)) /\
  ((forall k, k <> kind -> ~ In id (App.idsOf k st)) ->
     VisualBuilder.findNode (App.removeNode kind id st) id = None) /\
  (forall c, In c (connections (App.removeNode kind id st)) ->
     Connection.sourceId c <> id /\ Connection.targetId c <> id) /\
  (Spec.noOrphan st = true -> Spec.noOrphan (App.removeNode kind id st) = true).
Proof.
  split; [|split; [|split]].
  - destruct kind; simpl; apply filter_id_absent.
  - intros Hdisj. unfold VisualBuilder.findNode.
    assert (Hs := Hdisj App.Source). assert (Ht := Hdisj App.Transformation).
    assert (Hg := Hdisj App.Target). simpl in Hs, Ht, Hg.
    destruct kind; simpl.
    + rewrite (find_absent DataSource.id), (find_absent TransformationNode.id),
        (find_absent DataTarget.id);
        [reflexivity | apply Hg; discriminate | apply Ht; discriminate
        | apply filter_id_absent].
    + rewrite (find_absent DataSource.id), (find_absent TransformationNode.id),
        (find_absent DataTarget.id);
        [reflexivity | apply Hg; discriminate | apply filter_id_absent
        | apply Hs; discriminate].
    + rewrite (find_absent DataSource.id), (find_absent TransformationNode.id),
        (find_absent DataTarget.id);
        [reflexivity | apply filter_id_absent | apply Ht; discriminate
        | apply Hs; discriminate].
  - intros c Hc. rewrite connections_removeNode in Hc.
    apply filter_In in Hc as [_ Hc]. now apply notTouching_spec.
  - unfold Spec.noOrphan. rewrite !forallb_forall. intros Hall c Hc.
    rewrite connections_removeNode in Hc. apply filter_In in Hc as [Hin Hc].
    apply notTouching_spec in Hc as [Hs Ht]. specialize (Hall c Hin).
    unfold Spec.resolves in *.
    now rewrite !findNode_removeNode_other.
Qed.

Lemma removeNode_cascades_witness :
  VisualBuilder.findNode (App.removeNode App.Transformation "t1" App.initialState)
    "t1" = None /\
  connections (App.removeNode App.Transformation "t1" App.initialState) = [] /\
  Spec.noOrphan (App.removeNode App.Transformation "t1" App.initialState) = true.
Proof.
  destruct (removeNode_cascades App.Transformation "t1" App.initialState)
    as (_ & Hfind & _ & Horphan).
  split; [|split].
  - apply Hfind. intros k Hk. destruct k; simpl.
    + intros [H | []]. discriminate H.
    + congruence.
    + intros [H | []]. discriminate H.
  - reflexivity.
  - apply Horphan. reflexivity.
Defined.

End RemoveNode.

(* ================================================================== *)
(** * Error messages of the generation service *)

Section FormatError.
Import GeminiService.

Lemma startsWith_spec (sub s : string) :
  JS.startsWith s sub = true <-> exists post, s = sub ++ post.
Proof.
  revert s. induction sub as [|c sub IH]; intros s; simpl.
  - split; [intros _; now exists s | reflexivity].
  - destruct s as [|d s].
    + split; [discriminate | intros (post & H); discriminate H].
    + rewrite andb_true_iff, IH. split.
      * intros (Hc & post & Hs). apply Ascii.eqb_eq in Hc. subst.
        now exists post.
      * intros (post & H). injection H as Hd Hs. subst.
        split; [apply Ascii.eqb_refl | now exists post].
Qed.

Lemma includes_unfold (s sub : string) :
  JS.includes s sub =
  JS.startsWith s sub ||
  match s with
  | EmptyString => false
  | String _ s' => JS.includes s' sub
  end.
Proof. now destruct s. Qed.

Lemma includes_spec (sub s : string) :
  JS.includes s sub = true <-> Spec.occursIn sub s.
Proof.
  unfold Spec.occursIn. split.
  - induction s as [|c s IH]; rewrite includes_unfold, orb_true_iff.
    + intros [H | H]; [|discriminate].
      apply startsWith_spec in H as (post & H). now exists "", post.
    + intros [H | H].
      * apply startsWith_spec in H as (post & H). now exists "", post.
      * destruct (IH H) as (pre & post & E). exists (String c pre), post.
        simpl. now rewrite E.
  - intros (pre & post & E). revert s E.
    induction pre as [|c pre IH]; intros s E; rewrite includes_unfold.
    + apply orb_true_iff. left. apply startsWith_spec. now exists post.
    + simpl in E. subst s. apply orb_true_iff. right. now apply IH.
Qed.

Lemma includes_either (s a b : string) :
  JS.includes s a || JS.includes s b = true <->
  Spec.occursIn a s \/ Spec.occursIn b s.
Proof. now rewrite orb_true_iff, !includes_spec. Qed.

Lemma includes_neither (s a b : string) :
  JS.includes s a || JS.includes s b = false <->
  ~ (Spec.occursIn a s \/ Spec.occursIn b s).
Proof. rewrite <- includes_either. now destruct (_ || _). Qed.

(** C8.  [formatError] answers with the authentication message exactly when
    the error's message contains "401" or "UNAUTHENTICATED"; failing that,
    with the rate-limit message exactly when it contains "429" or
    "RESOURCE_EXHAUSTED"; failing that, with the content message exactly
    when it contains "SAFETY" or "blocked"; and otherwise with
    "Generation Failed: " followed by the message. *)
Theorem formatError_categories (error : JsError) :
  let m := errorMessage error in
  let auth := Spec.occursIn "401" m \/ Spec.occursIn "UNAUTHENTICATED" m in
  let rate := Spec.occursIn "429" m \/ Spec.occursIn "RESOURCE_EXHAUSTED" m in
  let safety := Spec.occursIn "SAFETY" m \/ Spec.occursIn "blocked" m in
  (formatError error = "Authentication Failed: Invalid API Key." <-> auth) /\
  (~ auth ->
     (formatError error = "Rate Limit Exceeded: Please wait a moment." <-> rate)) /\
  (~ auth -> ~ rate ->
     (formatError error = "Content Error: Request blocked by safety filters."
      <-> safety)) /\
  (~ auth -> ~ rate -> ~ safety ->
     formatError error = "Generation Failed: " ++ m).
Proof.
  intros m auth rate safety. unfold formatError. fold m.
  destruct (JS.includes m "401" || JS.includes m "UNAUTHENTICATED") eqn:Ea.
  - apply includes_either in Ea. fold auth in Ea.
    repeat split; try tauto; intros; exfalso; tauto.
  - apply includes_neither in Ea. fold auth in Ea.
    destruct (JS.includes m "429" || JS.includes m "RESOURCE_EXHAUSTED") eqn:Er.
    + apply includes_either in Er. fold rate in Er.
      repeat split; try tauto; try discriminate; intros; exfalso; tauto.
    + apply includes_neither in Er. fold rate in Er.
      destruct (JS.includes m "SAFETY" || JS.includes m "blocked") eqn:Es.
      * apply includes_either in Es. fold safety in Es.
        repeat split; try tauto; try discriminate; intros; exfalso; tauto.
      * apply includes_neither in Es. fold safety in Es.
        repeat split; try tauto; try (simpl; discriminate);
          intros; exfalso; tauto.
Qed.

Lemma formatError_categories_witness :
  formatError (mkError (Some "quota: 429 Too Many Requests") "Error")
    = "Rate Limit Exceeded: Please wait a moment." /\
  formatError (mkError None "Error: socket hang up")
    = "Generation Failed: Error: socket hang up".
Proof.
  split.
  - destruct (formatError_categories
                (mkError (Some "quota: 429 Too Many Requests") "Error"))
      as (_ & Hrate & _).
    apply Hrate.
    + intros H. apply includes_either in H. discriminate H.
    + left. now exists "quota: ", " Too Many Requests".
  - destruct (formatError_categories (mkError None "Error: socket hang up"))
      as (_ & _ & _ & Hgen).
    apply Hgen; intros H; apply includes_either in H; discriminate H.
Defined.

End FormatError.

(* ================================================================== *)
(** * The submit handler *)

Section HandleSubmit.
Import DeRequestState.

Lemma trimEnd_keeps_nonblank (c : N) (s : JS.text) :
  JS.isWhiteSpace c = false -> JS.trimEnd (c :: s) <> [].
Proof.
  intros Hc. simpl. destruct (JS.trimEnd s); [rewrite Hc|]; discriminate.
Qed.

(** [trim] leaves nothing exactly when every character is white space. *)
Lemma trim_empty_iff (s : JS.text) :
  JS.trim s = [] <-> forallb JS.isWhiteSpace s = true.
Proof.
  unfold JS.trim. induction s as [|c s IH]; simpl.
  - tauto.
  - destruct (JS.isWhiteSpace c) eqn:Hc; simpl.
    + exact IH.
    + split; [|discriminate]. intros H. exfalso.
      now apply (trimEnd_keeps_nonblank c s Hc).
Qed.

Lemma requirementsBlank_spec (fs : DeRequestState.t) :
  Spec.requirementsBlank fs = true <-> JS.trim (techRequirements fs) = [].
Proof.
  unfold Spec.requirementsBlank.
  destruct (JS.trim (techRequirements fs)); simpl; split;
    try reflexivity; discriminate.
Qed.

(** C10.  [handleSubmit] calls the generation service only when the
    technical requirements are non-empty after trimming and both the source
    list and the target list are non-empty.  When a condition is violated,
    the recorded errors are one message per violated condition, no request
    is sent, and the form state, the loading flag and the response are left
    as they were.  When none is, exactly one request is sent, carrying the
    form state. *)
Theorem handleSubmit_guard
    (generateSolution : DeRequestState.t -> bool -> string + option string)
    (st : App.State) :
  let fs := App.formState st in
  let st' := fst (App.handleSubmit generateSolution st) in
  let requests := snd (App.handleSubmit generateSolution st) in
  (requests <> [] ->
     Spec.requirementsBlank fs = false /\ Spec.noSources fs = false
     /\ Spec.noTargets fs = false) /\
  (Spec.requirementsBlank fs = true \/ Spec.noSources fs = true
   \/ Spec.noTargets fs = true ->
     requests = [] /\
     App.formState st' = fs /\
     App.loading st' = App.loading st /\
     App.response st' = App.response st /\
     (In "Technical Requirements are mandatory." (App.errors st')
        <-> Spec.requirementsBlank fs = true) /\
     (In "At least one Data Source is required." (App.errors st')
        <-> Spec.noSources fs = true) /\
     (In "At least one Data Target is required." (App.errors st')
        <-> Spec.noTargets fs = true) /\
     List.length (App.errors st')
       = (Spec.b2n (Spec.requirementsBlank fs) + Spec.b2n (Spec.noSources fs)
          + Spec.b2n (Spec.noTargets fs))%nat) /\
  (Spec.requirementsBlank fs = false -> Spec.noSources fs = false ->
   Spec.noTargets fs = false ->
     requests = [(fs, App.includeDiagram st)] /\ App.formState st' = fs).
Proof.
  intros fs st' requests. subst st' requests.
  unfold App.handleSubmit, App.validate, Spec.noSources, Spec.noTargets. fold fs.
  fold (Spec.requirementsBlank fs).
  destruct (Spec.requirementsBlank fs) eqn:Hb;
    destruct (dataSources fs) as [|s ss] eqn:Hs;
    destruct (dataTargets fs) as [|t ts] eqn:Ht; simpl;
    try destruct (generateSolution fs (App.includeDiagram st)); simpl;
    repeat split; intros; simpl in *;
    try reflexivity; try discriminate; try congruence;
    try (now intuition discriminate).
Qed.

Lemma handleSubmit_guard_witness :
  let noBreakSpaces :=
    App.handleInputChange (App.TechRequirements [160%N; 160%N]) App.initialState in
  snd (App.handleSubmit (fun _ _ => inl "# Requirement Breakdown")
         (App.mkState noBreakSpaces false None [] true)) = [] /\
  App.errors
    (fst (App.handleSubmit (fun _ _ => inl "# Requirement Breakdown")
            (App.mkState noBreakSpaces false None [] true)))
    = ["Technical Requirements are mandatory."].
Proof.
  cbv zeta.
  destruct (handleSubmit_guard (fun _ _ => inl "# Requirement Breakdown")
              (App.mkState
                 (App.handleInputChange (App.TechRequirements [160%N; 160%N])
                    App.initialState)
                 false None [] true))
    as (_ & Hfail & _).
  destruct Hfail as (Hreq & _); [left; reflexivity|].
  split; [exact Hreq | reflexivity].
Defined.

End HandleSubmit.

(* ================================================================== *)
(** * The viewport *)

Section ViewportFacts.
Import Dom VisualBuilder.
Local Open Scope Q_scope.

Lemma clamp_in_range (z : Q) :
  0.1 <= JS.Math_max 0.1 (JS.Math_min 5 z) /\ JS.Math_max 0.1 (JS.Math_min 5 z) <= 5.
Proof.
  unfold JS.Math_max, JS.Math_min. split.
  - apply Q.le_max_l.
  - apply Q.max_lub; [lra | apply Q.le_min_l].
Qed.

Lemma zoomIn_in_range (z : Q) :
  0.1 <= z -> 0.1 <= JS.Math_min 5 (z * 1.2) /\ JS.Math_min 5 (z * 1.2) <= 5.
Proof.
  intros Hz. unfold JS.Math_min. split.
  - apply Q.min_glb; lra.
  - apply Q.le_min_l.
Qed.

Lemma zoomOut_in_range (z : Q) :
  z <= 5 -> 0.1 <= JS.Math_max 0.1 (z / 1.2) /\ JS.Math_max 0.1 (z / 1.2) <= 5.
Proof.
  intros Hz. unfold JS.Math_max. split.
  - apply Q.le_max_l.
  - apply Q.max_lub; [lra|].
    apply Qle_shift_div_r; lra.
Qed.

(** C3.  The wheel zoom leaves the world point under the pointer where it
    was: [screenToWorld] of the pointer position is the same before and
    after [handleWheel], for every viewport of non-zero zoom. *)
Theorem handleWheel_fixes_anchor (canvasRef : option DOMRect) (e : WheelEvent)
    (w : World) :
  ~ Viewport.zoom (viewport (ui w)) == 0 ->
  NodePosition.equiv
    (screenToWorld canvasRef (viewport (ui (handleWheel canvasRef e w)))
       (wheelX e) (wheelY e))
    (screenToWorld canvasRef (viewport (ui w)) (wheelX e) (wheelY e)).
Proof.
  intros Hz. destruct canvasRef as [rect|]; [|split; reflexivity].
  unfold handleWheel, screenToWorld, NodePosition.equiv. simpl.
  set (newZoom := JS.Math_max 0.1
                    (JS.Math_min 5
                       (Viewport.zoom (viewport (ui w)) * (1 + deltaY e * -0.001)))).
  assert (Hnew : 0.1 <= newZoom) by apply clamp_in_range.
  assert (Hne : ~ newZoom == 0) by lra.
  split; field; split; assumption.
Qed.

Lemma handleWheel_fixes_anchor_witness :
  NodePosition.equiv
    (screenToWorld (Some (mkRect 10 20 800 600))
       (viewport (ui (handleWheel (Some (mkRect 10 20 800 600))
                        (mkWheel 410 320 (-500)) initialWorld)))
       410 320)
    (NodePosition.mk 400 300).
Proof.
  apply (handleWheel_fixes_anchor (Some (mkRect 10 20 800 600))
           (mkWheel 410 320 (-500)) initialWorld).
  simpl. intros H. discriminate H.
Defined.

(** Which handlers touch the zoom factor. *)
Lemma viewport_dragTo (id : string) (cx cy : Q) (w : World) :
  ui (dragTo id cx cy w) = ui w.
Proof.
  unfold dragTo.
  destruct (find _ (DeRequestState.dataSources _)); [reflexivity|].
  destruct (find _ (DeRequestState.transformationNodes _)); [reflexivity|].
  destruct (find _ (DeRequestState.dataTargets _)); reflexivity.
Qed.

Lemma zoom_onMouseMove (canvasRef : option DOMRect) (e : MouseEvent) (w : World) :
  Viewport.zoom (viewport (ui (onMouseMove canvasRef e w)))
  = Viewport.zoom (viewport (ui w)).
Proof.
  unfold onMouseMove. destruct canvasRef as [rect|]; [|reflexivity].
  destruct (isPanning (ui w)); [reflexivity|].
  destruct (JS.truthy (connectingSourceId (ui w))); [reflexivity|].
  destruct (draggingId (ui w)) as [id|]; [|reflexivity].
  destruct (JS.truthy (Some id)); [|reflexivity].
  now rewrite viewport_dragTo.
Qed.

Lemma viewport_handleMouseDown (e : MouseEvent) (w : World) :
  viewport (ui (handleMouseDown e w)) = viewport (ui w).
Proof. unfold handleMouseDown. now destruct (_ || _). Qed.

Lemma viewport_startNodeDrag (canvasRef : option DOMRect) (e : MouseEvent)
    (id : string) (currentPos : option NodePosition.t) (w : World) :
  viewport (ui (fst (startNodeDrag canvasRef e id currentPos w)))
  = viewport (ui w).
Proof.
  unfold startNodeDrag.
  destruct (JS.truthy _); [reflexivity|].
  destruct (negb _); [reflexivity|].
  now destruct currentPos.
Qed.

Lemma viewport_endWiring (uuid targetId : string) (w : World) :
  viewport (ui (endWiring uuid targetId w)) = viewport (ui w).
Proof.
  unfold endWiring. destruct (connectingSourceId (ui w)) as [s|]; [|reflexivity].
  now destruct (JS.truthy (Some s) && negb (String.eqb s targetId)).
Qed.

Lemma step_zoomInRange (canvasRef : option DOMRect) (ev : Event) (w : World) :
  Spec.zoomInRange (viewport (ui w)) ->
  Spec.zoomInRange (viewport (ui (step canvasRef ev w))).
Proof.
  unfold Spec.zoomInRange. intros [Hlo Hhi].
  destruct ev as [on e | e | on uuid | | e | | | ]; simpl.
  - destruct on as [|[| |] id pos].
    + now rewrite viewport_handleMouseDown.
    + pose proof (viewport_startNodeDrag canvasRef e id pos w) as Hv.
      destruct (startNodeDrag canvasRef e id pos w) as [w1 [|]]; simpl in Hv;
        [|rewrite viewport_handleMouseDown]; now rewrite Hv.
    + pose proof (viewport_startNodeDrag canvasRef e id pos w) as Hv.
      destruct (startNodeDrag canvasRef e id pos w) as [w1 [|]]; simpl in Hv;
        [|rewrite viewport_handleMouseDown]; now rewrite Hv.
    + split; assumption.
  - now rewrite zoom_onMouseMove.
  - destruct on as [|[| |] id pos]; try (split; assumption).
    now rewrite viewport_endWiring.
  - split; assumption.
  - destruct canvasRef as [rect|]; [|split; assumption]. simpl.
    apply clamp_in_range.
  - destruct canvasRef as [rect|]; [|split; assumption]. simpl.
    now apply zoomIn_in_range.
  - destruct canvasRef as [rect|]; [|split; assumption]. simpl.
    now apply zoomOut_in_range.
  - split; lra.
Qed.

Lemma run_zoomInRange (evs : list (option DOMRect * Event)) (w : World) :
  Spec.zoomInRange (viewport (ui w)) ->
  Spec.zoomInRange (viewport (ui (run evs w))).
Proof.
  revert w. induction evs as [|[canvasRef ev] evs IH]; intros w Hw; simpl.
  - exact Hw.
  - apply IH. now apply step_zoomInRange.
Qed.

(** C4.  Starting from the initial viewport (offset 0, 0 and zoom 1) over
    any graph, after any sequence of canvas events (wheel zoom, the zoom-in,
    zoom-out and reset buttons, presses, moves and releases, hence pans) the
    zoom factor lies between 0.1 and 5. *)
Theorem zoom_stays_in_range (fs : DeRequestState.t)
    (evs : list (option DOMRect * Event)) :
  Spec.zoomInRange (viewport (ui (run evs (mkWorld fs initialUi)))).
Proof.
  apply run_zoomInRange. unfold Spec.zoomInRange. simpl. split; lra.
Qed.

End ViewportFacts.

(* ================================================================== *)
(** * Zoom buttons and panning *)

Section ZoomAndPan.
Import Dom VisualBuilder.
Local Open Scope Q_scope.

(** At the largest zoom the zoom-in button is held back by the clamp and the
    zoom-out button then leaves 25/6: the pair does not restore the zoom. *)
Lemma zoom_roundtrip_fails_at_max_zoom :
  let canvasRef := Some (mkRect 0 0 800 600) in
  let w := setViewport (Viewport.mk 0 0 5) initialWorld in
  let w' := handleZoomOut canvasRef (handleZoomIn canvasRef w) in
  Spec.zoomInRange (viewport (ui w)) /\
  Viewport.zoom (viewport (ui w')) == 25 # 6 /\
  ~ Viewport.zoom (viewport (ui w')) == Viewport.zoom (viewport (ui w)) /\
  ~ Viewport.equiv (viewport (ui w')) (viewport (ui w)).
Proof.
  cbv zeta. split; [|split; [|split]].
  - split; vm_compute; discriminate.
  - vm_compute. reflexivity.
  - intros H. vm_compute in H. discriminate H.
  - intros (_ & _ & H). vm_compute in H. discriminate H.
Qed.

(** C5 (as amended).  For a viewport whose zoom is at least 0.1 and at most
    25/6, so that the zoom-in step by 1.2 stays within the upper bound 5,
    zooming in and then out with the buttons, both anchored at the canvas
    centre, restores the zoom and both offsets. *)
Theorem zoom_in_then_out_restores (canvasRef : option DOMRect) (w : World) :
  0.1 <= Viewport.zoom (viewport (ui w)) ->
  Viewport.zoom (viewport (ui w)) * 1.2 <= 5 ->
  Viewport.equiv
    (viewport (ui (handleZoomOut canvasRef (handleZoomIn canvasRef w))))
    (viewport (ui w)).
Proof.
  intros Hlo Hhi. destruct canvasRef as [rect|];
    [|repeat split; reflexivity].
  unfold handleZoomOut, handleZoomIn, Viewport.equiv. simpl.
  set (z := Viewport.zoom (viewport (ui w))) in *.
  set (z1 := JS.Math_min 5 (z * 1.2)).
  set (z2 := JS.Math_max 0.1 (z1 / 1.2)).
  assert (H1 : z1 == z * 1.2) by (apply Q.min_r; exact Hhi).
  assert (H2 : z2 == z).
  { unfold z2, JS.Math_max. rewrite Q.max_r.
    - rewrite H1. field.
    - rewrite H1. apply Qle_shift_div_l; lra. }
  assert (Hz : ~ z == 0) by lra.
  assert (Hz1 : ~ z1 == 0) by (rewrite H1; lra).
  repeat split.
  - rewrite H2. field. split; assumption.
  - rewrite H2. field. split; assumption.
  - exact H2.
Qed.

Lemma zoom_in_then_out_restores_witness :
  Viewport.equiv
    (viewport (ui (handleZoomOut (Some (mkRect 0 0 800 600))
                     (handleZoomIn (Some (mkRect 0 0 800 600))
                        (setViewport (Viewport.mk 30 (-40) 2) initialWorld)))))
    (Viewport.mk 30 (-40) 2).
Proof.
  apply (zoom_in_then_out_restores (Some (mkRect 0 0 800 600))
           (setViewport (Viewport.mk 30 (-40) 2) initialWorld)).
  - vm_compute. discriminate.
  - vm_compute. discriminate.
Defined.

(** C9.  A move while panning adds the pointer's displacement since the
    last pointer position to the two offsets and changes nothing else of the
    viewport or of the gesture state; the zoom and the graph, hence every
    node's stored position, are as before. *)
Theorem pan_changes_offsets_only (rect : DOMRect) (e : MouseEvent) (w : World) :
  isPanning (ui w) = true ->
  let dx := clientX e - NodePosition.x (lastMouseRef (ui w)) in
  let dy := clientY e - NodePosition.y (lastMouseRef (ui w)) in
  let w' := onMouseMove (Some rect) e w in
  Viewport.x (viewport (ui w')) = Viewport.x (viewport (ui w)) + dx /\
  Viewport.y (viewport (ui w')) = Viewport.y (viewport (ui w)) + dy /\
  Viewport.zoom (viewport (ui w')) = Viewport.zoom (viewport (ui w)) /\
  formState w' = formState w /\
  (forall id, findNode (formState w') id = findNode (formState w) id) /\
  isPanning (ui w') = true /\
  draggingId (ui w') = draggingId (ui w) /\
  dragOffset (ui w') = dragOffset (ui w) /\
  connectingSourceId (ui w') = connectingSourceId (ui w) /\
  mousePos (ui w') = mousePos (ui w).
Proof.
  intros Hpan. unfold onMouseMove. rewrite Hpan. simpl.
  repeat split; try reflexivity. exact Hpan.
Qed.

Lemma pan_changes_offsets_only_witness :
  let w := handleMouseDown (mkMouse 100 100 0) initialWorld in
  let w' := onMouseMove (Some (mkRect 0 0 800 600)) (mkMouse 130 90 0) w in
  Viewport.x (viewport (ui w')) = 0 + (130 - 100) /\
  Viewport.y (viewport (ui w')) = 0 + (90 - 100) /\
  Viewport.zoom (viewport (ui w')) = 1 /\
  formState w' = App.initialState.
Proof.
  cbv zeta.
  destruct (pan_changes_offsets_only (mkRect 0 0 800 600) (mkMouse 130 90 0)
              (handleMouseDown (mkMouse 100 100 0) initialWorld))
    as (Hx & Hy & Hz & Hf & _); [reflexivity|].
  cbv zeta in Hx, Hy. rewrite Hx, Hy, Hz, Hf. repeat split.
Defined.

End ZoomAndPan.

(* ================================================================== *)
(** * Dragging a node *)

Section Dragging.
Import Dom.
Local Open Scope Q_scope.

Lemma truthy_nonempty (id : string) : id <> "" -> JS.truthy (Some id) = true.
Proof. destruct id; [congruence | reflexivity]. Qed.

(** Updating by id the node that [find] finds: [find] then finds the
    updated node. *)
Lemma find_map_update {A : Type} (key : A -> string) (upd : A -> A)
    (id : string) (l : list A) (a : A) :
  (forall n, key (upd n) = key n) ->
  find (fun n => key n =? id)%string l = Some a ->
  find (fun n => key n =? id)%string
       (map (fun n => if (key n =? key a)%string then upd n else n) l)
  = Some (upd a).
Proof.
  intros Hkey Hfind.
  assert (Ha : key a = id).
  { apply find_some in Hfind as [_ H]. now apply String.eqb_eq in H. }
  rewrite Ha. clear Ha. induction l as [|h l IH]; [discriminate|].
  simpl in *. destruct (String.eqb_spec (key h) id) as [E | E].
  - injection Hfind as ->. rewrite Hkey.
    apply String.eqb_eq in E. now rewrite E.
  - apply String.eqb_neq in E. rewrite E. now apply IH.
Qed.

(** The viewport revision: lower bound -500 only. *)
Lemma drag_move_viewport (rect : DOMRect) (e : MouseEvent)
    (w : VisualBuilder.World) (id : string) :
  VisualBuilder.isPanning (VisualBuilder.ui w) = false ->
  JS.truthy (VisualBuilder.connectingSourceId (VisualBuilder.ui w)) = false ->
  VisualBuilder.draggingId (VisualBuilder.ui w) = Some id ->
  id <> ""%string ->
  Spec.known (VisualBuilder.formState w) id ->
  let worldCursor :=
    VisualBuilder.screenToWorld (Some rect)
      (VisualBuilder.viewport (VisualBuilder.ui w)) (clientX e) (clientY e) in
  let grabOffset := VisualBuilder.dragOffset (VisualBuilder.ui w) in
  let newX := NodePosition.x worldCursor - NodePosition.x grabOffset in
  let newY := NodePosition.y worldCursor - NodePosition.y grabOffset in
  exists p,
    Spec.positionOf
      (VisualBuilder.formState (VisualBuilder.onMouseMove (Some rect) e w)) id
      = Some p /\
    NodePosition.x p = JS.Math_max (-500) newX /\
    NodePosition.y p = JS.Math_max (-500) newY /\
    (-500 <= newX -> NodePosition.x p == newX) /\
    (-500 <= newY -> NodePosition.y p == newY).
Proof.
  intros Hpan Hwire Hdrag Hid Hknown worldCursor grabOffset newX newY.
  exists (NodePosition.mk (JS.Math_max (-500) newX) (JS.Math_max (-500) newY)).
  split.
  - unfold VisualBuilder.onMouseMove.
    rewrite Hpan, Hwire, Hdrag, (truthy_nonempty id Hid).
    fold worldCursor. fold grabOffset. fold newX. fold newY.
    unfold Spec.known, VisualBuilder.findNode in Hknown.
    unfold VisualBuilder.dragTo, Spec.positionOf, VisualBuilder.findNode. simpl.
    destruct (find (fun s => (DataSource.id s =? id)%string)
                (DeRequestState.dataSources (VisualBuilder.formState w)))
      as [source|] eqn:Fs.
    { simpl.
      rewrite (find_map_update DataSource.id
                 (fun n => DataSource.merge n (DataSource.justPosition _))
                 id _ source (fun n => eq_refl) Fs).
      reflexivity. }
    destruct (find (fun t => (TransformationNode.id t =? id)%string)
                (DeRequestState.transformationNodes (VisualBuilder.formState w)))
      as [transform|] eqn:Ft.
    { simpl. rewrite Fs.
      rewrite (find_map_update TransformationNode.id
                 (fun n => TransformationNode.merge n
                             (TransformationNode.justPosition _))
                 id _ transform (fun n => eq_refl) Ft).
      reflexivity. }
    destruct (find (fun t => (DataTarget.id t =? id)%string)
                (DeRequestState.dataTargets (VisualBuilder.formState w)))
      as [target|] eqn:Fg.
    { simpl. rewrite Fs, Ft.
      rewrite (find_map_update DataTarget.id
                 (fun n => DataTarget.merge n (DataTarget.justPosition _))
                 id _ target (fun n => eq_refl) Fg).
      reflexivity. }
    congruence.
  - simpl. repeat split; try reflexivity; intros H; unfold JS.Math_max;
      now apply Q.max_r.
Qed.

(** The screen-pixel revision: clamped from below by 0 and from above by
    the canvas size less the node size. *)
Lemma drag_move_pixels (rect : DOMRect) (e : MouseEvent)
    (w : VisualBuilderBasic.World) (id : string) :
  JS.truthy (VisualBuilderBasic.connectingSourceId (VisualBuilderBasic.ui w))
    = false ->
  VisualBuilderBasic.draggingId (VisualBuilderBasic.ui w) = Some id ->
  id <> ""%string ->
  Spec.knownBasic (VisualBuilderBasic.formState w) id ->
  let grabOffset := VisualBuilderBasic.dragOffset (VisualBuilderBasic.ui w) in
  let newX := clientX e - NodePosition.x grabOffset in
  let newY := clientY e - NodePosition.y grabOffset in
  exists p,
    Spec.positionOfBasic
      (VisualBuilderBasic.formState
         (VisualBuilderBasic.onMouseMove (Some rect) e w)) id
      = Some p /\
    NodePosition.x p = JS.Math_max 0 (JS.Math_min newX (width rect - 200)) /\
    NodePosition.y p = JS.Math_max 0 (JS.Math_min newY (height rect - 80)) /\
    NodePosition.x p <= JS.Math_max 0 (width rect - 200) /\
    NodePosition.y p <= JS.Math_max 0 (height rect - 80).
Proof.
  intros Hwire Hdrag Hid Hknown grabOffset newX newY.
  exists (NodePosition.mk
            (JS.Math_max 0 (JS.Math_min newX (width rect - 200)))
            (JS.Math_max 0 (JS.Math_min newY (height rect - 80)))).
  split.
  - unfold VisualBuilderBasic.onMouseMove.
    rewrite Hwire, Hdrag, (truthy_nonempty id Hid).
    fold grabOffset. fold newX. fold newY.
    unfold Spec.positionOfBasic.
    destruct (find (fun s => (DataSource.id s =? id)%string)
                (DeRequestState.dataSources (VisualBuilderBasic.formState w)))
      as [source|] eqn:Fs.
    { simpl.
      rewrite (find_map_update DataSource.id
                 (fun n => DataSource.merge n (DataSource.justPosition _))
                 id _ source (fun n => eq_refl) Fs).
      simpl. now destruct (VisualBuilderBasic.isExpanded _). }
    destruct (find (fun t => (DataTarget.id t =? id)%string)
                (DeRequestState.dataTargets (VisualBuilderBasic.formState w)))
      as [target|] eqn:Fg.
    { simpl. rewrite Fs.
      rewrite (find_map_update DataTarget.id
                 (fun n => DataTarget.merge n (DataTarget.justPosition _))
                 id _ target (fun n => eq_refl) Fg).
      simpl. now destruct (VisualBuilderBasic.isExpanded _). }
    destruct Hknown as [H | H]; congruence.
  - simpl. unfold JS.Math_max, JS.Math_min.
    repeat split; try reflexivity;
      apply Q.max_le_compat_l; apply Q.le_min_r.
Qed.

End Dragging.

Section DraggingClaim.
Import Dom.
Local Open Scope Q_scope.

(** In the screen-pixel revision a node dragged far to the right stops at
    the canvas width less the node width: with a canvas 800 wide, a cursor
    at 5010 and a grab offset of 10, the stored x is 600, not 5000. *)
Lemma drag_far_right_is_clamped :
  let rect := mkRect 0 0 800 600 in
  let e := mkMouse 5010 60 0 in
  let w := VisualBuilderBasic.mkWorld App.initialState
             (VisualBuilderBasic.mkState false (Some "1"%string)
                (NodePosition.mk 10 10) false None None) in
  exists p,
    Spec.positionOfBasic
      (VisualBuilderBasic.formState
         (VisualBuilderBasic.onMouseMove (Some rect) e w)) "1"
      = Some p /\
    NodePosition.x p == 600 /\
    ~ NodePosition.x p
      == clientX e
         - NodePosition.x (VisualBuilderBasic.dragOffset (VisualBuilderBasic.ui w)).
Proof.
  cbv zeta. eexists. split; [vm_compute; reflexivity|]. split.
  - reflexivity.
  - intros H. vm_compute in H. discriminate H.
Qed.

(** C6 (as amended).  While a node of the graph is dragged and no pan or
    wire is in progress, a move event stores a new position for it.  In the
    revision with a viewport each coordinate is the larger of -500 and
    worldCursor - grabOffset: there is no upper bound, and a coordinate of
    worldCursor - grabOffset that is at least -500 is stored as it is.  In
    the screen-pixel revision each coordinate is cursor - grabOffset clamped
    between 0 and the canvas size less the node size (200 by 80), which
    bounds it from above. *)
Theorem drag_sets_position :
  (forall (rect : DOMRect) (e : MouseEvent) (w : VisualBuilder.World)
          (id : string),
     VisualBuilder.isPanning (VisualBuilder.ui w) = false ->
     JS.truthy (VisualBuilder.connectingSourceId (VisualBuilder.ui w)) = false ->
     VisualBuilder.draggingId (VisualBuilder.ui w) = Some id ->
     id <> ""%string ->
     Spec.known (VisualBuilder.formState w) id ->
     let worldCursor :=
       VisualBuilder.screenToWorld (Some rect)
         (VisualBuilder.viewport (VisualBuilder.ui w)) (clientX e) (clientY e) in
     let grabOffset := VisualBuilder.dragOffset (VisualBuilder.ui w) in
     let newX := NodePosition.x worldCursor - NodePosition.x grabOffset in
     let newY := NodePosition.y worldCursor - NodePosition.y grabOffset in
     exists p,
       Spec.positionOf
         (VisualBuilder.formState (VisualBuilder.onMouseMove (Some rect) e w)) id
         = Some p /\
       NodePosition.x p = JS.Math_max (-500) newX /\
       NodePosition.y p = JS.Math_max (-500) newY /\
       (-500 <= newX -> NodePosition.x p == newX) /\
       (-500 <= newY -> NodePosition.y p == newY)) /\
  (forall (rect : DOMRect) (e : MouseEvent) (w : VisualBuilderBasic.World)
          (id : string),
     JS.truthy (VisualBuilderBasic.connectingSourceId (VisualBuilderBasic.ui w))
       = false ->
     VisualBuilderBasic.draggingId (VisualBuilderBasic.ui w) = Some id ->
     id <> ""%string ->
     Spec.knownBasic (VisualBuilderBasic.formState w) id ->
     let grabOffset := VisualBuilderBasic.dragOffset (VisualBuilderBasic.ui w) in
     let newX := clientX e - NodePosition.x grabOffset in
     let newY := clientY e - NodePosition.y grabOffset in
     exists p,
       Spec.positionOfBasic
         (VisualBuilderBasic.formState
            (VisualBuilderBasic.onMouseMove (Some rect) e w)) id
         = Some p /\
       NodePosition.x p = JS.Math_max 0 (JS.Math_min newX (width rect - 200)) /\
       NodePosition.y p = JS.Math_max 0 (JS.Math_min newY (height rect - 80)) /\
       NodePosition.x p <= JS.Math_max 0 (width rect - 200) /\
       NodePosition.y p <= JS.Math_max 0 (height rect - 80)).
Proof.
  split.
  - exact drag_move_viewport.
  - exact drag_move_pixels.
Qed.

Lemma drag_sets_position_witness :
  let rect := mkRect 0 0 800 600 in
  let e := mkMouse 5010 60 0 in
  let w := VisualBuilder.mkWorld App.initialState
             (VisualBuilder.mkState (Viewport.mk 0 0 1) false
                (NodePosition.mk 0 0) (Some "1"%string) (NodePosition.mk 10 10)
                false None None) in
  exists p,
    Spec.positionOf
      (VisualBuilder.formState (VisualBuilder.onMouseMove (Some rect) e w)) "1"
      = Some p /\
    NodePosition.x p == 5000 /\ NodePosition.y p == 50.
Proof.
  cbv zeta.
  destruct drag_sets_position as [Hview _].
  destruct (Hview (mkRect 0 0 800 600) (mkMouse 5010 60 0)
              (VisualBuilder.mkWorld App.initialState
                 (VisualBuilder.mkState (Viewport.mk 0 0 1) false
                    (NodePosition.mk 0 0) (Some "1"%string)
                    (NodePosition.mk 10 10) false None None))
              "1"%string)
    as (p & Hp & _ & _ & Hx & Hy).
  - reflexivity.
  - reflexivity.
  - reflexivity.
  - discriminate.
  - unfold Spec.known. simpl. discriminate.
  - exists p. split; [exact Hp|]. split.
    + rewrite Hx; [vm_compute; reflexivity | vm_compute; discriminate].
    + rewrite Hy; [vm_compute; reflexivity | vm_compute; discriminate].
Defined.

End DraggingClaim.

(* ================================================================== *)
(** * Wiring *)

Section Wiring.
Import Dom DeRequestState.

(** ** The revision with a viewport *)

Lemma wire_state_dragTo (id : string) (cx cy : Q) (w : VisualBuilder.World) :
  connections (VisualBuilder.formState (VisualBuilder.dragTo id cx cy w))
  = connections (VisualBuilder.formState w).
Proof.
  unfold VisualBuilder.dragTo.
  destruct (find _ (dataSources _)); [reflexivity|].
  destruct (find _ (transformationNodes _)); [reflexivity|].
  destruct (find _ (dataTargets _)); reflexivity.
Qed.

Lemma onMouseMove_keeps_wire (canvasRef : option DOMRect) (e : MouseEvent)
    (w : VisualBuilder.World) :
  connections (VisualBuilder.formState (VisualBuilder.onMouseMove canvasRef e w))
  = connections (VisualBuilder.formState w) /\
  VisualBuilder.connectingSourceId
    (VisualBuilder.ui (VisualBuilder.onMouseMove canvasRef e w))
  = VisualBuilder.connectingSourceId (VisualBuilder.ui w).
Proof.
  unfold VisualBuilder.onMouseMove.
  destruct canvasRef as [rect|]; [|split; reflexivity].
  destruct (VisualBuilder.isPanning _); [split; reflexivity|].
  destruct (JS.truthy (VisualBuilder.connectingSourceId _));
    [split; reflexivity|].
  destruct (VisualBuilder.draggingId _) as [id|]; [|split; reflexivity].
  destruct (JS.truthy (Some id)); [|split; reflexivity].
  split.
  - now rewrite wire_state_dragTo.
  - now rewrite viewport_dragTo.
Qed.

Lemma moves_keep_wire (moves : list (option DOMRect * MouseEvent))
    (w : VisualBuilder.World) :
  connections
    (VisualBuilder.formState
       (VisualBuilder.run (Spec.movesOf VisualBuilder.MouseMove moves) w))
  = connections (VisualBuilder.formState w) /\
  VisualBuilder.connectingSourceId
    (VisualBuilder.ui (VisualBuilder.run (Spec.movesOf VisualBuilder.MouseMove moves) w))
  = VisualBuilder.connectingSourceId (VisualBuilder.ui w).
Proof.
  revert w. induction moves as [|[c e] moves IH]; intros w; simpl.
  - split; reflexivity.
  - destruct (IH (VisualBuilder.onMouseMove c e w)) as [Hc Hs].
    destruct (onMouseMove_keeps_wire c e w) as [Hc' Hs'].
    split; congruence.
Qed.

Lemma release_cancels (canvasRef : option DOMRect) (release : VisualBuilder.Event)
    (sourceId : string) (w : VisualBuilder.World) :
  VisualBuilder.connectingSourceId (VisualBuilder.ui w) = Some sourceId ->
  release = VisualBuilder.MouseLeave \/
  (exists on uuid, release = VisualBuilder.MouseUp on uuid
                   /\ Spec.commits sourceId on = false) ->
  connections (VisualBuilder.formState (VisualBuilder.step canvasRef release w))
  = connections (VisualBuilder.formState w) /\
  VisualBuilder.connectingSourceId
    (VisualBuilder.ui (VisualBuilder.step canvasRef release w)) = None /\
  VisualBuilder.mousePos
    (VisualBuilder.ui (VisualBuilder.step canvasRef release w)) = None.
Proof.
  intros Hsrc [-> | (on & uuid & -> & Hon)]; simpl.
  - repeat split.
  - destruct on as [|[| |] id pos]; try (repeat split; fail).
    simpl in Hon. apply negb_false_iff in Hon.
    unfold VisualBuilder.endWiring. rewrite Hsrc, Hon.
    rewrite andb_false_r. repeat split.
Qed.

(** ** The screen-pixel revision *)

Lemma onMouseMove_keeps_wire_basic (canvasRef : option DOMRect) (e : MouseEvent)
    (w : VisualBuilderBasic.World) :
  connections
    (VisualBuilderBasic.formState (VisualBuilderBasic.onMouseMove canvasRef e w))
  = connections (VisualBuilderBasic.formState w) /\
  VisualBuilderBasic.connectingSourceId
    (VisualBuilderBasic.ui (VisualBuilderBasic.onMouseMove canvasRef e w))
  = VisualBuilderBasic.connectingSourceId (VisualBuilderBasic.ui w).
Proof.
  unfold VisualBuilderBasic.onMouseMove.
  destruct canvasRef as [rect|]; [|split; reflexivity].
  destruct (JS.truthy (VisualBuilderBasic.connectingSourceId _));
    [split; reflexivity|].
  destruct (VisualBuilderBasic.draggingId _) as [id|]; [|split; reflexivity].
  destruct (JS.truthy (Some id)); [|split; reflexivity].
  destruct (find _ (dataSources _)); [split; reflexivity|].
  destruct (find _ (dataTargets _)); split; reflexivity.
Qed.

Lemma moves_keep_wire_basic (moves : list (option DOMRect * MouseEvent))
    (w : VisualBuilderBasic.World) :
  connections
    (VisualBuilderBasic.formState
       (VisualBuilderBasic.run (Spec.movesOf VisualBuilderBasic.MouseMove moves) w))
  = connections (VisualBuilderBasic.formState w) /\
  VisualBuilderBasic.connectingSourceId
    (VisualBuilderBasic.ui
       (VisualBuilderBasic.run (Spec.movesOf VisualBuilderBasic.MouseMove moves) w))
  = VisualBuilderBasic.connectingSourceId (VisualBuilderBasic.ui w).
Proof.
  revert w. induction moves as [|[c e] moves IH]; intros w; simpl.
  - split; reflexivity.
  - destruct (IH (VisualBuilderBasic.onMouseMove c e w)) as [Hc Hs].
    destruct (onMouseMove_keeps_wire_basic c e w) as [Hc' Hs'].
    split; congruence.
Qed.

Lemma release_cancels_basic (canvasRef : option DOMRect)
    (release : VisualBuilderBasic.Event) (sourceId : string)
    (w : VisualBuilderBasic.World) :
  VisualBuilderBasic.connectingSourceId (VisualBuilderBasic.ui w) = Some sourceId ->
  release = VisualBuilderBasic.MouseLeave \/
  (exists on uuid, release = VisualBuilderBasic.MouseUp on uuid
                   /\ Spec.commits sourceId on = false) ->
  connections
    (VisualBuilderBasic.formState (VisualBuilderBasic.step canvasRef release w))
  = connections (VisualBuilderBasic.formState w) /\
  VisualBuilderBasic.connectingSourceId
    (VisualBuilderBasic.ui (VisualBuilderBasic.step canvasRef release w)) = None /\
  VisualBuilderBasic.mousePos
    (VisualBuilderBasic.ui (VisualBuilderBasic.step canvasRef release w)) = None.
Proof.
  intros Hsrc [-> | (on & uuid & -> & Hon)]; simpl.
  - repeat split.
  - destruct on as [|[| |] id pos]; try (repeat split; fail).
    simpl in Hon. apply negb_false_iff in Hon.
    unfold VisualBuilderBasic.endWiring. rewrite Hsrc, Hon.
    rewrite andb_false_r. repeat split.
Qed.

Lemma startWiring_basic_source (canvasRef : option DOMRect) (e : MouseEvent)
    (id : string) (w : VisualBuilderBasic.World) :
  connections
    (VisualBuilderBasic.formState (VisualBuilderBasic.startWiring canvasRef e id w))
  = connections (VisualBuilderBasic.formState w) /\
  VisualBuilderBasic.connectingSourceId
    (VisualBuilderBasic.ui (VisualBuilderBasic.startWiring canvasRef e id w))
  = Some id.
Proof.
  unfold VisualBuilderBasic.startWiring. now destruct canvasRef.
Qed.

(** C7.  In both revisions of the canvas: a wire started by a press on the
    output handle of node [a], followed by any pointer moves, and released
    by the pointer leaving the canvas or by a release anywhere but on the
    input handle of a node other than [a] (the background, a node body, an
    output handle, [a]'s own input handle) leaves the connection list as it
    was before the press, and leaves no connecting source and no preview
    point. *)
Theorem wire_release_elsewhere_cancels
    (a : string) (pos : option NodePosition.t) (press : MouseEvent)
    (moves : list (option DOMRect * MouseEvent))
    (c0 c1 : option DOMRect) :
  (forall (release : VisualBuilderBasic.Event) (w0 : VisualBuilderBasic.World),
     release = VisualBuilderBasic.MouseLeave \/
     (exists on uuid, release = VisualBuilderBasic.MouseUp on uuid
                      /\ Spec.commits a on = false) ->
     let w1 := VisualBuilderBasic.step c0
                 (VisualBuilderBasic.MouseDown (OnNode OutputHandle a pos) press)
                 w0 in
     let w2 := VisualBuilderBasic.run
                 (Spec.movesOf VisualBuilderBasic.MouseMove moves) w1 in
     let w3 := VisualBuilderBasic.step c1 release w2 in
     connections (VisualBuilderBasic.formState w3)
       = connections (VisualBuilderBasic.formState w0) /\
     VisualBuilderBasic.connectingSourceId (VisualBuilderBasic.ui w3) = None /\
     VisualBuilderBasic.mousePos (VisualBuilderBasic.ui w3) = None) /\
  (forall (release : VisualBuilder.Event) (w0 : VisualBuilder.World),
     release = VisualBuilder.MouseLeave \/
     (exists on uuid, release = VisualBuilder.MouseUp on uuid
                      /\ Spec.commits a on = false) ->
     let w1 := VisualBuilder.step c0
                 (VisualBuilder.MouseDown (OnNode OutputHandle a pos) press) w0 in
     let w2 := VisualBuilder.run (Spec.movesOf VisualBuilder.MouseMove moves) w1 in
     let w3 := VisualBuilder.step c1 release w2 in
     connections (VisualBuilder.formState w3)
       = connections (VisualBuilder.formState w0) /\
     VisualBuilder.connectingSourceId (VisualBuilder.ui w3) = None /\
     VisualBuilder.mousePos (VisualBuilder.ui w3) = None).
Proof.
  split.
  - intros release w0 Hrel w1 w2 w3.
    destruct (startWiring_basic_source c0 press a w0) as [Hc1 Hs1].
    destruct (moves_keep_wire_basic moves w1) as [Hc2 Hs2].
    fold w2 in Hc2, Hs2.
    assert (Hs : VisualBuilderBasic.connectingSourceId (VisualBuilderBasic.ui w2)
                 = Some a).
    { rewrite Hs2. exact Hs1. }
    destruct (release_cancels_basic c1 release a w2 Hs Hrel) as (Hc3 & Hn & Hm).
    fold w3 in Hc3, Hn, Hm. repeat split; try assumption.
    rewrite Hc3, Hc2. exact Hc1.
  - intros release w0 Hrel w1 w2 w3.
    destruct (moves_keep_wire moves w1) as [Hc2 Hs2].
    fold w2 in Hc2, Hs2.
    assert (Hs : VisualBuilder.connectingSourceId (VisualBuilder.ui w2) = Some a).
    { rewrite Hs2. reflexivity. }
    destruct (release_cancels c1 release a w2 Hs Hrel) as (Hc3 & Hn & Hm).
    fold w3 in Hc3, Hn, Hm. repeat split; try assumption.
    rewrite Hc3, Hc2. reflexivity.
Qed.

Lemma wire_release_elsewhere_cancels_witness :
  let rect := Some (mkRect 0 0 800 600) in
  let w0 := VisualBuilderBasic.mkWorld App.initialState
              (VisualBuilderBasic.mkState false None (NodePosition.mk 0 0)
                 false None None) in
  let w3 :=
    VisualBuilderBasic.run
      [(rect, VisualBuilderBasic.MouseDown
                (OnNode OutputHandle "1" (Some (NodePosition.mk 50 50)))
                (mkMouse 250 110 0));
       (rect, VisualBuilderBasic.MouseMove (mkMouse 300 200 0));
       (rect, VisualBuilderBasic.MouseUp Canvas "u1")] w0 in
  connections (VisualBuilderBasic.formState w3) = connections App.initialState /\
  VisualBuilderBasic.connectingSourceId (VisualBuilderBasic.ui w3) = None /\
  VisualBuilderBasic.mousePos (VisualBuilderBasic.ui w3) = None.
Proof.
  cbv zeta.
  destruct (wire_release_elsewhere_cancels "1" (Some (NodePosition.mk 50 50))
              (mkMouse 250 110 0)
              [(Some (mkRect 0 0 800 600), mkMouse 300 200 0)]
              (Some (mkRect 0 0 800 600)) (Some (mkRect 0 0 800 600)))
    as [Hbasic _].
  apply (Hbasic (VisualBuilderBasic.MouseUp Canvas "u1")).
  right. exists Canvas, "u1". split; reflexivity.
Defined.

End Wiring.

(* ================================================================== *)
(** * More of the graph store: updates, additions, removals *)

Section StoreUpdates.
Import DeRequestState.

Lemma map_update_absent {A : Type} (key : A -> string) (upd : A -> A)
    (id : string) (l : list A) :
  ~ In id (map key l) ->
  map (fun n => if key n =? id then upd n else n) l = l.
Proof.
  induction l as [|a l IH]; [reflexivity|]. simpl. intros Hn.
  destruct (String.eqb_spec (key a) id) as [E | E].
  - exfalso. apply Hn. now left.
  - rewrite IH; [reflexivity|]. intros H. apply Hn. now right.
Qed.

(** X1.  Updating a node by an id that no node of the collection has
    changes nothing, whatever the patch. *)
Theorem updateNode_unknown_id (id : string) (st : DeRequestState.t) :
  (forall data, ~ In id (App.idsOf App.Source st) ->
     App.updateSourceNode id data st = st) /\
  (forall data, ~ In id (App.idsOf App.Transformation st) ->
     App.updateTransformationNode id data st = st) /\
  (forall data, ~ In id (App.idsOf App.Target st) ->
     App.updateTargetNode id data st = st).
Proof.
  destruct st as [tr pr et ds ts gs cs]. simpl.
  repeat split; intros data Hn;
    [unfold App.updateSourceNode | unfold App.updateTransformationNode
    | unfold App.updateTargetNode]; simpl; f_equal;
    now apply map_update_absent.
Qed.

Lemma updateNode_unknown_id_witness :
  App.updateTargetNode "t1"
    (DataTarget.justPosition (NodePosition.mk 1 2)) App.initialState
  = App.initialState.
Proof.
  apply (updateNode_unknown_id "t1" App.initialState).
  simpl. intros [H | []]. discriminate H.
Defined.

Lemma map_update_keys {A : Type} (key : A -> string) (upd : A -> A)
    (id : string) (l : list A) :
  (forall n, key (upd n) = key n) ->
  map key (map (fun n => if key n =? id then upd n else n) l) = map key l.
Proof.
  intros Hk. rewrite map_map. apply map_ext. intros a.
  now destruct (key a =? id).
Qed.

Lemma found_by_keys {A B : Type} (ka : A -> string) (kb : B -> string)
    (id : string) (la : list A) (lb : list B) :
  map ka la = map kb lb -> Spec.found ka id la = Spec.found kb id lb.
Proof.
  unfold Spec.found. revert lb.
  induction la as [|a la IH]; intros [|b lb] H; simpl in *;
    try discriminate; [reflexivity|].
  injection H as Hab Hl. rewrite Hab.
  destruct (kb b =? id); [reflexivity | now apply IH].
Qed.

Lemma found_iff_In {A : Type} (key : A -> string) (id : string) (l : list A) :
  Spec.found key id l = true <-> In id (map key l).
Proof.
  unfold Spec.found. induction l as [|a l IH]; simpl.
  - split; [discriminate | tauto].
  - destruct (String.eqb_spec (key a) id) as [E | E].
    + split; auto.
    + rewrite IH. split; [auto | intros [H | H]; [contradiction | exact H]].
Qed.

Lemma resolves_found (st : DeRequestState.t) (id : string) :
  Spec.resolves st id =
  Spec.found DataSource.id id (dataSources st)
  || Spec.found TransformationNode.id id (transformationNodes st)
  || Spec.found DataTarget.id id (dataTargets st).
Proof.
  unfold Spec.resolves, VisualBuilder.findNode , Spec.found.
  destruct (find _ (dataSources st)); [reflexivity|].
  destruct (find _ (transformationNodes st)); [reflexivity|].
  destruct (find _ (dataTargets st)); reflexivity.
Qed.

(** Whether an id resolves depends on the ids of the three collections
    only. *)
Lemma resolves_by_ids (st st' : DeRequestState.t) (id : string) :
  (forall k, App.idsOf k st' = App.idsOf k st) ->
  Spec.resolves st' id = Spec.resolves st id.
Proof.
  intros Hids. rewrite !resolves_found.
  rewrite (found_by_keys DataSource.id DataSource.id id _ _ (Hids App.Source)).
  rewrite (found_by_keys TransformationNode.id TransformationNode.id id _ _
             (Hids App.Transformation)).
  now rewrite (found_by_keys DataTarget.id DataTarget.id id _ _
                 (Hids App.Target)).
Qed.

Lemma noOrphan_by_ids (st st' : DeRequestState.t) :
  (forall k, App.idsOf k st' = App.idsOf k st) ->
  connections st' = connections st ->
  Spec.noOrphan st' = Spec.noOrphan st.
Proof.
  intros Hids Hc. unfold Spec.noOrphan. rewrite Hc.
  generalize (connections st) as cs.
  induction cs as [|c cs IH]; [reflexivity|]. simpl.
  rewrite IH.
  rewrite (resolves_by_ids st st' (Connection.sourceId c) Hids).
  rewrite (resolves_by_ids st st' (Connection.targetId c) Hids).
  reflexivity.
Qed.

(** X2.  A patch that carries no [id] key, such as the position written by a
    drag, leaves the ids of all three collections in their order and the
    connection list untouched; so every id resolves as before and the graph
    has an orphan edge after the update exactly when it had one before. *)
Theorem updateNode_keeps_graph_shape (id : string) (st : DeRequestState.t) :
  (forall data, DataSource.p_id data = None ->
     let st' := App.updateSourceNode id data st in
     (forall k, App.idsOf k st' = App.idsOf k st) /\
     connections st' = connections st /\
     (forall i, Spec.resolves st' i = Spec.resolves st i) /\
     Spec.noOrphan st' = Spec.noOrphan st) /\
  (forall data, TransformationNode.p_id data = None ->
     let st' := App.updateTransformationNode id data st in
     (forall k, App.idsOf k st' = App.idsOf k st) /\
     connections st' = connections st /\
     (forall i, Spec.resolves st' i = Spec.resolves st i) /\
     Spec.noOrphan st' = Spec.noOrphan st) /\
  (forall data, DataTarget.p_id data = None ->
     let st' := App.updateTargetNode id data st in
     (forall k, App.idsOf k st' = App.idsOf k st) /\
     connections st' = connections st /\
     (forall i, Spec.resolves st' i = Spec.resolves st i) /\
     Spec.noOrphan st' = Spec.noOrphan st).
Proof.
  repeat split; try reflexivity; intros;
    match goal with
    | |- App.idsOf ?k _ = _ => idtac
    | |- Spec.resolves _ _ = _ => apply resolves_by_ids; intros k
    | |- Spec.noOrphan _ = _ =>
        apply noOrphan_by_ids; [intros k | reflexivity]
    end;
    destruct k; simpl; try reflexivity;
    apply map_update_keys; intros n; unfold DataSource.merge,
      TransformationNode.merge, DataTarget.merge; simpl;
    match goal with H : _ = None |- _ => now rewrite H end.
Qed.

Lemma updateNode_keeps_graph_shape_witness :
  Spec.noOrphan
    (App.updateSourceNode "1" (DataSource.justPosition (NodePosition.mk 7 9))
       App.initialState) = true.
Proof.
  destruct (updateNode_keeps_graph_shape "1" App.initialState) as (Hs & _).
  destruct (Hs (DataSource.justPosition (NodePosition.mk 7 9)) eq_refl)
    as (_ & _ & _ & Ho).
  rewrite Ho. reflexivity.
Defined.

End StoreUpdates.

(* ================================================================== *)
(** * Removing connections and errors, adding nodes *)

Section StoreAddRemove.
Import DeRequestState.

Lemma filter_all {A : Type} (p : A -> bool) (l : list A) :
  (forall a, In a l -> p a = true) -> filter p l = l.
Proof.
  induction l as [|a l IH]; [reflexivity|]. simpl. intros H.
  rewrite (H a (or_introl eq_refl)). f_equal. apply IH. intros b Hb.
  apply H. now right.
Qed.

Lemma forallb_filter_true {A : Type} (p q : A -> bool) (l : list A) :
  forallb p l = true -> forallb p (filter q l) = true.
Proof.
  rewrite !forallb_forall. intros H a Ha. apply filter_In in Ha as [Ha _].
  now apply H.
Qed.

(** X3.  [removeConnection id] removes exactly the connections whose id is
    [id] and keeps the others in their order: the new list is the old one
    with those connections left out, so removing the one connection of that
    id from between two stretches of the list leaves the two stretches
    joined.  The nodes are untouched, an id that no connection has changes
    nothing, and no orphan edge appears. *)
Theorem removeConnection_spec (id : string) (st : DeRequestState.t) :
  let st' := App.removeConnection id st in
  connections st'
    = filter (fun c => negb (Connection.id c =? id)) (connections st) /\
  (forall before c after,
     connections st = (before ++ c :: after)%list ->
     Connection.id c = id ->
     (forall d, In d (before ++ after)%list -> Connection.id d <> id) ->
     connections st' = (before ++ after)%list) /\
  (forall c, In c (connections st') <->
             In c (connections st) /\ Connection.id c <> id) /\
  (forall k, App.idsOf k st' = App.idsOf k st) /\
  dataSources st' = dataSources st /\
  transformationNodes st' = transformationNodes st /\
  dataTargets st' = dataTargets st /\
  ((forall c, In c (connections st) -> Connection.id c <> id) -> st' = st) /\
  (Spec.noOrphan st = true -> Spec.noOrphan st' = true).
Proof.
  cbv zeta. split; [reflexivity|]. split.
  { intros before c after E Hc Hrest. unfold App.removeConnection. simpl.
    rewrite E, filter_app. simpl. rewrite Hc, String.eqb_refl. simpl.
    rewrite <- filter_app. apply filter_all. intros d Hd.
    apply negb_true_iff, String.eqb_neq. now apply Hrest. }
  split; [|split; [|split; [|split; [|split; [|split]]]]];
    try reflexivity.
  - intros c. unfold App.removeConnection. simpl. rewrite filter_In.
    now rewrite negb_true_iff, String.eqb_neq.
  - intros H. destruct st as [tr pr et ds ts gs cs].
    unfold App.removeConnection. simpl in *. f_equal.
    apply filter_all. intros c Hc. apply negb_true_iff, String.eqb_neq.
    now apply H.
  - unfold Spec.noOrphan. intros H.
    apply (forallb_filter_true _ (fun c => negb (Connection.id c =? id))) in H.
    exact H.
Qed.

Lemma removeConnection_spec_witness :
  App.removeConnection "c9" App.initialState = App.initialState /\
  Spec.noOrphan (App.removeConnection "c1" App.initialState) = true.
Proof.
  split.
  - apply (removeConnection_spec "c9" App.initialState).
    simpl. intros c [<- | [<- | []]]; discriminate.
  - apply (removeConnection_spec "c1" App.initialState). reflexivity.
Defined.

(** X4.  Adding a connection and then removing it by the id it was given
    restores the state, provided the connection was really added (distinct
    endpoints, pair not yet linked) and its id was not already the id of a
    connection. *)
Theorem add_then_remove_connection (st : DeRequestState.t)
    (uuid sourceId targetId : string) :
  sourceId <> targetId ->
  ~ Spec.linked sourceId targetId (connections st) ->
  ~ In uuid (map Connection.id (connections st)) ->
  App.removeConnection uuid (App.onAddConnection uuid sourceId targetId st) = st.
Proof.
  intros Hne Hnl Hfresh.
  rewrite (addConnection_appends st uuid _ _ Hne Hnl).
  destruct st as [tr pr et ds ts gs cs]. unfold App.removeConnection.
  simpl in *. f_equal. rewrite filter_app. simpl. rewrite String.eqb_refl.
  simpl. rewrite app_nil_r. apply filter_all. intros c Hc.
  apply negb_true_iff, String.eqb_neq. intros E. apply Hfresh.
  rewrite <- E. now apply in_map.
Qed.

Lemma add_then_remove_connection_witness :
  App.removeConnection "u1" (App.onAddConnection "u1" "1" "10" App.initialState)
  = App.initialState.
Proof.
  apply add_then_remove_connection.
  - discriminate.
  - intros H. apply existsb_samePair in H. discriminate H.
  - simpl. intros [H | [H | []]]; discriminate H.
Defined.

Lemma find_app_absent {A : Type} (p : A -> bool) (l : list A) (a : A) :
  find p l = None -> find p (l ++ [a]) = if p a then Some a else None.
Proof.
  induction l as [|b l IH]; simpl; [reflexivity|].
  destruct (p b); [discriminate | exact IH].
Qed.

Lemma found_app {A : Type} (key : A -> string) (id : string) (l : list A)
    (a : A) :
  Spec.found key id (l ++ [a]) = Spec.found key id l || (key a =? id).
Proof.
  unfold Spec.found. induction l as [|b l IH]; simpl.
  - now destruct (key a =? id).
  - destruct (key b =? id); [reflexivity | exact IH].
Qed.

Lemma resolves_addNode (kind : App.NodeKind) (uuid : string)
    (position : option NodePosition.t) (st : DeRequestState.t) (id : string) :
  Spec.resolves (App.addNode kind uuid position st) id
  = Spec.resolves st id || (uuid =? id).
Proof.
  rewrite !resolves_found.
  destruct kind; simpl; rewrite found_app; simpl;
    destruct (Spec.found DataSource.id id (dataSources st)),
             (Spec.found TransformationNode.id id (transformationNodes st)),
             (Spec.found DataTarget.id id (dataTargets st)),
             (uuid =? id); reflexivity.
Qed.

(** X5.  Adding a node of any kind puts exactly one node at the end of
    that kind's collection: the node has the drawn id, empty attributes (a
    source's frequency is "Daily") and the position given or, when none is
    given, the default slot of its kind (x = 50, 350 or 650 and
    y = 50 + 150 * the number of nodes of that kind).  The nodes already
    there, the other two collections, the connections, the requirement
    texts and the tool list are unchanged.  Every id that resolved still
    resolves, the new id resolves, no orphan edge appears, and when the id
    was not in use [findNode] finds the node at that position. *)
Theorem addNode_spec (kind : App.NodeKind) (uuid : string)
    (position : option NodePosition.t) (st : DeRequestState.t) :
  let st' := App.addNode kind uuid position st in
  let p := JS.orElse position (Spec.defaultSlot kind st) in
  match kind with
  | App.Source =>
      dataSources st'
        = (dataSources st
             ++ [DataSource.mk uuid "" "" "" "" "" "" "Daily" (Some p)])%list /\
      transformationNodes st' = transformationNodes st /\
      dataTargets st' = dataTargets st
  | App.Transformation =>
      dataSources st' = dataSources st /\
      transformationNodes st'
        = (transformationNodes st
             ++ [TransformationNode.mk uuid "" "" "" (Some p)])%list /\
      dataTargets st' = dataTargets st
  | App.Target =>
      dataSources st' = dataSources st /\
      transformationNodes st' = transformationNodes st /\
      dataTargets st'
        = (dataTargets st ++ [DataTarget.mk uuid "" "" "" (Some p)])%list
  end /\
  connections st' = connections st /\
  techRequirements st' = techRequirements st /\
  productRequirements st' = productRequirements st /\
  existingTools st' = existingTools st /\
  (forall id, Spec.resolves st' id = Spec.resolves st id || (uuid =? id)) /\
  (Spec.noOrphan st = true -> Spec.noOrphan st' = true) /\
  (Spec.resolves st uuid = false -> Spec.positionOf st' uuid = Some p).
Proof.
  cbv zeta. split; [now destruct kind|].
  split; [now destruct kind|]. split; [now destruct kind|].
  split; [now destruct kind|]. split; [now destruct kind|].
  split; [|split].
  - apply resolves_addNode.
  - unfold Spec.noOrphan.
    replace (connections (App.addNode kind uuid position st))
      with (connections st) by now destruct kind.
    rewrite !forallb_forall. intros H c Hc. specialize (H c Hc).
    apply andb_true_iff in H as [Hs Ht].
    now rewrite !resolves_addNode, Hs, Ht.
  - intros Hnew. rewrite resolves_found in Hnew.
    apply orb_false_iff in Hnew as [Hnew Hg].
    apply orb_false_iff in Hnew as [Hs Ht].
    unfold Spec.found in Hs, Ht, Hg.
    unfold Spec.positionOf, VisualBuilder.findNode.
    destruct (find _ (dataSources st)) eqn:Fs; [discriminate|].
    destruct (find _ (transformationNodes st)) eqn:Ft; [discriminate|].
    destruct (find _ (dataTargets st)) eqn:Fg; [discriminate|].
    destruct kind; simpl.
    + rewrite (find_app_absent _ _ _ Fs). simpl. now rewrite String.eqb_refl.
    + rewrite Fs, (find_app_absent _ _ _ Ft). simpl.
      now rewrite String.eqb_refl.
    + rewrite Fs, Ft, (find_app_absent _ _ _ Fg). simpl.
      now rewrite String.eqb_refl.
Qed.

Lemma addNode_spec_witness :
  Spec.positionOf (App.addNode App.Transformation "n7" None App.initialState)
    "n7"
  = Some (NodePosition.mk 350 (50 + JS.num 1 * 150)%Q) /\
  Spec.noOrphan
    (App.addNode App.Transformation "n7" (Some (NodePosition.mk 120 80))
       App.initialState) = true.
Proof.
  destruct (addNode_spec App.Transformation "n7" None App.initialState)
    as (_ & _ & _ & _ & _ & _ & _ & Hp).
  destruct (addNode_spec App.Transformation "n7"
              (Some (NodePosition.mk 120 80)) App.initialState)
    as (_ & _ & _ & _ & _ & _ & Ho & _).
  split; [apply Hp | apply Ho]; reflexivity.
Defined.

Lemma filterIndex_past {A : Type} (l : list A) (base index : nat) :
  (index < base)%nat ->
  JS.filterIndex (fun _ i => negb (i =? index)%nat) base l = l.
Proof.
  revert base. induction l as [|a l IH]; intros base H; simpl; [reflexivity|].
  replace (base =? index)%nat with false by (symmetry; apply Nat.eqb_neq; lia).
  simpl. f_equal. apply IH. lia.
Qed.

Lemma filterIndex_drop {A : Type} (index base : nat) (l : list A) :
  JS.filterIndex (fun _ i => negb (i =? base + index)%nat) base l
  = (firstn index l ++ skipn (S index) l)%list.
Proof.
  revert index base. induction l as [|a l IH]; intros index base; simpl.
  - now destruct index.
  - destruct index as [|index].
    + replace (base =? base + 0)%nat with true
        by (symmetry; apply Nat.eqb_eq; lia).
      simpl. apply filterIndex_past. lia.
    + replace (base =? base + S index)%nat with false
        by (symmetry; apply Nat.eqb_neq; lia).
      simpl. f_equal.
      replace (base + S index)%nat with (S base + index)%nat by lia.
      apply IH.
Qed.

(** X6.  [removeError index] drops the message at position [index] and
    keeps the others in order; an index past the end changes nothing. *)
Theorem removeError_spec (index : nat) (errors : list string) :
  App.removeError index errors
    = (firstn index errors ++ skipn (S index) errors)%list /\
  ((index < List.length errors)%nat ->
     S (List.length (App.removeError index errors)) = List.length errors) /\
  ((List.length errors <= index)%nat -> App.removeError index errors = errors).
Proof.
  assert (E : App.removeError index errors
              = (firstn index errors ++ skipn (S index) errors)%list)
    by apply (filterIndex_drop index 0 errors).
  split; [exact E|]. rewrite E. split.
  - intros H. rewrite length_app, length_firstn, length_skipn. lia.
  - intros H. rewrite firstn_all2 by exact H.
    rewrite skipn_all2 by lia. apply app_nil_r.
Qed.

Lemma removeError_spec_witness :
  App.removeError 1 ["a"; "b"; "c"] = ["a"; "c"] /\
  App.removeError 5 ["a"; "b"; "c"] = ["a"; "b"; "c"].
Proof.
  destruct (removeError_spec 1 ["a"; "b"; "c"]) as (H1 & _ & _).
  destruct (removeError_spec 5 ["a"; "b"; "c"]) as (_ & _ & H5).
  split; [exact H1 | apply H5; simpl; lia].
Defined.

End StoreAddRemove.

(* ================================================================== *)
(** * The form view's removal, and naming nodes for the prompt *)

Section FormViewAndNames.
Import DeRequestState.

Lemma found_false_iff {A : Type} (key : A -> string) (id : string) (l : list A) :
  Spec.found key id l = false <-> ~ In id (map key l).
Proof.
  rewrite <- found_iff_In. now destruct (Spec.found key id l).
Qed.

Lemma orphan_when_endpoint_missing (st : DeRequestState.t) (id : string) :
  (forall k, ~ In id (App.idsOf k st)) ->
  (exists c, In c (connections st) /\
             (Connection.sourceId c = id \/ Connection.targetId c = id)) ->
  Spec.noOrphan st = false.
Proof.
  intros Hno (c & Hc & Hend).
  assert (Hres : Spec.resolves st id = false).
  { rewrite resolves_found.
    repeat (apply orb_false_iff; split); apply found_false_iff;
      [apply (Hno App.Source) | apply (Hno App.Transformation)
      | apply (Hno App.Target)]. }
  destruct (Spec.noOrphan st) eqn:E; [|reflexivity].
  unfold Spec.noOrphan in E. rewrite forallb_forall in E.
  specialize (E c Hc). apply andb_true_iff in E as [E1 E2].
  destruct Hend as [<- | <-]; congruence.
Qed.

(** X7.  Removing a source or a transformation in the form view (the list
    components) takes it out of its list but, unlike the canvas' removers,
    leaves the connection list as it is: when a connection has the removed
    id as an endpoint and no other node carries that id, the graph has an
    orphan edge afterwards. *)
Theorem formRemoveNode_does_not_cascade (id : string) (st : DeRequestState.t) :
  let afterSource :=
    App.handleInputChange
      (App.DataSources (SourceNodeList.removeNode (dataSources st) id)) st in
  let afterTransformation :=
    App.handleInputChange
      (App.TransformationNodes
         (TransformationNodeList.removeNode (transformationNodes st) id)) st in
  (~ In id (App.idsOf App.Source afterSource) /\
   connections afterSource = connections st /\
   (~ In id (App.idsOf App.Transformation st) ->
    ~ In id (App.idsOf App.Target st) ->
    (exists c, In c (connections st) /\
               (Connection.sourceId c = id \/ Connection.targetId c = id)) ->
    Spec.noOrphan afterSource = false)) /\
  (~ In id (App.idsOf App.Transformation afterTransformation) /\
   connections afterTransformation = connections st /\
   (~ In id (App.idsOf App.Source st) ->
    ~ In id (App.idsOf App.Target st) ->
    (exists c, In c (connections st) /\
               (Connection.sourceId c = id \/ Connection.targetId c = id)) ->
    Spec.noOrphan afterTransformation = false)).
Proof.
  cbv zeta. split; (split; [apply filter_id_absent|]); (split; [reflexivity|]);
    intros H1 H2 Hc; apply (orphan_when_endpoint_missing _ id); try exact Hc;
    intros k; destruct k; simpl; try assumption; apply filter_id_absent.
Qed.

Lemma formRemoveNode_does_not_cascade_witness :
  Spec.noOrphan App.initialState = true /\
  Spec.noOrphan
    (App.handleInputChange
       (App.TransformationNodes
          (TransformationNodeList.removeNode
             (transformationNodes App.initialState) "t1"))
       App.initialState) = false.
Proof.
  split; [reflexivity|].
  destruct (formRemoveNode_does_not_cascade "t1" App.initialState)
    as [_ (_ & _ & H)].
  apply H.
  - simpl. intros [E | []]. discriminate E.
  - simpl. intros [E | []]. discriminate E.
  - exists (Connection.mk "c1" "1" "t1"). simpl. auto.
Defined.

(** X8.  [getNodeName] answers "Unknown Node" exactly for the ids that
    [findNode] does not resolve; so in a graph without orphan edges no
    endpoint of a connection is described to the service as unknown. *)
Theorem getNodeName_unknown_iff (data : DeRequestState.t) :
  (forall id, GeminiService.getNodeName data id = "Unknown Node"
              <-> Spec.resolves data id = false) /\
  (Spec.noOrphan data = true ->
   forall c, In c (connections data) ->
     GeminiService.getNodeName data (Connection.sourceId c) <> "Unknown Node" /\
     GeminiService.getNodeName data (Connection.targetId c) <> "Unknown Node").
Proof.
  assert (H : forall id, GeminiService.getNodeName data id = "Unknown Node"
                         <-> Spec.resolves data id = false).
  { intros id. unfold GeminiService.getNodeName, Spec.resolves,
      VisualBuilder.findNode.
    destruct (find _ (dataSources data));
      [simpl; split; discriminate|].
    destruct (find _ (dataTargets data));
      destruct (find _ (transformationNodes data));
      simpl; split; try discriminate; reflexivity. }
  split; [exact H|].
  intros Ho c Hc. unfold Spec.noOrphan in Ho. rewrite forallb_forall in Ho.
  specialize (Ho c Hc). apply andb_true_iff in Ho as [Hs Ht].
  split; intros E; apply H in E; congruence.
Qed.

Lemma getNodeName_unknown_iff_witness :
  GeminiService.getNodeName App.initialState "t1" = "Transform: Clean & Join" /\
  GeminiService.getNodeName App.initialState "1" <> "Unknown Node".
Proof.
  split; [reflexivity|].
  destruct (getNodeName_unknown_iff App.initialState) as [_ H].
  apply (H eq_refl (Connection.mk "c1" "1" "t1")). simpl. auto.
Defined.

End FormViewAndNames.

(* ================================================================== *)
(** * The layout answer of the service *)

Section Sanitize.
Import GeminiService.

Lemma In_mapIndex {A B : Type} (f : A -> nat -> B) (base : nat) (l : list A)
    (b : B) :
  In b (JS.mapIndex f base l) -> exists a i, In a l /\ b = f a i.
Proof.
  revert base. induction l as [|a l IH]; intros base; simpl; [tauto|].
  intros [<- | H].
  - exists a, base. auto.
  - destruct (IH _ H) as (a' & i & Ha & E). exists a', i. auto.
Qed.

Lemma length_mapIndex {A B : Type} (f : A -> nat -> B) (base : nat)
    (l : list A) :
  List.length (JS.mapIndex f base l) = List.length l.
Proof.
  revert base. induction l as [|a l IH]; intros base; simpl; [reflexivity|].
  now rewrite IH.
Qed.

Lemma orDefault_nonempty (v : option string) (d : string) :
  d <> "" -> JS.orDefault v d <> "".
Proof.
  intros Hd. unfold JS.orDefault. destruct v as [[|c v]|]; simpl;
    [exact Hd | discriminate | exact Hd].
Qed.

Lemma orDefault_present (v d : string) :
  v <> "" -> JS.orDefault (Some v) d = v.
Proof. destruct v; [congruence | reflexivity]. Qed.

Lemma nth_error_mapIndex {A B : Type} (f : A -> nat -> B) (l : list A)
    (base i : nat) :
  nth_error (JS.mapIndex f base l) i
  = option_map (fun a => f a (base + i)%nat) (nth_error l i).
Proof.
  revert base i. induction l as [|a l IH]; intros base i; simpl.
  - now destruct i.
  - destruct i as [|i]; simpl.
    + now rewrite Nat.add_0_r.
    + rewrite IH. now replace (S base + i)%nat with (base + S i)%nat by lia.
Qed.

Lemma orDefault_absent (v : option string) (d : string) :
  v = None \/ v = Some "" -> JS.orDefault v d = d.
Proof. intros [-> | ->]; reflexivity. Qed.

(** X9.  For a layout answer whose properties are strings or missing, as
    the response schema prescribes: the sanitized layout holds, in the same
    order, one node per item of each list and one connection per item (a
    missing list counts as empty).  A node keeps the id and the name the
    service gave when they are non-empty; a missing or empty id is replaced
    by the generated one and a missing or empty name by the default of the
    kind, so names are never empty and, with a non-empty generated id,
    neither are ids.  A source's frequency and a transformation's
    processing type are never empty, no node carries a position, and a
    connection keeps its two endpoints and gets the generated id. *)
Theorem sanitizeLayout_spec (uuid : nat -> nat -> string) (result : RawLayout) :
  let l := sanitizeLayout uuid result in
  (forall i, nth_error (Layout.dataSources l) i
             = option_map (safeSource (uuid 0%nat i))
                 (nth_error (JS.orElse (raw_dataSources result) []) i)) /\
  (forall i, nth_error (Layout.transformationNodes l) i
             = option_map (safeTransform (uuid 1%nat i))
                 (nth_error (JS.orElse (raw_transformationNodes result) []) i)) /\
  (forall i, nth_error (Layout.dataTargets l) i
             = option_map (safeTarget (uuid 2%nat i))
                 (nth_error (JS.orElse (raw_dataTargets result) []) i)) /\
  (forall i, nth_error (Layout.connections l) i
             = option_map (safeConnection (uuid 3%nat i))
                 (nth_error (JS.orElse (raw_connections result) []) i)) /\
  List.length (Layout.dataSources l)
    = List.length (JS.orElse (raw_dataSources result) []) /\
  List.length (Layout.transformationNodes l)
    = List.length (JS.orElse (raw_transformationNodes result) []) /\
  List.length (Layout.dataTargets l)
    = List.length (JS.orElse (raw_dataTargets result) []) /\
  List.length (Layout.connections l)
    = List.length (JS.orElse (raw_connections result) []) /\
  (forall u s,
     (forall id, rs_id s = Some id -> id <> "" ->
        DataSource.id (safeSource u s) = id) /\
     (rs_id s = None \/ rs_id s = Some "" -> DataSource.id (safeSource u s) = u) /\
     (forall name, rs_name s = Some name -> name <> "" ->
        DataSource.name (safeSource u s) = name) /\
     (rs_name s = None \/ rs_name s = Some "" ->
        DataSource.name (safeSource u s) = "Unknown Source") /\
     (u <> "" -> DataSource.id (safeSource u s) <> "") /\
     DataSource.name (safeSource u s) <> "" /\
     DataSource.frequency (safeSource u s) <> "" /\
     DataSource.position (safeSource u s) = None) /\
  (forall u t,
     (forall id, rt_id t = Some id -> id <> "" ->
        TransformationNode.id (safeTransform u t) = id) /\
     (rt_id t = None \/ rt_id t = Some "" ->
        TransformationNode.id (safeTransform u t) = u) /\
     (forall name, rt_name t = Some name -> name <> "" ->
        TransformationNode.name (safeTransform u t) = name) /\
     (rt_name t = None \/ rt_name t = Some "" ->
        TransformationNode.name (safeTransform u t) = "Processing Step") /\
     (u <> "" -> TransformationNode.id (safeTransform u t) <> "") /\
     TransformationNode.name (safeTransform u t) <> "" /\
     TransformationNode.processingType (safeTransform u t) <> "" /\
     TransformationNode.position (safeTransform u t) = None) /\
  (forall u t,
     (forall id, rg_id t = Some id -> id <> "" ->
        DataTarget.id (safeTarget u t) = id) /\
     (rg_id t = None \/ rg_id t = Some "" -> DataTarget.id (safeTarget u t) = u) /\
     (forall name, rg_name t = Some name -> name <> "" ->
        DataTarget.name (safeTarget u t) = name) /\
     (rg_name t = None \/ rg_name t = Some "" ->
        DataTarget.name (safeTarget u t) = "Unknown Target") /\
     (u <> "" -> DataTarget.id (safeTarget u t) <> "") /\
     DataTarget.name (safeTarget u t) <> "" /\
     DataTarget.position (safeTarget u t) = None) /\
  (forall u c,
     safeConnection u c = Connection.mk u (rc_sourceId c) (rc_targetId c)).
Proof.
  cbv zeta. unfold sanitizeLayout. simpl.
  do 4 (split; [intros i; apply nth_error_mapIndex|]).
  do 4 (split; [apply length_mapIndex|]).
  split; [|split; [|split]]; intros u x; try reflexivity; simpl;
    repeat split;
    try (intros v Hv Hne; rewrite Hv; now apply orDefault_present);
    try (now apply orDefault_absent);
    try (intros Hu; now apply orDefault_nonempty);
    apply orDefault_nonempty; discriminate.
Qed.

Lemma sanitizeLayout_spec_witness :
  DataTarget.id (safeTarget "generated" (mkRawTarget (Some "g1") None None None))
    = "g1" /\
  TransformationNode.id
    (safeTransform "generated" (mkRawTransform (Some "") (Some "Join") None None))
    = "generated".
Proof.
  destruct (sanitizeLayout_spec (fun _ _ => "generated")
              (mkRawLayout None None None None))
    as (_ & _ & _ & _ & _ & _ & _ & _ & _ & Ht & Hg & _).
  split.
  - apply (Hg "generated" (mkRawTarget (Some "g1") None None None) : _ /\ _);
      [reflexivity | discriminate].
  - apply (Ht "generated"
             (mkRawTransform (Some "") (Some "Join") None None) : _ /\ _).
    right. reflexivity.
Defined.

End Sanitize.

(* ================================================================== *)
(** * The automatic pipeline *)

Section AutoPipeline.
Import DeRequestState.
Local Open Scope Q_scope.

(** X10.  [handleAutoPipeline] asks the service for a layout only when the
    technical requirements are non-empty after trimming (some code unit is
    not white space) and at least ten UTF-16 code units long.  Otherwise it
    sends nothing, leaves the form state, the view and the busy flag as
    they were, and appends one message to the errors already shown.  When
    both hold it makes exactly one call, with the requirements and the tool
    list. *)
Theorem handleAutoPipeline_guard
    (generatePipelineLayout :
       JS.text -> list string -> GeminiService.Layout.t + string)
    (st : App.PipelineState) :
  let fs := App.p_formState st in
  let st' := fst (App.handleAutoPipeline generatePipelineLayout st) in
  let calls := snd (App.handleAutoPipeline generatePipelineLayout st) in
  let blank := forallb JS.isWhiteSpace (techRequirements fs) = true in
  (calls <> [] ->
     ~ blank /\ (10 <= List.length (techRequirements fs))%nat) /\
  (blank \/ (List.length (techRequirements fs) < 10)%nat ->
     calls = [] /\
     App.p_formState st' = fs /\
     App.p_viewMode st' = App.p_viewMode st /\
     App.p_isAutoGenerating st' = App.p_isAutoGenerating st /\
     exists message, App.p_errors st' = (App.p_errors st ++ [message])%list) /\
  (~ blank -> (10 <= List.length (techRequirements fs))%nat ->
     calls = [(techRequirements fs, existingTools fs)] /\
     App.p_isAutoGenerating st' = false).
Proof.
  intros fs st' calls blank. subst st' calls blank.
  rewrite <- trim_empty_iff.
  unfold App.handleAutoPipeline. fold fs.
  destruct (JS.trim (techRequirements fs)) as [|c r] eqn:Et; simpl.
  - split; [intros H; now contradiction H|]. split; [|intros H; congruence].
    intros _. repeat split. eexists. reflexivity.
  - destruct (Nat.ltb_spec (List.length (techRequirements fs)) 10) as [Hl | Hl].
    + split; [intros H; now contradiction H|]. split; [|intros _ H; lia].
      intros _. repeat split. eexists. reflexivity.
    + destruct (generatePipelineLayout _ _); simpl.
      * split; [intros _; split; [discriminate | exact Hl]|].
        split; [intros [H | H]; [discriminate | lia]|]. now intros _ _.
      * split; [intros _; split; [discriminate | exact Hl]|].
        split; [intros [H | H]; [discriminate | lia]|]. now intros _ _.
Qed.

Lemma handleAutoPipeline_guard_witness :
  let nineUnits := (JS.units "sync db " ++ [8364%N])%list in
  let st := App.mkPipelineState
              (App.handleInputChange (App.TechRequirements nineUnits)
                 App.initialState)
              ["earlier"%string] false App.FormView in
  snd (App.handleAutoPipeline (fun _ _ => inr "offline"%string) st) = [] /\
  List.length (App.p_errors
                 (fst (App.handleAutoPipeline (fun _ _ => inr "offline"%string) st)))
    = 2%nat.
Proof.
  cbv zeta.
  destruct (handleAutoPipeline_guard (fun _ _ => inr "offline"%string)
              (App.mkPipelineState
                 (App.handleInputChange
                    (App.TechRequirements (JS.units "sync db " ++ [8364%N])%list)
                    App.initialState)
                 ["earlier"%string] false App.FormView))
    as (_ & Hfail & _).
  destruct Hfail as (Hc & _ & _ & _ & msg & Hm); [right; simpl; lia|].
  split; [exact Hc|]. rewrite Hm. reflexivity.
Defined.

Lemma calculateY_in_band (maxCount index total : Q) :
  0 <= index -> index <= total - 1 -> total <= maxCount ->
  50 <= App.calculateY maxCount index total /\
  App.calculateY maxCount index total <= 50 + (maxCount - 1) * 180.
Proof.
  unfold App.calculateY. cbv zeta. intros H0 H1 H2.
  setoid_replace (50 + ((maxCount - 1) * 180 - (total - 1) * 180) / 2 + index * 180)
    with (50 + (maxCount - total) * 90 + index * 180) by field.
  split; lra.
Qed.

(** X11.  [calculateY] spaces the nodes of a group 180 apart and centres
    every group on the same horizontal line, the middle of the largest
    group; a node of a group no larger than the largest lies between 50 and
    50 + (maxCount - 1) * 180. *)
Theorem calculateY_centres (maxCount index total : Q) :
  App.calculateY maxCount (index + 1) total - App.calculateY maxCount index total
    == 180 /\
  App.calculateY maxCount 0 total + App.calculateY maxCount (total - 1) total
    == 2 * (50 + (maxCount - 1) * 180 / 2) /\
  (0 <= index -> index <= total - 1 -> total <= maxCount ->
     50 <= App.calculateY maxCount index total /\
     App.calculateY maxCount index total <= 50 + (maxCount - 1) * 180).
Proof.
  split; [|split; [|apply calculateY_in_band]];
    unfold App.calculateY; cbv zeta; field.
Qed.

Lemma calculateY_centres_witness :
  50 <= App.calculateY 3 0 2 /\ App.calculateY 3 1 2 <= 50 + (3 - 1) * 180.
Proof.
  destruct (calculateY_centres 3 0 2) as (_ & _ & H0).
  destruct (calculateY_centres 3 1 2) as (_ & _ & H1).
  split.
  - apply H0; vm_compute; discriminate.
  - apply H1; vm_compute; discriminate.
Defined.








End AutoPipeline.

(* ================================================================== *)
(** * A whole drag: press on the body, then move *)

Section DragGesture.
Import Dom.
Local Open Scope Q_scope.

Lemma positionOf_known (fs : DeRequestState.t) (id : string)
    (p : NodePosition.t) :
  Spec.positionOf fs id = Some p -> Spec.known fs id.
Proof.
  unfold Spec.positionOf, Spec.known.
  destruct (VisualBuilder.findNode fs id); [discriminate | discriminate].
Qed.

Lemma positionOfBasic_known (fs : DeRequestState.t) (id : string)
    (p : NodePosition.t) :
  Spec.positionOfBasic fs id = Some p -> Spec.knownBasic fs id.
Proof.
  unfold Spec.positionOfBasic, Spec.knownBasic.
  destruct (find _ (DeRequestState.dataSources fs)); [left; discriminate|].
  destruct (find _ (DeRequestState.dataTargets fs)); [right; discriminate|].
  discriminate.
Qed.

(** X13.  In the revision with a viewport, when no pan and no wire is in
    progress: a press with the primary button on the body of a node (of
    non-empty id, stored at the position it is rendered at), followed by a
    pointer move over the mounted canvas, stores the node's old position
    displaced by the pointer's displacement divided by the (non-zero) zoom,
    on each axis where that is not below -500, in exact arithmetic: the
    point of the node that was grabbed stays under the pointer.  The stored
    coordinates are never below -500. *)
Theorem drag_follows_pointer (rect : DOMRect) (press move : MouseEvent)
    (w : VisualBuilder.World) (id : string) (pos : NodePosition.t) :
  VisualBuilder.isPanning (VisualBuilder.ui w) = false ->
  JS.truthy (VisualBuilder.connectingSourceId (VisualBuilder.ui w)) = false ->
  button press = 0%nat ->
  id <> ""%string ->
  Spec.positionOf (VisualBuilder.formState w) id = Some pos ->
  ~ Viewport.zoom (VisualBuilder.viewport (VisualBuilder.ui w)) == 0 ->
  let zoom := Viewport.zoom (VisualBuilder.viewport (VisualBuilder.ui w)) in
  let w1 := VisualBuilder.step (Some rect)
              (VisualBuilder.MouseDown (OnNode Body id (Some pos)) press) w in
  let w2 := VisualBuilder.step (Some rect) (VisualBuilder.MouseMove move) w1 in
  let newX := NodePosition.x pos + (clientX move - clientX press) / zoom in
  let newY := NodePosition.y pos + (clientY move - clientY press) / zoom in
  exists p,
    Spec.positionOf (VisualBuilder.formState w2) id = Some p /\
    (-500 <= newX -> NodePosition.x p == newX) /\
    (-500 <= newY -> NodePosition.y p == newY) /\
    -500 <= NodePosition.x p /\ -500 <= NodePosition.y p.
Proof.
  intros Hpan Hwire Hbtn Hid Hpos Hz zoom w1 w2 newX newY.
  assert (Hknown := positionOf_known _ _ _ Hpos).
  assert (E1 : w1 = VisualBuilder.setDragOffset
                      (NodePosition.mk
                         (NodePosition.x
                            (VisualBuilder.screenToWorld (Some rect)
                               (VisualBuilder.viewport (VisualBuilder.ui w))
                               (clientX press) (clientY press))
                          - NodePosition.x pos)
                         (NodePosition.y
                            (VisualBuilder.screenToWorld (Some rect)
                               (VisualBuilder.viewport (VisualBuilder.ui w))
                               (clientX press) (clientY press))
                          - NodePosition.y pos))
                      (VisualBuilder.setHasMoved false
                         (VisualBuilder.setDraggingId (Some id) w))).
  { subst w1. simpl. unfold VisualBuilder.startNodeDrag.
    rewrite Hwire, Hbtn. reflexivity. }
  destruct (drag_move_viewport rect move w1 id) as (p & Hp & Hx & Hy & _);
    try (rewrite E1; simpl; assumption); try assumption.
  { rewrite E1. reflexivity. }
  exists p. split; [exact Hp|].
  rewrite Hx, Hy, E1. simpl. fold zoom.
  assert (Ex : (clientX move - left rect
                - Viewport.x (VisualBuilder.viewport (VisualBuilder.ui w))) / zoom
               - ((clientX press - left rect
                   - Viewport.x (VisualBuilder.viewport (VisualBuilder.ui w))) / zoom
                  - NodePosition.x pos) == newX)
    by (unfold newX; field; exact Hz).
  assert (Ey : (clientY move - top rect
                - Viewport.y (VisualBuilder.viewport (VisualBuilder.ui w))) / zoom
               - ((clientY press - top rect
                   - Viewport.y (VisualBuilder.viewport (VisualBuilder.ui w))) / zoom
                  - NodePosition.y pos) == newY)
    by (unfold newY; field; exact Hz).
  unfold JS.Math_max. repeat split.
  - intros H. rewrite Q.max_r; [exact Ex | now rewrite Ex].
  - intros H. rewrite Q.max_r; [exact Ey | now rewrite Ey].
  - apply Q.le_max_l.
  - apply Q.le_max_l.
Qed.

Lemma drag_follows_pointer_witness :
  let rect := mkRect 0 0 800 600 in
  let w := VisualBuilder.setViewport (Viewport.mk 10 20 2)
             VisualBuilder.initialWorld in
  let w2 :=
    VisualBuilder.run
      [(Some rect, VisualBuilder.MouseDown
                     (OnNode Body "1" (Some (NodePosition.mk 50 50)))
                     (mkMouse 130 140 0));
       (Some rect, VisualBuilder.MouseMove (mkMouse 270 200 0))] w in
  exists p,
    Spec.positionOf (VisualBuilder.formState w2) "1" = Some p /\
    NodePosition.x p == 120 /\ NodePosition.y p == 80.
Proof.
  cbv zeta.
  destruct (drag_follows_pointer (mkRect 0 0 800 600) (mkMouse 130 140 0)
              (mkMouse 270 200 0)
              (VisualBuilder.setViewport (Viewport.mk 10 20 2)
                 VisualBuilder.initialWorld)
              "1"%string (NodePosition.mk 50 50))
    as (p & Hp & Hx & Hy & _);
    [reflexivity | reflexivity | reflexivity | discriminate
    | reflexivity
    | simpl; intros H; vm_compute in H; discriminate H |].
  exists p. split; [exact Hp|]. split.
  - rewrite Hx; [vm_compute; reflexivity | vm_compute; discriminate].
  - rewrite Hy; [vm_compute; reflexivity | vm_compute; discriminate].
Defined.

(** X14.  In the screen-pixel revision, when no wire is in progress: a
    press on the body of a node (of non-empty id, stored at the position it
    is rendered at) followed by a pointer move over the mounted canvas
    stores the old position displaced by the pointer's displacement, on
    each axis where that lies within the canvas (between 0 and the canvas
    size less the node size), in exact arithmetic. *)
Theorem drag_follows_pointer_pixels (rect : DOMRect) (press move : MouseEvent)
    (w : VisualBuilderBasic.World) (id : string) (pos : NodePosition.t) :
  JS.truthy (VisualBuilderBasic.connectingSourceId (VisualBuilderBasic.ui w))
    = false ->
  id <> ""%string ->
  Spec.positionOfBasic (VisualBuilderBasic.formState w) id = Some pos ->
  let w1 := VisualBuilderBasic.step (Some rect)
              (VisualBuilderBasic.MouseDown (OnNode Body id (Some pos)) press) w in
  let w2 := VisualBuilderBasic.step (Some rect)
              (VisualBuilderBasic.MouseMove move) w1 in
  let newX := NodePosition.x pos + (clientX move - clientX press) in
  let newY := NodePosition.y pos + (clientY move - clientY press) in
  exists p,
    Spec.positionOfBasic (VisualBuilderBasic.formState w2) id = Some p /\
    (0 <= newX -> newX <= width rect - 200 -> NodePosition.x p == newX) /\
    (0 <= newY -> newY <= height rect - 80 -> NodePosition.y p == newY).
Proof.
  intros Hwire Hid Hpos w1 w2 newX newY.
  assert (Hknown := positionOfBasic_known _ _ _ Hpos).
  assert (E1 : w1 = VisualBuilderBasic.setDragOffset
                      (NodePosition.mk (clientX press - NodePosition.x pos)
                                       (clientY press - NodePosition.y pos))
                      (VisualBuilderBasic.setHasMoved false
                         (VisualBuilderBasic.setDraggingId (Some id) w))).
  { subst w1. simpl. unfold VisualBuilderBasic.startNodeDrag.
    rewrite Hwire. reflexivity. }
  destruct (drag_move_pixels rect move w1 id) as (p & Hp & Hx & Hy & _);
    try (rewrite E1; simpl; assumption); try assumption.
  { rewrite E1. reflexivity. }
  exists p. split; [exact Hp|].
  rewrite Hx, Hy, E1. simpl.
  assert (Ex : clientX move - (clientX press - NodePosition.x pos) == newX)
    by (unfold newX; ring).
  assert (Ey : clientY move - (clientY press - NodePosition.y pos) == newY)
    by (unfold newY; ring).
  unfold JS.Math_max, JS.Math_min. split.
  - intros H0 H1. rewrite Q.min_l by now rewrite Ex.
    rewrite Q.max_r by now rewrite Ex. exact Ex.
  - intros H0 H1. rewrite Q.min_l by now rewrite Ey.
    rewrite Q.max_r by now rewrite Ey. exact Ey.
Qed.

Lemma drag_follows_pointer_pixels_witness :
  let rect := mkRect 0 0 800 600 in
  let w := VisualBuilderBasic.mkWorld App.initialState
             (VisualBuilderBasic.mkState false None (NodePosition.mk 0 0)
                false None None) in
  let w2 :=
    VisualBuilderBasic.run
      [(Some rect, VisualBuilderBasic.MouseDown
                     (OnNode Body "1" (Some (NodePosition.mk 50 50)))
                     (mkMouse 60 70 0));
       (Some rect, VisualBuilderBasic.MouseMove (mkMouse 130 100 0))] w in
  exists p,
    Spec.positionOfBasic (VisualBuilderBasic.formState w2) "1" = Some p /\
    NodePosition.x p == 120 /\ NodePosition.y p == 80.
Proof.
  cbv zeta.
  destruct (drag_follows_pointer_pixels (mkRect 0 0 800 600) (mkMouse 60 70 0)
              (mkMouse 130 100 0)
              (VisualBuilderBasic.mkWorld App.initialState
                 (VisualBuilderBasic.mkState false None (NodePosition.mk 0 0)
                    false None None))
              "1"%string (NodePosition.mk 50 50))
    as (p & Hp & Hx & Hy);
    [reflexivity | discriminate | reflexivity |].
  exists p. split; [exact Hp|]. split.
  - rewrite Hx; [vm_compute; reflexivity | vm_compute; discriminate
                | vm_compute; discriminate].
  - rewrite Hy; [vm_compute; reflexivity | vm_compute; discriminate
                | vm_compute; discriminate].
Defined.

End DragGesture.

(* ================================================================== *)
(** * A wire that is committed, and the click after a gesture *)

Section WireCommit.
Import Dom DeRequestState.

(** X15.  In both revisions of the canvas: a wire started by a press on the
    output handle of node [a] (of non-empty id), followed by any pointer
    moves, and released on the input handle of another node [b] adds
    exactly one connection from [a] to [b], with the id drawn for it, at the
    end of the list when no connection from [a] to [b] existed, and leaves
    the list as it was when one did; either way the wiring state is idle
    afterwards. *)
Theorem wire_release_on_input_commits
    (a b uuid : string) (posa posb : option NodePosition.t)
    (press : MouseEvent) (moves : list (option DOMRect * MouseEvent))
    (c0 c1 : option DOMRect) :
  a <> ""%string -> a <> b ->
  (forall w0 : VisualBuilderBasic.World,
     let w1 := VisualBuilderBasic.step c0
                 (VisualBuilderBasic.MouseDown (OnNode OutputHandle a posa) press)
                 w0 in
     let w2 := VisualBuilderBasic.run
                 (Spec.movesOf VisualBuilderBasic.MouseMove moves) w1 in
     let w3 := VisualBuilderBasic.step c1
                 (VisualBuilderBasic.MouseUp (OnNode InputHandle b posb) uuid)
                 w2 in
     (Spec.linked a b (connections (VisualBuilderBasic.formState w0)) ->
        connections (VisualBuilderBasic.formState w3)
          = connections (VisualBuilderBasic.formState w0)) /\
     (~ Spec.linked a b (connections (VisualBuilderBasic.formState w0)) ->
        connections (VisualBuilderBasic.formState w3)
          = (connections (VisualBuilderBasic.formState w0)
               ++ [Connection.mk uuid a b])%list) /\
     VisualBuilderBasic.connectingSourceId (VisualBuilderBasic.ui w3) = None /\
     VisualBuilderBasic.mousePos (VisualBuilderBasic.ui w3) = None) /\
  (forall w0 : VisualBuilder.World,
     let w1 := VisualBuilder.step c0
                 (VisualBuilder.MouseDown (OnNode OutputHandle a posa) press) w0 in
     let w2 := VisualBuilder.run
                 (Spec.movesOf VisualBuilder.MouseMove moves) w1 in
     let w3 := VisualBuilder.step c1
                 (VisualBuilder.MouseUp (OnNode InputHandle b posb) uuid) w2 in
     (Spec.linked a b (connections (VisualBuilder.formState w0)) ->
        connections (VisualBuilder.formState w3)
          = connections (VisualBuilder.formState w0)) /\
     (~ Spec.linked a b (connections (VisualBuilder.formState w0)) ->
        connections (VisualBuilder.formState w3)
          = (connections (VisualBuilder.formState w0)
               ++ [Connection.mk uuid a b])%list) /\
     VisualBuilder.connectingSourceId (VisualBuilder.ui w3) = None /\
     VisualBuilder.mousePos (VisualBuilder.ui w3) = None).
Proof.
  intros Ha Hab.
  assert (Hneq : negb (a =? b) = true)
    by (apply negb_true_iff, String.eqb_neq; exact Hab).
  split.
  - intros w0 w1 w2 w3.
    destruct (startWiring_basic_source c0 press a w0) as [Hc1 Hs1].
    destruct (moves_keep_wire_basic moves w1) as [Hc2 Hs2].
    fold w2 in Hc2, Hs2.
    assert (Hc : connections (VisualBuilderBasic.formState w2)
                 = connections (VisualBuilderBasic.formState w0))
      by (rewrite Hc2; exact Hc1).
    assert (Hs : VisualBuilderBasic.connectingSourceId (VisualBuilderBasic.ui w2)
                 = Some a) by (rewrite Hs2; exact Hs1).
    subst w3.
    change (VisualBuilderBasic.step c1
              (VisualBuilderBasic.MouseUp (OnNode InputHandle b posb) uuid) w2)
      with (VisualBuilderBasic.endWiring uuid b w2).
    unfold VisualBuilderBasic.endWiring.
    rewrite Hs. cbv beta iota. rewrite (truthy_nonempty a Ha), Hneq. simpl.
    repeat split.
    + intros Hl. rewrite addConnection_rejects; [exact Hc|].
      right. now rewrite Hc.
    + intros Hn. rewrite addConnection_appends; [simpl; now rewrite Hc | exact Hab|].
      now rewrite Hc.
  - intros w0 w1 w2 w3.
    destruct (moves_keep_wire moves w1) as [Hc2 Hs2].
    fold w2 in Hc2, Hs2.
    assert (Hc : connections (VisualBuilder.formState w2)
                 = connections (VisualBuilder.formState w0))
      by (rewrite Hc2; reflexivity).
    assert (Hs : VisualBuilder.connectingSourceId (VisualBuilder.ui w2) = Some a)
      by (rewrite Hs2; reflexivity).
    subst w3.
    change (VisualBuilder.step c1
              (VisualBuilder.MouseUp (OnNode InputHandle b posb) uuid) w2)
      with (VisualBuilder.endWiring uuid b w2).
    unfold VisualBuilder.endWiring.
    rewrite Hs. cbv beta iota. rewrite (truthy_nonempty a Ha), Hneq. simpl.
    repeat split.
    + intros Hl. rewrite addConnection_rejects; [exact Hc|].
      right. now rewrite Hc.
    + intros Hn. rewrite addConnection_appends; [simpl; now rewrite Hc | exact Hab|].
      now rewrite Hc.
Qed.

Lemma wire_release_on_input_commits_witness :
  let rect := Some (mkRect 0 0 800 600) in
  let w3 :=
    VisualBuilder.run
      [(rect, VisualBuilder.MouseDown
                (OnNode OutputHandle "1" (Some (NodePosition.mk 50 50)))
                (mkMouse 250 100 0));
       (rect, VisualBuilder.MouseMove (mkMouse 400 100 0));
       (rect, VisualBuilder.MouseUp
                (OnNode InputHandle "10" (Some (NodePosition.mk 650 50))) "u1")]
      VisualBuilder.initialWorld in
  connections (VisualBuilder.formState w3)
  = (connections App.initialState ++ [Connection.mk "u1" "1" "10"])%list.
Proof.
  cbv zeta.
  destruct (wire_release_on_input_commits "1" "10" "u1"
              (Some (NodePosition.mk 50 50)) (Some (NodePosition.mk 650 50))
              (mkMouse 250 100 0)
              [(Some (mkRect 0 0 800 600), mkMouse 400 100 0)]
              (Some (mkRect 0 0 800 600)) (Some (mkRect 0 0 800 600)))
    as [_ Hfull]; [discriminate | discriminate |].
  apply (Hfull VisualBuilder.initialWorld).
  intros H. apply existsb_samePair in H. discriminate H.
Defined.

(** X16.  Click or drag, in the revision with a viewport, when no pan and
    no wire is in progress at the press and the pressed node's id is not
    empty.  After a press with the primary button on a node's body, a
    pointer move over the mounted canvas and a release, the click that
    follows does not open the editor and consumes the moved flag, so the
    next click opens it; after a press and a release without a move the
    click opens the editor at once. *)
Theorem click_after_drag_is_swallowed (rect : DOMRect) (c0 c1 : option DOMRect)
    (press move : MouseEvent) (on : Target) (uuid id : string)
    (pos : option NodePosition.t) (node : VisualBuilder.NodeRef)
    (w : VisualBuilder.World) :
  VisualBuilder.isPanning (VisualBuilder.ui w) = false ->
  JS.truthy (VisualBuilder.connectingSourceId (VisualBuilder.ui w)) = false ->
  button press = 0%nat ->
  id <> ""%string ->
  let pressed := VisualBuilder.step c0
                   (VisualBuilder.MouseDown (OnNode Body id pos) press) w in
  let dragged :=
    VisualBuilder.step c1 (VisualBuilder.MouseUp on uuid)
      (VisualBuilder.step (Some rect) (VisualBuilder.MouseMove move) pressed) in
  let clicked := VisualBuilder.step c1 (VisualBuilder.MouseUp on uuid) pressed in
  snd (VisualBuilder.openEdit node dragged) = None /\
  VisualBuilder.openEdit node (fst (VisualBuilder.openEdit node dragged))
    = (fst (VisualBuilder.openEdit node dragged), Some node) /\
  VisualBuilder.openEdit node clicked = (clicked, Some node).
Proof.
  intros Hpan Hwire Hbtn Hid pressed dragged clicked.
  assert (Hui : VisualBuilder.isPanning (VisualBuilder.ui pressed) = false /\
                JS.truthy (VisualBuilder.connectingSourceId
                             (VisualBuilder.ui pressed)) = false /\
                VisualBuilder.draggingId (VisualBuilder.ui pressed) = Some id /\
                VisualBuilder.hasMovedRef (VisualBuilder.ui pressed) = false).
  { subst pressed. simpl. unfold VisualBuilder.startNodeDrag.
    rewrite Hwire, Hbtn. simpl. destruct pos; simpl; auto. }
  destruct Hui as (Hp1 & Hw1 & Hd1 & Hm1).
  assert (Hmoved :
    let m := VisualBuilder.step (Some rect) (VisualBuilder.MouseMove move)
               pressed in
    VisualBuilder.isPanning (VisualBuilder.ui m) = false /\
    JS.truthy (VisualBuilder.connectingSourceId (VisualBuilder.ui m)) = false /\
    VisualBuilder.hasMovedRef (VisualBuilder.ui m) = true).
  { cbv zeta.
    change (VisualBuilder.step (Some rect) (VisualBuilder.MouseMove move) pressed)
      with (VisualBuilder.onMouseMove (Some rect) move pressed).
    unfold VisualBuilder.onMouseMove. rewrite Hp1, Hw1, Hd1. cbv beta iota.
    rewrite (truthy_nonempty id Hid), viewport_dragTo. simpl. auto. }
  cbv zeta in Hmoved. destruct Hmoved as (Hp2 & Hw2 & Hm2).
  assert (Hup : forall m : VisualBuilder.World,
    VisualBuilder.isPanning (VisualBuilder.ui m) = false ->
    JS.truthy (VisualBuilder.connectingSourceId (VisualBuilder.ui m)) = false ->
    let r := VisualBuilder.step c1 (VisualBuilder.MouseUp on uuid) m in
    VisualBuilder.isPanning (VisualBuilder.ui r) = false /\
    VisualBuilder.connectingSourceId (VisualBuilder.ui r) = None /\
    VisualBuilder.hasMovedRef (VisualBuilder.ui r)
      = VisualBuilder.hasMovedRef (VisualBuilder.ui m)).
  { intros m Hpm Hwm. cbv zeta.
    destruct on as [|[| |] tid tpos]; try (simpl; auto; fail).
    change (VisualBuilder.step c1
              (VisualBuilder.MouseUp (OnNode InputHandle tid tpos) uuid) m)
      with (VisualBuilder.endWiring uuid tid m).
    unfold VisualBuilder.endWiring.
    destruct (VisualBuilder.connectingSourceId (VisualBuilder.ui m)) as [s|];
      [rewrite Hwm|]; simpl; auto. }
  destruct (Hup _ Hp2 Hw2) as (Hp3 & Hw3 & Hm3). fold dragged in Hp3, Hw3, Hm3.
  destruct (Hup _ Hp1 Hw1) as (Hp4 & Hw4 & Hm4). fold clicked in Hp4, Hw4, Hm4.
  rewrite Hm2 in Hm3. rewrite Hm1 in Hm4.
  unfold VisualBuilder.openEdit.
  rewrite Hm3, Hm4, Hp4, Hw4. simpl.
  rewrite Hp3, Hw3. simpl. auto.
Qed.

Lemma click_after_drag_is_swallowed_witness :
  let rect := mkRect 0 0 800 600 in
  let node := VisualBuilder.TargetRef
                (DataTarget.mk "10" "Redshift" "Columnar" "Day"
                   (Some (NodePosition.mk 650 50))) in
  let dragged :=
    VisualBuilder.run
      [(Some rect, VisualBuilder.MouseDown
                     (OnNode Body "10" (Some (NodePosition.mk 650 50)))
                     (mkMouse 700 80 0));
       (Some rect, VisualBuilder.MouseMove (mkMouse 710 90 0));
       (Some rect, VisualBuilder.MouseUp Canvas "u1")]
      VisualBuilder.initialWorld in
  snd (VisualBuilder.openEdit node dragged) = None.
Proof.
  cbv zeta.
  apply (click_after_drag_is_swallowed (mkRect 0 0 800 600)
           (Some (mkRect 0 0 800 600)) (Some (mkRect 0 0 800 600))
           (mkMouse 700 80 0) (mkMouse 710 90 0) Canvas "u1" "10"
           (Some (NodePosition.mk 650 50))
           (VisualBuilder.TargetRef
              (DataTarget.mk "10" "Redshift" "Columnar" "Day"
                 (Some (NodePosition.mk 650 50))))
           VisualBuilder.initialWorld);
    [reflexivity | reflexivity | reflexivity | discriminate].
Defined.

End WireCommit.

(* ================================================================== *)
(** * Screen and world coordinates *)

Section Coordinates.
Import Dom VisualBuilder.
Local Open Scope Q_scope.

(** X17.  [screenToWorld] and the transform the world container is drawn
    with are inverse to each other for every non-zero zoom: a world point
    is drawn at the client position that [screenToWorld] maps back to it,
    and the world point under a client position is drawn at that
    position. *)
Theorem screenToWorld_inverts_worldTransform (rect : DOMRect) (v : Viewport.t)
    (p : NodePosition.t) (screenX screenY : Q) :
  ~ Viewport.zoom v == 0 ->
  NodePosition.equiv
    (screenToWorld (Some rect) v
       (left rect + NodePosition.x (worldTransform v p))
       (top rect + NodePosition.y (worldTransform v p)))
    p /\
  left rect
    + NodePosition.x (worldTransform v (screenToWorld (Some rect) v screenX screenY))
    == screenX /\
  top rect
    + NodePosition.y (worldTransform v (screenToWorld (Some rect) v screenX screenY))
    == screenY.
Proof.
  intros Hz. unfold NodePosition.equiv, screenToWorld, worldTransform. simpl.
  repeat split; field; exact Hz.
Qed.

Lemma screenToWorld_inverts_worldTransform_witness :
  NodePosition.equiv
    (screenToWorld (Some (mkRect 10 20 800 600)) (Viewport.mk 30 40 2)
       (10 + NodePosition.x (worldTransform (Viewport.mk 30 40 2)
                               (NodePosition.mk 50 60)))
       (20 + NodePosition.y (worldTransform (Viewport.mk 30 40 2)
                               (NodePosition.mk 50 60))))
    (NodePosition.mk 50 60).
Proof.
  apply (screenToWorld_inverts_worldTransform (mkRect 10 20 800 600)
           (Viewport.mk 30 40 2) (NodePosition.mk 50 60) 0 0).
  simpl. intros H. discriminate H.
Defined.



(** X19.  The zoom buttons zoom about the centre of the canvas: for a
    positive zoom, the world point drawn at the canvas centre is, in exact
    arithmetic, the same before and after [handleZoomIn] and before and
    after [handleZoomOut]. *)
Theorem zoom_buttons_fix_centre (rect : DOMRect) (w : World) :
  0 < Viewport.zoom (viewport (ui w)) ->
  let centreX := left rect + width rect / 2 in
  let centreY := top rect + height rect / 2 in
  NodePosition.equiv
    (screenToWorld (Some rect) (viewport (ui (handleZoomIn (Some rect) w)))
       centreX centreY)
    (screenToWorld (Some rect) (viewport (ui w)) centreX centreY) /\
  NodePosition.equiv
    (screenToWorld (Some rect) (viewport (ui (handleZoomOut (Some rect) w)))
       centreX centreY)
    (screenToWorld (Some rect) (viewport (ui w)) centreX centreY).
Proof.
  intros Hz centreX centreY. subst centreX centreY.
  unfold handleZoomIn, handleZoomOut, screenToWorld, NodePosition.equiv. simpl.
  set (z := Viewport.zoom (viewport (ui w))) in *.
  set (zin := JS.Math_min 5 (z * 1.2)).
  set (zout := JS.Math_max 0.1 (z / 1.2)).
  assert (Hin : 0 < zin).
  { unfold zin, JS.Math_min. apply Q.min_glb_lt; lra. }
  assert (Hout : 0.1 <= zout) by apply Q.le_max_l.
  assert (Hz0 : ~ z == 0) by lra.
  assert (Hin0 : ~ zin == 0) by lra.
  assert (Hout0 : ~ zout == 0) by lra.
  repeat split; field; split; assumption.
Qed.

Lemma zoom_buttons_fix_centre_witness :
  NodePosition.equiv
    (screenToWorld (Some (mkRect 0 0 800 600))
       (viewport (ui (handleZoomIn (Some (mkRect 0 0 800 600)) initialWorld)))
       (0 + 800 / 2) (0 + 600 / 2))
    (NodePosition.mk 400 300).
Proof.
  destruct (zoom_buttons_fix_centre (mkRect 0 0 800 600) initialWorld)
    as [[Hx Hy] _]; [vm_compute; reflexivity|].
  cbv zeta in Hx, Hy.
  split; [rewrite Hx | rewrite Hy]; vm_compute; reflexivity.
Defined.

(** X20.  A drop from the palette on the mounted canvas adds exactly one
    node, of the kind that was dragged (anything that is neither "source"
    nor "transformation" counts as a target).  Its position is the world
    point under the pointer moved left by 100 and up by 40, each coordinate
    replaced by 0 when it would be negative: x is the world x less 100 when
    the world x is at least 100 and 0 when it is at most 100, y is the world
    y less 40 when the world y is at least 40 and 0 when it is at most 40
    (exact arithmetic).  The gesture state is untouched.  A drop without a
    kind, or on an unmounted canvas, does nothing. *)
Theorem handleDrop_spec (canvasRef : option DOMRect) (uuid : string)
    (e : DragEvent) (w : World) :
  (canvasRef = None \/ dndType e = ""%string ->
     handleDrop canvasRef uuid e w = w) /\
  (forall rect, canvasRef = Some rect -> dndType e <> ""%string ->
     let kind :=
       if String.eqb (dndType e) "source" then App.Source
       else if String.eqb (dndType e) "transformation" then App.Transformation
       else App.Target in
     let worldPos := screenToWorld canvasRef (viewport (ui w)) (dropX e) (dropY e) in
     exists p,
       handleDrop canvasRef uuid e w
         = mkWorld (App.addNode kind uuid (Some p) (formState w)) (ui w) /\
       0 <= NodePosition.x p /\ 0 <= NodePosition.y p /\
       (100 <= NodePosition.x worldPos ->
          NodePosition.x p + 100 == NodePosition.x worldPos) /\
       (40 <= NodePosition.y worldPos ->
          NodePosition.y p + 40 == NodePosition.y worldPos) /\
       (NodePosition.x worldPos <= 100 -> NodePosition.x p == 0) /\
       (NodePosition.y worldPos <= 40 -> NodePosition.y p == 0)).
Proof.
  split.
  - intros [-> | Ht]; [reflexivity|]. unfold handleDrop. rewrite Ht.
    now destruct canvasRef.
  - intros rect -> Ht kind worldPos.
    exists (NodePosition.mk (JS.Math_max 0 (NodePosition.x worldPos - 100))
                            (JS.Math_max 0 (NodePosition.y worldPos - 40))).
    split; [|simpl; unfold JS.Math_max; repeat split].
    + unfold handleDrop. fold worldPos.
      destruct (dndType e) as [|c s] eqn:Et; [congruence|]. simpl JS.nonEmpty.
      cbv beta iota. subst kind.
      destruct (String.eqb (String c s) "source"); [reflexivity|].
      destruct (String.eqb (String c s) "transformation"); reflexivity.
    + apply Q.le_max_l.
    + apply Q.le_max_l.
    + intros H. rewrite Q.max_r by lra. ring.
    + intros H. rewrite Q.max_r by lra. ring.
    + intros H. apply Q.max_l. lra.
    + intros H. apply Q.max_l. lra.
Qed.

Lemma handleDrop_spec_witness :
  let rect := mkRect 0 0 800 600 in
  let w' := handleDrop (Some rect) "n1" (mkDrag 300 240 "transformation")
              initialWorld in
  exists p,
    w' = mkWorld (App.addNode App.Transformation "n1" (Some p) App.initialState)
                 initialUi /\
    NodePosition.x p + 100 == 300 /\ NodePosition.y p + 40 == 240.
Proof.
  cbv zeta.
  destruct (handleDrop_spec (Some (mkRect 0 0 800 600)) "n1"
              (mkDrag 300 240 "transformation") initialWorld)
    as [_ H].
  destruct (H (mkRect 0 0 800 600) eq_refl)
    as (p & Hp & _ & _ & Hx & Hy & _ & _); [discriminate|].
  exists p. split; [exact Hp|]. split.
  - rewrite Hx; [vm_compute; reflexivity | vm_compute; discriminate].
  - rewrite Hy; [vm_compute; reflexivity | vm_compute; discriminate].
Defined.

End Coordinates.

(* ================================================================== *)
(** * The default slots *)

Section DefaultSlots.

Variable A : Type.
Variable key : A -> string.
Variable pos : A -> option NodePosition.t.
Variable place : nat -> A -> A.
Hypothesis key_place : forall i n, key (place i n) = key n.
Hypothesis pos_place : forall i n, pos (place i n) <> None.

Lemma kept_refl (l : list A) : Forall2 (Spec.kept key pos) l l.
Proof. induction l; constructor; [split; auto | assumption]. Qed.

Lemma kept_trans (l1 l2 l3 : list A) :
  Forall2 (Spec.kept key pos) l1 l2 -> Forall2 (Spec.kept key pos) l2 l3 -> Forall2 (Spec.kept key pos) l1 l3.
Proof.
  intros H12. revert l3. induction H12 as [|a b l1 l2 [Hk Hp] _ IH];
    intros l3 H23; inversion H23 as [|b' c l2' l3' [Hk' Hp'] H23' E1 E2]; subst;
    constructor; [split; [congruence | auto] | now apply IH].
Qed.

Lemma kept_visit (s : A) (i : nat) (l : list A) :
  Forall2 (Spec.kept key pos) l (Spec.slotVisit key pos place s i l).
Proof.
  unfold Spec.slotVisit. destruct (pos s); [apply kept_refl|].
  induction l as [|a l IH]; simpl; constructor; [|exact IH].
  destruct (key a =? key s); split; auto.
Qed.

Lemma kept_in_r (l1 l2 : list A) (n' : A) :
  Forall2 (Spec.kept key pos) l1 l2 -> In n' l2 -> exists n, In n l1 /\ Spec.kept key pos n n'.
Proof.
  induction 1 as [|a b l1 l2 Hab _ IH]; simpl; [tauto|].
  intros [<- | Hin].
  - exists a. auto.
  - destruct (IH Hin) as (n & Hn & Hk). exists n. auto.
Qed.

Lemma visit_places (s : A) (i : nat) (l : list A) (n : A) :
  pos s = None -> In n (Spec.slotVisit key pos place s i l) ->
  key n = key s -> pos n <> None.
Proof.
  unfold Spec.slotVisit. intros -> Hin Hk. apply in_map_iff in Hin as (m & <- & _).
  destruct (String.eqb_spec (key m) (key s)) as [E | E].
  - apply pos_place.
  - congruence.
Qed.

Lemma slots_after_visits (l : list A) (i : nat) (L : list A) :
  let R := JS.forEachIndex (Spec.slotVisit key pos place) i l L in
  Forall2 (Spec.kept key pos) L R /\
  (forall s, In s l -> pos s = None ->
     forall n', In n' R -> key n' = key s -> pos n' <> None) /\
  ((forall s, In s l -> pos s <> None) -> R = L).
Proof.
  revert i L. induction l as [|a l IH]; intros i L; simpl.
  - split; [apply kept_refl|]. split; [tauto | reflexivity].
  - destruct (IH (S i) (Spec.slotVisit key pos place a i L)) as (Hk & Hp & Hid).
    split; [|split].
    + eapply kept_trans; [apply kept_visit | exact Hk].
    + intros s [<- | Hs] Hnone n' Hn' Hkey.
      * destruct (kept_in_r _ _ n' Hk Hn') as (n & Hn & Hkn & Hpn).
        apply Hpn. apply (visit_places a i L n Hnone Hn). congruence.
      * now apply (Hp s Hs Hnone).
    + intros Hall. rewrite Hid by (intros s Hs; apply Hall; now right).
      unfold Spec.slotVisit.
      destruct (pos a) eqn:Ea; [reflexivity|].
      exfalso. now apply (Hall a (or_introl eq_refl)).
Qed.

(** The effect walks the list it updates. *)
Lemma slots_on_own_list (l : list A) :
  let R := JS.forEachIndex (Spec.slotVisit key pos place) 0 l l in
  map key R = map key l /\
  (forall n', In n' R -> pos n' <> None) /\
  ((forall s, In s l -> pos s <> None) -> R = l).
Proof.
  destruct (slots_after_visits l 0 l) as (Hk & Hp & Hid). cbv zeta.
  split; [|split; [|exact Hid]].
  - clear Hp Hid. induction Hk as [|a b l1 l2 [E _] _ IH]; simpl;
      [reflexivity | now rewrite E, IH].
  - intros n' Hn'. destruct (kept_in_r _ _ n' Hk Hn') as (n & Hn & Hkn & Hpn).
    destruct (pos n) eqn:En.
    + apply Hpn. discriminate.
    + now apply (Hp n Hn En n' Hn').
Qed.

End DefaultSlots.

Section DefaultSlotsEffect.
Import DeRequestState.

Lemma forEachIndex_proj {B St T : Type} (proj : St -> T)
    (f : B -> nat -> St -> St) (g : B -> nat -> T -> T)
    (l : list B) (i : nat) (s : St) :
  (forall b j st, proj (f b j st) = g b j (proj st)) ->
  proj (JS.forEachIndex f i l s) = JS.forEachIndex g i l (proj s).
Proof.
  intros H. revert i s. induction l as [|b l IH]; intros i s; simpl;
    [reflexivity|]. now rewrite IH, H.
Qed.

Lemma forEachIndex_frame {B St T : Type} (proj : St -> T)
    (f : B -> nat -> St -> St) (l : list B) (i : nat) (s : St) :
  (forall b j st, proj (f b j st) = proj st) ->
  proj (JS.forEachIndex f i l s) = proj s.
Proof.
  intros H. revert i s. induction l as [|b l IH]; intros i s; simpl;
    [reflexivity|]. now rewrite IH, H.
Qed.

Lemma state_ext (a b : DeRequestState.t) :
  techRequirements a = techRequirements b ->
  productRequirements a = productRequirements b ->
  existingTools a = existingTools b ->
  dataSources a = dataSources b ->
  transformationNodes a = transformationNodes b ->
  dataTargets a = dataTargets b ->
  connections a = connections b ->
  a = b.
Proof. destruct a, b. simpl. intros. subst. reflexivity. Qed.

(** What the effect leaves in each field. *)
Lemma assignDefaultPositions_fields (fs : DeRequestState.t) :
  let st' := VisualBuilder.assignDefaultPositions fs in
  dataSources st'
    = JS.forEachIndex
        (Spec.slotVisit DataSource.id DataSource.position
           (fun i n =>
              DataSource.merge n
                (DataSource.justPosition
                   (NodePosition.mk 50 (50 + JS.num i * 150)%Q))))
        0 (dataSources fs) (dataSources fs) /\
  transformationNodes st'
    = JS.forEachIndex
        (Spec.slotVisit TransformationNode.id TransformationNode.position
           (fun i n =>
              TransformationNode.merge n
                (TransformationNode.justPosition
                   (NodePosition.mk 350 (50 + JS.num i * 150)%Q))))
        0 (transformationNodes fs) (transformationNodes fs) /\
  dataTargets st'
    = JS.forEachIndex
        (Spec.slotVisit DataTarget.id DataTarget.position
           (fun i n =>
              DataTarget.merge n
                (DataTarget.justPosition
                   (NodePosition.mk 650 (50 + JS.num i * 150)%Q))))
        0 (dataTargets fs) (dataTargets fs) /\
  connections st' = connections fs /\
  techRequirements st' = techRequirements fs /\
  productRequirements st' = productRequirements fs /\
  existingTools st' = existingTools fs.
Proof.
  cbv zeta. unfold VisualBuilder.assignDefaultPositions.
  repeat split.
  - rewrite (forEachIndex_frame dataSources)
      by (intros b j st; now destruct (DataTarget.position b)).
    rewrite (forEachIndex_frame dataSources)
      by (intros b j st; now destruct (TransformationNode.position b)).
    apply forEachIndex_proj. intros b j st. unfold Spec.slotVisit.
    now destruct (DataSource.position b).
  - rewrite (forEachIndex_frame transformationNodes)
      by (intros b j st; now destruct (DataTarget.position b)).
    rewrite (forEachIndex_proj transformationNodes _
               (Spec.slotVisit TransformationNode.id TransformationNode.position
                  (fun i n =>
                     TransformationNode.merge n
                       (TransformationNode.justPosition
                          (NodePosition.mk 350 (50 + JS.num i * 150)%Q)))))
      by (intros b j st; unfold Spec.slotVisit;
          now destruct (TransformationNode.position b)).
    f_equal. apply (forEachIndex_frame transformationNodes).
    intros b j st. now destruct (DataSource.position b).
  - rewrite (forEachIndex_proj dataTargets _
               (Spec.slotVisit DataTarget.id DataTarget.position
                  (fun i n =>
                     DataTarget.merge n
                       (DataTarget.justPosition
                          (NodePosition.mk 650 (50 + JS.num i * 150)%Q)))))
      by (intros b j st; unfold Spec.slotVisit;
          now destruct (DataTarget.position b)).
    f_equal.
    rewrite (forEachIndex_frame dataTargets)
      by (intros b j st; now destruct (TransformationNode.position b)).
    apply (forEachIndex_frame dataTargets).
    intros b j st. now destruct (DataSource.position b).
  - rewrite (forEachIndex_frame connections)
      by (intros b j st; now destruct (DataTarget.position b)).
    rewrite (forEachIndex_frame connections)
      by (intros b j st; now destruct (TransformationNode.position b)).
    apply (forEachIndex_frame connections).
    intros b j st. now destruct (DataSource.position b).
  - rewrite (forEachIndex_frame techRequirements)
      by (intros b j st; now destruct (DataTarget.position b)).
    rewrite (forEachIndex_frame techRequirements)
      by (intros b j st; now destruct (TransformationNode.position b)).
    apply (forEachIndex_frame techRequirements).
    intros b j st. now destruct (DataSource.position b).
  - rewrite (forEachIndex_frame productRequirements)
      by (intros b j st; now destruct (DataTarget.position b)).
    rewrite (forEachIndex_frame productRequirements)
      by (intros b j st; now destruct (TransformationNode.position b)).
    apply (forEachIndex_frame productRequirements).
    intros b j st. now destruct (DataSource.position b).
  - rewrite (forEachIndex_frame existingTools)
      by (intros b j st; now destruct (DataTarget.position b)).
    rewrite (forEachIndex_frame existingTools)
      by (intros b j st; now destruct (TransformationNode.position b)).
    apply (forEachIndex_frame existingTools).
    intros b j st. now destruct (DataSource.position b).
Qed.

(** X21.  The effect that assigns default slots leaves every node of the
    graph with a position; it changes no id, no order and no connection, so
    ids resolve as before; and on a graph whose nodes all have a position
    it changes nothing. *)
Theorem assignDefaultPositions_spec (fs : DeRequestState.t) :
  let st' := VisualBuilder.assignDefaultPositions fs in
  Spec.allPositioned st' /\
  (forall k, App.idsOf k st' = App.idsOf k fs) /\
  connections st' = connections fs /\
  Spec.noOrphan st' = Spec.noOrphan fs /\
  (Spec.allPositioned fs -> st' = fs).
Proof.
  cbv zeta.
  destruct (assignDefaultPositions_fields fs)
    as (Es & Et & Eg & Ec & Etr & Epr & Eet). cbv zeta in *.
  destruct (slots_on_own_list DataSource.t DataSource.id DataSource.position
              (fun i n =>
                 DataSource.merge n
                   (DataSource.justPosition
                      (NodePosition.mk 50 (50 + JS.num i * 150)%Q)))
              (fun i n => eq_refl)
              (fun i n => ltac:(discriminate))
              (dataSources fs)) as (Ks & Ps & Is).
  destruct (slots_on_own_list TransformationNode.t TransformationNode.id
              TransformationNode.position
              (fun i n =>
                 TransformationNode.merge n
                   (TransformationNode.justPosition
                      (NodePosition.mk 350 (50 + JS.num i * 150)%Q)))
              (fun i n => eq_refl)
              (fun i n => ltac:(discriminate))
              (transformationNodes fs)) as (Kt & Pt & It).
  destruct (slots_on_own_list DataTarget.t DataTarget.id DataTarget.position
              (fun i n =>
                 DataTarget.merge n
                   (DataTarget.justPosition
                      (NodePosition.mk 650 (50 + JS.num i * 150)%Q)))
              (fun i n => eq_refl)
              (fun i n => ltac:(discriminate))
              (dataTargets fs)) as (Kg & Pg & Ig).
  cbv zeta in *. rewrite <- Es in Ks, Ps, Is. rewrite <- Et in Kt, Pt, It.
  rewrite <- Eg in Kg, Pg, Ig.
  assert (Hids : forall k,
            App.idsOf k (VisualBuilder.assignDefaultPositions fs)
            = App.idsOf k fs) by (intros k; destruct k; assumption).
  split; [|split; [|split; [|split]]].
  - repeat split; assumption.
  - exact Hids.
  - exact Ec.
  - now apply noOrphan_by_ids.
  - intros (Hs & Ht & Hg). apply state_ext; auto.
Qed.

Lemma assignDefaultPositions_spec_witness :
  VisualBuilder.assignDefaultPositions App.initialState = App.initialState.
Proof.
  apply (assignDefaultPositions_spec App.initialState).
  repeat split; simpl; intros n [<- | []]; discriminate.
Defined.

End DefaultSlotsEffect.

(* ================================================================== *)
(** * What the canvas never does to the connection list *)

Section EdgeInvariants.
Import Dom DeRequestState.

Lemma NoDup_snoc {B : Type} (l : list B) (b : B) :
  NoDup l -> ~ In b l -> NoDup (l ++ [b]).
Proof.
  induction 1 as [|a l Ha Hl IH]; simpl; intros Hb.
  - constructor; [tauto | constructor].
  - constructor.
    + rewrite in_app_iff. simpl. intros [H | [H | []]]; [tauto|].
      apply Hb. now left.
    + apply IH. intros H. apply Hb. now right.
Qed.

Lemma onAddConnection_keeps_edges (uuid sourceId targetId : string)
    (st : DeRequestState.t) :
  Spec.noSelfLoop (connections st) /\ NoDup (Spec.pairs (connections st)) ->
  Spec.noSelfLoop (connections (App.onAddConnection uuid sourceId targetId st)) /\
  NoDup (Spec.pairs (connections (App.onAddConnection uuid sourceId targetId st))).
Proof.
  intros [Hloop Hdup].
  destruct (String.eqb_spec sourceId targetId) as [E | E];
    [rewrite addConnection_rejects; auto|].
  destruct (linked_dec sourceId targetId (connections st)) as [Hl | Hn];
    [rewrite addConnection_rejects; auto|].
  rewrite (addConnection_appends st uuid _ _ E Hn). simpl. split.
  - intros c Hc. apply in_app_iff in Hc as [Hc | [<- | []]]; [now apply Hloop|].
    exact E.
  - unfold Spec.pairs. rewrite map_app. simpl. apply NoDup_snoc; [exact Hdup|].
    intros Hin. apply in_map_iff in Hin as (c & Hc & Hin). apply Hn.
    exists c. injection Hc as Hs Ht. auto.
Qed.

Lemma formState_handleMouseDown (e : MouseEvent) (w : VisualBuilder.World) :
  VisualBuilder.formState (VisualBuilder.handleMouseDown e w)
  = VisualBuilder.formState w.
Proof. unfold VisualBuilder.handleMouseDown. now destruct (_ || _). Qed.

Lemma formState_startNodeDrag (canvasRef : option DOMRect) (e : MouseEvent)
    (id : string) (pos : option NodePosition.t) (w : VisualBuilder.World) :
  VisualBuilder.formState (fst (VisualBuilder.startNodeDrag canvasRef e id pos w))
  = VisualBuilder.formState w.
Proof.
  unfold VisualBuilder.startNodeDrag.
  destruct (JS.truthy _); [reflexivity|].
  destruct (negb _); [reflexivity|]. now destruct pos.
Qed.

(** An event either leaves the connection list alone or is one call of
    [addConnection]. *)
Lemma step_connections (canvasRef : option DOMRect) (ev : VisualBuilder.Event)
    (w : VisualBuilder.World) :
  connections (VisualBuilder.formState (VisualBuilder.step canvasRef ev w))
    = connections (VisualBuilder.formState w) \/
  exists uuid s t,
    connections (VisualBuilder.formState (VisualBuilder.step canvasRef ev w))
    = connections (App.onAddConnection uuid s t (VisualBuilder.formState w)).
Proof.
  destruct ev as [on e | e | on uuid | | e | | | ].
  - left. destruct on as [|[| |] id pos]; simpl.
    + now rewrite formState_handleMouseDown.
    + pose proof (formState_startNodeDrag canvasRef e id pos w) as H.
      destruct (VisualBuilder.startNodeDrag canvasRef e id pos w) as [w1 [|]];
        simpl in H; [|rewrite formState_handleMouseDown]; now rewrite H.
    + pose proof (formState_startNodeDrag canvasRef e id pos w) as H.
      destruct (VisualBuilder.startNodeDrag canvasRef e id pos w) as [w1 [|]];
        simpl in H; [|rewrite formState_handleMouseDown]; now rewrite H.
    + reflexivity.
  - left. apply (onMouseMove_keeps_wire canvasRef e w).
  - destruct on as [|[| |] id pos]; try (left; reflexivity).
    change (VisualBuilder.step canvasRef
              (VisualBuilder.MouseUp (OnNode InputHandle id pos) uuid) w)
      with (VisualBuilder.endWiring uuid id w).
    unfold VisualBuilder.endWiring.
    destruct (VisualBuilder.connectingSourceId (VisualBuilder.ui w)) as [s|];
      [|left; reflexivity].
    destruct (JS.truthy (Some s) && negb (s =? id));
      [right; exists uuid, s, id | left]; reflexivity.
  - left. reflexivity.
  - left. now destruct canvasRef.
  - left. now destruct canvasRef.
  - left. now destruct canvasRef.
  - left. reflexivity.
Qed.

Lemma step_connections_basic (canvasRef : option DOMRect)
    (ev : VisualBuilderBasic.Event) (w : VisualBuilderBasic.World) :
  connections (VisualBuilderBasic.formState (VisualBuilderBasic.step canvasRef ev w))
    = connections (VisualBuilderBasic.formState w) \/
  exists uuid s t,
    connections
      (VisualBuilderBasic.formState (VisualBuilderBasic.step canvasRef ev w))
    = connections (App.onAddConnection uuid s t (VisualBuilderBasic.formState w)).
Proof.
  destruct ev as [on e | e | on uuid | ].
  - left. destruct on as [|[| |] id pos]; simpl; try reflexivity.
    + unfold VisualBuilderBasic.startNodeDrag.
      destruct (JS.truthy _); [reflexivity|]. now destruct pos.
    + unfold VisualBuilderBasic.startNodeDrag.
      destruct (JS.truthy _); [reflexivity|]. now destruct pos.
    + apply (startWiring_basic_source canvasRef e id w).
  - left. apply (onMouseMove_keeps_wire_basic canvasRef e w).
  - destruct on as [|[| |] id pos]; try (left; reflexivity).
    change (VisualBuilderBasic.step canvasRef
              (VisualBuilderBasic.MouseUp (OnNode InputHandle id pos) uuid) w)
      with (VisualBuilderBasic.endWiring uuid id w).
    unfold VisualBuilderBasic.endWiring.
    destruct (VisualBuilderBasic.connectingSourceId (VisualBuilderBasic.ui w))
      as [s|]; [|left; reflexivity].
    destruct (JS.truthy (Some s) && negb (s =? id));
      [right; exists uuid, s, id | left]; reflexivity.
  - left. reflexivity.
Qed.

(** X22.  Whatever pointer events the canvas receives, in either revision,
    it never stores a connection from a node to itself and never stores two
    connections with the same ordered pair of endpoints: a connection list
    free of both stays free of both. *)
Theorem canvas_events_keep_edges_simple :
  (forall (evs : list (option DOMRect * VisualBuilder.Event))
          (w : VisualBuilder.World),
     Spec.noSelfLoop (connections (VisualBuilder.formState w)) ->
     NoDup (Spec.pairs (connections (VisualBuilder.formState w))) ->
     Spec.noSelfLoop
       (connections (VisualBuilder.formState (VisualBuilder.run evs w))) /\
     NoDup (Spec.pairs
              (connections (VisualBuilder.formState (VisualBuilder.run evs w))))) /\
  (forall (evs : list (option DOMRect * VisualBuilderBasic.Event))
          (w : VisualBuilderBasic.World),
     Spec.noSelfLoop (connections (VisualBuilderBasic.formState w)) ->
     NoDup (Spec.pairs (connections (VisualBuilderBasic.formState w))) ->
     Spec.noSelfLoop
       (connections
          (VisualBuilderBasic.formState (VisualBuilderBasic.run evs w))) /\
     NoDup (Spec.pairs
              (connections
                 (VisualBuilderBasic.formState (VisualBuilderBasic.run evs w))))).
Proof.
  split.
  - induction evs as [|[c ev] evs IH]; intros w Hl Hd; simpl; [auto|].
    apply IH;
      destruct (step_connections c ev w) as [E | (uuid & s & t & E)];
      rewrite E; try assumption;
      now apply onAddConnection_keeps_edges.
  - induction evs as [|[c ev] evs IH]; intros w Hl Hd; simpl; [auto|].
    apply IH;
      destruct (step_connections_basic c ev w) as [E | (uuid & s & t & E)];
      rewrite E; try assumption;
      now apply onAddConnection_keeps_edges.
Qed.

Lemma canvas_events_keep_edges_simple_witness :
  let rect := Some (mkRect 0 0 800 600) in
  NoDup
    (Spec.pairs
       (connections
          (VisualBuilder.formState
             (VisualBuilder.run
                [(rect, VisualBuilder.MouseDown (OnNode OutputHandle "1" None)
                          (mkMouse 250 100 0));
                 (rect, VisualBuilder.MouseUp (OnNode InputHandle "t1" None) "u1");
                 (rect, VisualBuilder.MouseDown (OnNode OutputHandle "1" None)
                          (mkMouse 250 100 0));
                 (rect, VisualBuilder.MouseUp (OnNode InputHandle "1" None) "u2")]
                VisualBuilder.initialWorld)))).
Proof.
  cbv zeta.
  destruct canvas_events_keep_edges_simple as [Hfull _].
  apply Hfull.
  - simpl. intros c [<- | [<- | []]]; discriminate.
  - simpl. repeat constructor; simpl; intuition discriminate.
Defined.

End EdgeInvariants.

(* ================================================================== *)
(** * The curves drawn for connections *)

Section Curves.
Import DeRequestState VisualBuilder.
Local Open Scope Q_scope.

Lemma findNode_positioned (fs : DeRequestState.t) (id : string) (r : NodeRef) :
  Spec.allPositioned fs -> findNode fs id = Some r -> refPosition r <> None.
Proof.
  intros (Hs & Ht & Hg). unfold findNode.
  destruct (find _ (dataSources fs)) as [n|] eqn:Fs.
  { intros [= <-]. apply find_some in Fs as [Hin _]. now apply Hs. }
  destruct (find _ (transformationNodes fs)) as [n|] eqn:Ft.
  { intros [= <-]. apply find_some in Ft as [Hin _]. now apply Ht. }
  destruct (find _ (dataTargets fs)) as [n|] eqn:Fg; [|discriminate].
  intros [= <-]. apply find_some in Fg as [Hin _]. now apply Hg.
Qed.

(** X23.  The curve drawn for a connection starts at the output anchor of
    its source (200 right and 50 below the node's position), ends at the
    input anchor of its target (50 below the position), leaves and arrives
    horizontally, and has its first control point at least 50 to the right
    of the start and its second at least 50 to the left of the end,
    whichever way the nodes lie.  In a graph without orphan edges whose
    nodes all have a position, every connection gets a curve. *)
Theorem connectionCurve_shape (fs : DeRequestState.t) (conn : Connection.t) :
  (forall c, connectionCurve fs conn = Some c ->
     exists ps pt,
       Spec.positionOf fs (Connection.sourceId conn) = Some ps /\
       Spec.positionOf fs (Connection.targetId conn) = Some pt /\
       start c = NodePosition.mk (NodePosition.x ps + 200) (NodePosition.y ps + 50) /\
       finish c = NodePosition.mk (NodePosition.x pt) (NodePosition.y pt + 50) /\
       NodePosition.y (control1 c) = NodePosition.y (start c) /\
       NodePosition.y (control2 c) = NodePosition.y (finish c) /\
       NodePosition.x (start c) + 50 <= NodePosition.x (control1 c) /\
       NodePosition.x (control2 c) <= NodePosition.x (finish c) - 50) /\
  (Spec.noOrphan fs = true -> Spec.allPositioned fs ->
   In conn (connections fs) -> connectionCurve fs conn <> None).
Proof.
  split.
  - intros c. unfold connectionCurve, Spec.positionOf.
    destruct (findNode fs (Connection.sourceId conn)) as [s|]; [|discriminate].
    destruct (findNode fs (Connection.targetId conn)) as [t|]; [|discriminate].
    unfold getNodeCenter, getNodeInputPos.
    destruct (refPosition s) as [ps|]; [|discriminate].
    destruct (refPosition t) as [pt|]; [|discriminate].
    intros H.
    assert (E := f_equal (fun o => match o with Some v => v | None => c end) H).
    cbv beta iota in E. subst c. clear H. exists ps, pt.
    cbn [start finish control1 control2 NodePosition.x NodePosition.y].
    set (d := JS.Math_abs _).
    assert (Hd : 0 <= d) by apply Qabs_nonneg.
    repeat split; lra.
  - intros Ho Hp Hin. unfold Spec.noOrphan in Ho. rewrite forallb_forall in Ho.
    specialize (Ho conn Hin). apply andb_true_iff in Ho as [Hs Ht].
    unfold Spec.resolves in Hs, Ht. unfold connectionCurve.
    destruct (findNode fs (Connection.sourceId conn)) as [s|] eqn:Fs;
      [|discriminate].
    destruct (findNode fs (Connection.targetId conn)) as [t|] eqn:Ft;
      [|discriminate].
    pose proof (findNode_positioned fs _ s Hp Fs) as Ps.
    pose proof (findNode_positioned fs _ t Hp Ft) as Pt.
    destruct (refPosition s); [|congruence].
    destruct (refPosition t); [discriminate | congruence].
Qed.

Lemma connectionCurve_shape_witness :
  connectionCurve App.initialState (Connection.mk "c1" "1" "t1") <> None.
Proof.
  apply (connectionCurve_shape App.initialState (Connection.mk "c1" "1" "t1")).
  - reflexivity.
  - repeat split; simpl; intros n [<- | []]; discriminate.
  - simpl. auto.
Defined.

End Curves.

(* ================================================================== *)
(** * Removals against additions, and a release on an input handle *)

Section StoreRoundTrips.
Import Dom DeRequestState.
Local Open Scope Q_scope.

Lemma filter_snoc_id {B : Type} (key : B -> string) (id : string) (l : list B)
    (b : B) :
  ~ In id (map key l) -> key b = id ->
  filter (fun n => negb (key n =? id)%string) (l ++ [b]) = l.
Proof.
  intros Hn Hb. rewrite filter_app. simpl. rewrite Hb, String.eqb_refl. simpl.
  rewrite app_nil_r. apply filter_all. intros a Ha.
  apply negb_true_iff, String.eqb_neq. intros E. apply Hn. rewrite <- E.
  now apply in_map.
Qed.

(** X24.  Adding a node and then removing it with the remover of its kind
    restores the state, provided the id was not in use: no node of that
    kind had it and no connection referred to it. *)
Theorem add_then_remove_node (kind : App.NodeKind) (uuid : string)
    (position : option NodePosition.t) (st : DeRequestState.t) :
  ~ In uuid (App.idsOf kind st) ->
  (forall c, In c (connections st) ->
     Connection.sourceId c <> uuid /\ Connection.targetId c <> uuid) ->
  App.removeNode kind uuid (App.addNode kind uuid position st) = st.
Proof.
  intros Hfresh Hfree.
  assert (Hc : filter (App.notTouching uuid) (connections st) = connections st).
  { apply filter_all. intros c Hin. now apply notTouching_spec, Hfree. }
  destruct st as [tr pr et ds ts gs cs]. simpl in *.
  destruct kind; simpl in *;
    unfold App.removeSourceNode, App.removeTransformationNode,
      App.removeTargetNode, App.addSourceNode, App.addTransformationNode,
      App.addTargetNode; simpl; rewrite Hc; f_equal;
    now apply filter_snoc_id.
Qed.

Lemma add_then_remove_node_witness :
  App.removeNode App.Target "n1"
    (App.addNode App.Target "n1" None App.initialState) = App.initialState.
Proof.
  apply add_then_remove_node.
  - simpl. intros [H | []]. discriminate H.
  - simpl. intros c [<- | [<- | []]]; split; discriminate.
Defined.

Lemma NoDup_map_filter {B C : Type} (f : B -> C) (p : B -> bool) (l : list B) :
  NoDup (map f l) -> NoDup (map f (filter p l)).
Proof.
  induction l as [|a l IH]; simpl; [auto|]. intros H.
  inversion H as [|x m Hx Hm]; subst.
  destruct (p a); simpl; [|now apply IH].
  constructor; [|now apply IH].
  intros Hin. apply Hx. apply in_map_iff in Hin as (b & Hb & Hin).
  apply filter_In in Hin as [Hin _]. rewrite <- Hb. now apply in_map.
Qed.

(** X25.  The removers of the store keep the connection list free of
    self-loops and of repeated ordered pairs: removing a node of any kind,
    or a connection, from a list free of both leaves a list free of
    both. *)
Theorem removals_keep_edges_simple (st : DeRequestState.t) (id : string) :
  Spec.noSelfLoop (connections st) ->
  NoDup (Spec.pairs (connections st)) ->
  (forall kind,
     Spec.noSelfLoop (connections (App.removeNode kind id st)) /\
     NoDup (Spec.pairs (connections (App.removeNode kind id st)))) /\
  Spec.noSelfLoop (connections (App.removeConnection id st)) /\
  NoDup (Spec.pairs (connections (App.removeConnection id st))).
Proof.
  intros Hl Hd. split; [intros kind; rewrite connections_removeNode|];
    (split;
     [intros c Hc; apply filter_In in Hc as [Hc _]; now apply Hl
     | now apply NoDup_map_filter]).
Qed.

Lemma removals_keep_edges_simple_witness :
  NoDup (Spec.pairs (connections (App.removeConnection "c1" App.initialState))).
Proof.
  apply (removals_keep_edges_simple App.initialState "c1").
  - simpl. intros c [<- | [<- | []]]; discriminate.
  - simpl. repeat constructor; simpl; intuition discriminate.
Defined.

(** X26.  A release on an input handle ends a wire but not a drag: in the
    revision with a viewport, when no pan and no wire is in progress, after
    a press with the primary button on the input handle of a node of
    non-empty id (which starts a drag of that node, the handle binding no
    press handler of its own) and a release on an input handle, the node is
    still being dragged and the graph is unchanged; the next pointer move
    over the mounted canvas, with no button held, stores a new position for
    it: in exact arithmetic and for a non-zero zoom, the old one displaced
    by the pointer's displacement over the zoom, on each axis where that is
    not below -500. *)
Theorem release_on_input_handle_keeps_drag (rect : DOMRect)
    (press move : MouseEvent) (w : VisualBuilder.World)
    (id other uuid : string) (pos otherPos : option NodePosition.t)
    (p0 : NodePosition.t) :
  VisualBuilder.isPanning (VisualBuilder.ui w) = false ->
  JS.truthy (VisualBuilder.connectingSourceId (VisualBuilder.ui w)) = false ->
  button press = 0%nat ->
  id <> ""%string ->
  Spec.positionOf (VisualBuilder.formState w) id = Some p0 ->
  pos = Some p0 ->
  ~ Viewport.zoom (VisualBuilder.viewport (VisualBuilder.ui w)) == 0 ->
  let zoom := Viewport.zoom (VisualBuilder.viewport (VisualBuilder.ui w)) in
  let w1 := VisualBuilder.step (Some rect)
              (VisualBuilder.MouseDown (OnNode InputHandle id pos) press) w in
  let w2 := VisualBuilder.step (Some rect)
              (VisualBuilder.MouseUp (OnNode InputHandle other otherPos) uuid)
              w1 in
  let w3 := VisualBuilder.step (Some rect) (VisualBuilder.MouseMove move) w2 in
  let newX := NodePosition.x p0 + (clientX move - clientX press) / zoom in
  let newY := NodePosition.y p0 + (clientY move - clientY press) / zoom in
  VisualBuilder.draggingId (VisualBuilder.ui w2) = Some id /\
  VisualBuilder.formState w2 = VisualBuilder.formState w /\
  exists p,
    Spec.positionOf (VisualBuilder.formState w3) id = Some p /\
    (-500 <= newX -> NodePosition.x p == newX) /\
    (-500 <= newY -> NodePosition.y p == newY).
Proof.
  intros Hpan Hwire Hbtn Hid Hpos -> Hz zoom w1 w2 w3 newX newY.
  assert (Hknown := positionOf_known _ _ _ Hpos).
  assert (E1 : w1 = VisualBuilder.setDragOffset
                      (NodePosition.mk
                         (NodePosition.x
                            (VisualBuilder.screenToWorld (Some rect)
                               (VisualBuilder.viewport (VisualBuilder.ui w))
                               (clientX press) (clientY press))
                          - NodePosition.x p0)
                         (NodePosition.y
                            (VisualBuilder.screenToWorld (Some rect)
                               (VisualBuilder.viewport (VisualBuilder.ui w))
                               (clientX press) (clientY press))
                          - NodePosition.y p0))
                      (VisualBuilder.setHasMoved false
                         (VisualBuilder.setDraggingId (Some id) w))).
  { subst w1. simpl. unfold VisualBuilder.startNodeDrag.
    rewrite Hwire, Hbtn. reflexivity. }
  assert (E2 : w2 = VisualBuilder.setMousePos None
                      (VisualBuilder.setConnectingSourceId None w1)).
  { subst w2.
    change (VisualBuilder.step (Some rect)
              (VisualBuilder.MouseUp (OnNode InputHandle other otherPos) uuid) w1)
      with (VisualBuilder.endWiring uuid other w1).
    unfold VisualBuilder.endWiring.
    assert (Hw1 : JS.truthy (VisualBuilder.connectingSourceId
                               (VisualBuilder.ui w1)) = false)
      by (rewrite E1; exact Hwire).
    destruct (VisualBuilder.connectingSourceId (VisualBuilder.ui w1)) as [s|];
      [rewrite Hw1|]; reflexivity. }
  split; [rewrite E2, E1; reflexivity|].
  split; [rewrite E2, E1; reflexivity|].
  destruct (drag_move_viewport rect move w2 id) as (p & Hp & Hx & Hy & _);
    try (rewrite E2, E1; simpl; assumption); try assumption.
  { rewrite E2, E1. reflexivity. }
  { rewrite E2, E1. reflexivity. }
  exists p. split; [exact Hp|].
  rewrite Hx, Hy, E2, E1. simpl. fold zoom.
  assert (Ex : (clientX move - left rect
                - Viewport.x (VisualBuilder.viewport (VisualBuilder.ui w))) / zoom
               - ((clientX press - left rect
                   - Viewport.x (VisualBuilder.viewport (VisualBuilder.ui w))) / zoom
                  - NodePosition.x p0) == newX)
    by (unfold newX; field; exact Hz).
  assert (Ey : (clientY move - top rect
                - Viewport.y (VisualBuilder.viewport (VisualBuilder.ui w))) / zoom
               - ((clientY press - top rect
                   - Viewport.y (VisualBuilder.viewport (VisualBuilder.ui w))) / zoom
                  - NodePosition.y p0) == newY)
    by (unfold newY; field; exact Hz).
  unfold JS.Math_max. split.
  - intros H. rewrite Q.max_r; [exact Ex | now rewrite Ex].
  - intros H. rewrite Q.max_r; [exact Ey | now rewrite Ey].
Qed.

Lemma release_on_input_handle_keeps_drag_witness :
  let rect := Some (mkRect 0 0 800 600) in
  let w2 :=
    VisualBuilder.run
      [(rect, VisualBuilder.MouseDown
                (OnNode InputHandle "10" (Some (NodePosition.mk 650 50)))
                (mkMouse 650 100 0));
       (rect, VisualBuilder.MouseUp
                (OnNode InputHandle "10" (Some (NodePosition.mk 650 50))) "u1")]
      VisualBuilder.initialWorld in
  VisualBuilder.draggingId (VisualBuilder.ui w2) = Some "10"%string.
Proof.
  cbv zeta.
  apply (release_on_input_handle_keeps_drag (mkRect 0 0 800 600)
           (mkMouse 650 100 0) (mkMouse 0 0 0) VisualBuilder.initialWorld
           "10" "10" "u1" (Some (NodePosition.mk 650 50))
           (Some (NodePosition.mk 650 50)) (NodePosition.mk 650 50));
    [reflexivity | reflexivity | reflexivity | discriminate
    | reflexivity | reflexivity
    | simpl; intros H; vm_compute in H; discriminate H].
Defined.

End StoreRoundTrips.
